(** * Slow-node detection: bisection search, pairwise analysis, outlier tests

    A shallow embedding of
      - [scripts/analysis/bisection_detection.py]
          ([BisectionNodeTester], [PairwiseNodeTester], [main]),
      - [scripts/analysis/detect_slow_nodes.py] ([SlowNodeDetector]) and
      - [scripts/analysis/node_isolation_helper.py]
          ([NodeIsolator.update_hostfile], [load_bad_nodes_from_report]),
    followed by the properties of the cluster-health specification that
    concern them, and by further properties of the same code.

    Conventions of the embedding.
      - A Python [float] is an IEEE-754 binary64 number: [spec_float] with
        precision 53 and maximal exponent 1024, operations rounding to
        nearest-even.  Comparisons with a NaN are false, as in Python.
      - The numpy reductions the code calls ([np.mean], [np.std],
        [np.percentile]) are written out from their documented definitions
        over these floats, the sums in the order in which numpy adds the
        elements of an array (pairwise summation).
      - Python sets are [gset string]; dicts whose iteration order is
        observable are insertion-ordered association lists.
      - Methods take the object ([self]) as an argument and hand the updated
        object back.
      - The external benchmark (the [mpirun] subprocess together with
        [_parse_bandwidth] on its log) is an oracle, and the testers get
        the host file parsed.  Printing, wall-clock timestamps and
        temporary host files do not enter the values the testers compute,
        and are left out of them.  Of writing the bisection report with
        [json.dump] the one way to fail is kept: a verdict that is a
        [numpy.bool_] cannot be serialised, the call raises [TypeError]
        and no report is returned.
      - Host files are modelled on their own, as texts: a text is a
        [string] whose characters are the code points below 256, a file is
        its content, and the platform ends lines with a line feed.  The
        report files are modelled as the JSON values they hold. *)

From Stdlib Require Import ZArith List Bool.
From Stdlib Require Import Floats.SpecFloat Sorting.Sorted Strings.Ascii.
From stdpp Require Import base gmap sets list strings pretty.
From Equations Require Import Equations.

Local Open Scope Z_scope.
#[local] Set Warnings "-clear-no-such-hyp,-register-all".

(** ** Python floats *)

Module F64.

Definition prec : Z := 53.
Definition emax : Z := 1024.

Definition add : spec_float → spec_float → spec_float := SFadd prec emax.
Definition sub : spec_float → spec_float → spec_float := SFsub prec emax.
Definition mul : spec_float → spec_float → spec_float := SFmul prec emax.
Definition div : spec_float → spec_float → spec_float := SFdiv prec emax.
Definition sqrt : spec_float → spec_float := SFsqrt prec emax.
Definition abs : spec_float → spec_float := SFabs.

(** [float(z)] for an integer [z]. *)
Definition of_Z (z : Z) : spec_float := binary_normalize prec emax z 0 false.
Definition of_nat (n : nat) : spec_float := of_Z (Z.of_nat n).

(** The literal written [p/q] in decimal ([0.8] is [ratio 8 10]): the
    binary64 number nearest to the quotient. *)
Definition ratio (p q : Z) : spec_float := div (of_Z p) (of_Z q).

Definition zero : spec_float := S754_zero false.

(** [x == y], [x < y], [x > y], [x >= y]. *)
Definition eqb (x y : spec_float) : bool := SFeqb x y.
Definition ltb (x y : spec_float) : bool := SFltb x y.
Definition gtb (x y : spec_float) : bool := SFltb y x.
Definition geb (x y : spec_float) : bool := SFleb y x.

Definition is_nan (x : spec_float) : bool :=
  match x with S754_nan => true | _ => false end.

End F64.

(** Truth value of an optional float: [None] and [0.0] are false. *)
Definition truthy (x : option spec_float) : bool :=
  match x with
  | Some v => negb (F64.eqb v F64.zero)
  | None => false
  end.

(** ** numpy reductions

    [np.mean] is the sum of the elements divided by their number, [np.std]
    the square root of the mean of the squared deviations from the mean
    (population standard deviation, [ddof = 0]).  The sum is numpy's
    pairwise summation of a contiguous array of doubles, added to the
    identity [0.0]: fewer than 8 elements are added from left to right;
    a block of 8 to 128 elements is summed with 8 accumulators, which are
    then added as a balanced tree, and the elements after the last full
    group of 8 are added one by one; a longer array is cut in two near its
    middle, at a multiple of 8, and the sums of the two parts are added.
    [np.percentile] is the default, linearly interpolated one: on the
    sorted samples, at the virtual index [(n - 1) * q / 100], between the
    two neighbouring samples; a NaN among the samples makes it NaN. *)

Module np.

(** One turn of the unrolled loop: the eight accumulators take the next
    eight elements. *)
Fixpoint accumulate8 (turns : nat) (r a : list spec_float)
    : list spec_float * list spec_float :=
  match turns with
  | O => (r, a)
  | S turns => accumulate8 turns (zip_with F64.add r (take 8 a)) (drop 8 a)
  end.

(** A block of 8 to 128 elements. *)
Definition block_sum (a : list spec_float) : spec_float :=
  match accumulate8 (length a / 8 - 1) (take 8 a) (drop 8 a) with
  | ([r0; r1; r2; r3; r4; r5; r6; r7], rest) =>
      fold_left F64.add rest
        (F64.add (F64.add (F64.add r0 r1) (F64.add r2 r3))
                 (F64.add (F64.add r4 r5) (F64.add r6 r7)))
  | _ => S754_nan
  end.

Equations? pairwise_sum (a : list spec_float) : spec_float
    by wf (length a) lt :=
pairwise_sum a with le_lt_dec (length a) 128 := {
  | left Hblock =>
      if (length a <? 8)%nat then fold_left F64.add a (S754_zero true)
      else block_sum a
  | right Hlong =>
      let n2 := (length a / 2 - (length a / 2) mod 8)%nat in
      F64.add (pairwise_sum (take n2 a)) (pairwise_sum (drop n2 a)) }.
Proof.
  all: clear pairwise_sum.
  all: change ((Nat.divmod (length a) 1 0 1).1
               - (7 - (Nat.divmod (Nat.divmod (length a) 1 0 1).1 7 0 7).2))%nat
         with (length a / 2 - (length a / 2) mod 8)%nat in n2.
  all: assert (64 ≤ length a / 2 < length a)%nat as Hhalf
         by (split; [apply (Nat.div_le_lower_bound _ 2 64); lia
                    |apply Nat.div_lt; lia]).
  all: pose proof (Nat.mod_upper_bound (length a / 2) 8) as Hmod.
  - subst n2. rewrite length_take. lia.
  - subst n2. rewrite length_drop. lia.
Qed.

(** [np.sum], that is [np.add.reduce]. *)
Definition sum (a : list spec_float) : spec_float :=
  F64.add F64.zero (pairwise_sum a).

Definition mean (a : list spec_float) : spec_float :=
  F64.div (sum a) (F64.of_nat (length a)).

Definition std (a : list spec_float) : spec_float :=
  let arrmean := mean a in
  let x := map (λ v, F64.sub v arrmean) a in
  let x := map (λ d, F64.mul d d) x in
  F64.sqrt (mean x).

Fixpoint insort (v : spec_float) (a : list spec_float) : list spec_float :=
  match a with
  | [] => [v]
  | w :: a' => if SFleb v w then v :: a else w :: insort v a'
  end.

Definition sort (a : list spec_float) : list spec_float :=
  foldr insort [] a.

(** [a + (b - a) * t], computed from the side of [b] when [t >= 0.5]. *)
Definition _lerp (a b t : spec_float) : spec_float :=
  let diff_b_a := F64.sub b a in
  if F64.geb t (F64.ratio 1 2)
  then F64.sub b (F64.mul diff_b_a (F64.sub (F64.of_Z 1) t))
  else F64.add a (F64.mul diff_b_a t).

(** [q] is a whole number of percent.  For the two values the code
    uses, 25 and 75, the quotient [q / 100], the virtual index and its
    fractional part are binary64 numbers, so they are computed exactly. *)
Definition percentile (a : list spec_float) (q : Z) : spec_float :=
  if existsb F64.is_nan a then S754_nan
  else
    let arr := sort a in
    let n := Z.of_nat (length a) in
    let virtual_index := (n - 1) * q in
    let previous_index := virtual_index / 100 in
    let next_index := Z.min (previous_index + 1) (n - 1) in
    let gamma := F64.ratio (virtual_index mod 100) 100 in
    _lerp (nth (Z.to_nat previous_index) arr S754_nan)
          (nth (Z.to_nat next_index) arr S754_nan) gamma.

End np.

(** ** Insertion-ordered dicts *)

Fixpoint dict_get {V} (k : string) (d : list (string * V)) : option V :=
  match d with
  | [] => None
  | (k', v) :: d' => if decide (k' = k) then Some v else dict_get k d'
  end.

(** [d[k] = v]: an existing key keeps its place, a new one goes last. *)
Fixpoint dict_set {V} (k : string) (v : V) (d : list (string * V))
    : list (string * V) :=
  match d with
  | [] => [(k, v)]
  | (k', v') :: d' =>
      if decide (k' = k) then (k', v) :: d' else (k', v') :: dict_set k v d'
  end.

(** ** [bisection_detection.py]: [BisectionNodeTester] *)

Module BisectionNodeTester.

(** What one benchmark invocation does inside the [try] block of
    [_run_nccl_test]: the subprocess returns and its log is parsed
    ([bandwidth] is what [_parse_bandwidth] returns, [None] when no line
    matches), or the subprocess times out, or another exception is raised. *)
Inductive outcome :=
| Exited (returncode : Z) (bandwidth : option spec_float)
| TimeoutExpired
| Raised (msg : string).

(** The [result] dict of [_run_nccl_test].  A key that is missing and a key
    bound to [None] are both [None]: the code reads them with [.get].
    [numpy_verdict] tells of what type the value of ["is_good"] is: a
    [numpy.bool_] when it comes from comparing the bandwidth, which
    [_parse_bandwidth] returns as a numpy float, with the threshold, and a
    Python [bool] otherwise. *)
Record test_result := {
  nodes : list string;
  node_count : nat;
  test_name : string;
  success : bool;
  return_code : option Z;
  bandwidth_gb_s : option spec_float;
  is_good : bool;
  numpy_verdict : bool;
  error : option string;
}.

Record tester := {
  gpus_per_node : Z;
  threshold_gb_s : option spec_float;
  hosts : list string;
  test_history : list test_result;
  bad_nodes : gset string;
  good_nodes : gset string;
}.

(** [__init__], with the host file already parsed. *)
Definition new (hostfile : list string) (gpus : Z)
    (threshold : option spec_float) : tester :=
  {| gpus_per_node := gpus; threshold_gb_s := threshold; hosts := hostfile;
     test_history := []; bad_nodes := ∅; good_nodes := ∅ |}.

Definition append_history (r : test_result) (self : tester) : tester :=
  {| gpus_per_node := gpus_per_node self;
     threshold_gb_s := threshold_gb_s self;
     hosts := hosts self;
     test_history := test_history self ++ [r];
     bad_nodes := bad_nodes self;
     good_nodes := good_nodes self |}.

Definition update_good_nodes (ns : list string) (self : tester) : tester :=
  {| gpus_per_node := gpus_per_node self;
     threshold_gb_s := threshold_gb_s self;
     hosts := hosts self;
     test_history := test_history self;
     bad_nodes := bad_nodes self;
     good_nodes := good_nodes self ∪ list_to_set ns |}.

Definition set_threshold (t : spec_float) (self : tester) : tester :=
  {| gpus_per_node := gpus_per_node self;
     threshold_gb_s := Some t;
     hosts := hosts self;
     test_history := test_history self;
     bad_nodes := bad_nodes self;
     good_nodes := good_nodes self |}.

(** Lines 135-139: [bandwidth >= threshold] if both are truthy, else the
    success flag. *)
Definition verdict (bandwidth threshold : option spec_float) (ok : bool)
    : bool :=
  if truthy bandwidth && truthy threshold then
    match bandwidth, threshold with
    | Some b, Some t => F64.geb b t
    | _, _ => false
    end
  else ok.

(** The [result] dict at the end of the [try]/[except]. *)
Definition nccl_result (threshold : option spec_float) (ns : list string)
    (name : string) (o : outcome) : test_result :=
  match o with
  | Exited rc bandwidth =>
      {| nodes := ns; node_count := length ns; test_name := name;
         success := (rc =? 0);
         return_code := Some rc;
         bandwidth_gb_s := bandwidth;
         is_good := verdict bandwidth threshold (rc =? 0);
         numpy_verdict := truthy bandwidth && truthy threshold;
         error := None |}
  | TimeoutExpired =>
      {| nodes := ns; node_count := length ns; test_name := name;
         success := false; return_code := None; bandwidth_gb_s := None;
         is_good := false; numpy_verdict := false;
         error := Some "Test timeout" |}
  | Raised msg =>
      {| nodes := ns; node_count := length ns; test_name := name;
         success := false; return_code := None; bandwidth_gb_s := None;
         is_good := false; numpy_verdict := false; error := Some msg |}
  end.

(** The report of [run_bisection_detection]; the two node lists are made
    from sets, so only their members matter. *)
Record report := {
  total_nodes : nat;
  total_tests : nat;
  report_threshold_gb_s : option spec_float;
  report_bad_nodes : gset string;
  report_good_nodes : gset string;
  report_test_history : list test_result;
}.

Section Methods.

(** The benchmark oracle: the outcome of the invocation made after [k]
    earlier ones, on the given nodes with the given number of processes. *)
Variable mpirun : nat → list string → Z → outcome.

Definition _run_nccl_test (self : tester) (ns : list string) (name : string)
    : test_result * tester :=
  let total_procs := Z.of_nat (length ns) * gpus_per_node self in
  let result :=
    nccl_result (threshold_gb_s self) ns name
      (mpirun (length (test_history self)) ns total_procs) in
  (result, append_history result self).

Equations? _bisect_test (ns : list string) (depth : nat) (self : tester)
    : gset string * tester by wf (length ns) lt :=
_bisect_test [] depth self := (∅, self);
_bisect_test [node] depth self :=
  let r := _run_nccl_test self [node] ("single_node_depth" +:+ pretty depth) in
  if negb (is_good r.1) then ({[ node ]}, r.2) else (∅, r.2);
_bisect_test (n1 :: n2 :: rest) depth self :=
  let r := _run_nccl_test self (n1 :: n2 :: rest)
             ("group_depth" +:+ pretty depth) in
  if is_good r.1 then (∅, update_good_nodes (n1 :: n2 :: rest) r.2)
  else
    let mid := (length (n1 :: n2 :: rest) / 2)%nat in
    let left_nodes := take mid (n1 :: n2 :: rest) in
    let right_nodes := drop mid (n1 :: n2 :: rest) in
    let left_bad := _bisect_test left_nodes (S depth) r.2 in
    let right_bad := _bisect_test right_nodes (S depth) left_bad.2 in
    (left_bad.1 ∪ right_bad.1, right_bad.2).
Proof.
  all: clear _bisect_test.
  all: change (Nat.divmod (length rest) 1 1 1).1
         with (length (n1 :: n2 :: rest) / 2)%nat in mid.
  all: assert (1 ≤ mid < length (n1 :: n2 :: rest))%nat as Hmid
         by (subst mid; split;
             [ apply (Nat.div_le_lower_bound _ 2 1); cbn [length]; lia
             | apply Nat.div_lt; cbn [length]; lia ]).
  all: cbn [length] in Hmid.
  - subst left_nodes. rewrite length_take. cbn [length]. lia.
  - subst right_nodes. rewrite length_drop. cbn [length]. lia.
Qed.

(** Lines 245-252: the baseline that establishes a missing threshold. *)
Definition establish_threshold (self : tester) : tester :=
  if negb (truthy (threshold_gb_s self)) then
    let baseline := _run_nccl_test self (take 2 (hosts self)) "baseline" in
    if truthy (bandwidth_gb_s baseline.1) then
      match bandwidth_gb_s baseline.1 with
      | Some bw => set_threshold (F64.mul bw (F64.ratio 8 10)) baseline.2
      | None => baseline.2
      end
    else baseline.2
  else self.

(** Whether [json.dump] accepts the test history: it raises a [TypeError]
    on a [numpy.bool_]. *)
Definition json_serializable (history : list test_result) : bool :=
  forallb (λ r, negb (numpy_verdict r)) history.

(** [run_bisection_detection]: the report returned, with the tester
    afterwards.  [None] for the report is the [TypeError] that [json.dump]
    (line 277) raises while the report is written; the tester has made its
    tests by then. *)
Definition run_bisection_detection (self : tester)
    : option report * tester :=
  let self := establish_threshold self in
  let found := _bisect_test (hosts self) 0 self in
  let self := found.2 in
  let report :=
    {| total_nodes := length (hosts self);
       total_tests := length (test_history self);
       report_threshold_gb_s := threshold_gb_s self;
       report_bad_nodes := found.1;
       report_good_nodes := good_nodes self;
       report_test_history := test_history self |} in
  (if json_serializable (test_history self) then Some report else None, self).

End Methods.

End BisectionNodeTester.

(** ** [bisection_detection.py]: [PairwiseNodeTester] *)

(** [itertools.combinations(l, 2)]. *)
Fixpoint combinations2 {A} (l : list A) : list (A * A) :=
  match l with
  | [] => []
  | x :: l' => map (pair x) l' ++ combinations2 l'
  end.

Module PairwiseNodeTester.

(** An entry of [self.pairwise_results]. *)
Record pair_result := {
  nodes : list string;
  bandwidth_gb_s : option spec_float;
  success : bool;
}.

Record tester := {
  gpus_per_node : Z;
  hosts : list string;
  pairwise_results : list (string * pair_result);
}.

Definition new (hostfile : list string) (gpus : Z) : tester :=
  {| gpus_per_node := gpus; hosts := hostfile; pairwise_results := [] |}.

Definition set_pairwise_results (d : list (string * pair_result))
    (self : tester) : tester :=
  {| gpus_per_node := gpus_per_node self; hosts := hosts self;
     pairwise_results := d |}.

(** A value of the [node_stats] defaultdict. *)
Record stats := {
  bandwidths : list spec_float;
  failures : nat;
  tests : nat;
}.

Definition default_stats : stats :=
  {| bandwidths := []; failures := 0; tests := 0 |}.

(** One turn of the inner loop, lines 395-400. *)
Definition record_pair (bw : option spec_float) (ok : bool)
    (node_stats : list (string * stats)) (node : string)
    : list (string * stats) :=
  let s := default (default_stats) (dict_get node node_stats) in
  dict_set node
    {| bandwidths :=
         if truthy bw then bandwidths s ++ option_list bw else bandwidths s;
       failures := if negb ok then S (failures s) else failures s;
       tests := S (tests s) |}
    node_stats.

(** Lines 388-400. *)
Definition collect_node_stats (results : list (string * pair_result))
    : list (string * stats) :=
  fold_left
    (λ node_stats kv,
       fold_left (record_pair (bandwidth_gb_s kv.2) (success kv.2))
                 (nodes kv.2) node_stats)
    results [].

(** A value of [analysis["node_statistics"]]. *)
Record node_statistics_entry := {
  average_bandwidth_gb_s : spec_float;
  std_bandwidth_gb_s : spec_float;
  failure_count : nat;
  total_tests : nat;
  failure_rate : spec_float;
}.

(** An element of [analysis["problematic_nodes"]]. *)
Record problematic_node := {
  node : string;
  pn_average_bandwidth_gb_s : spec_float;
  pn_failure_rate : spec_float;
  reason : string;
}.

Record analysis_result := {
  node_statistics : list (string * node_statistics_entry);
  problematic_nodes : list problematic_node;
  overall_mean_bandwidth : option spec_float;
  overall_std_bandwidth : option spec_float;
  threshold_bandwidth : option spec_float;
}.

(** Lines 408-421: only nodes with at least one bandwidth sample get an
    entry. *)
Definition node_statistics_table (node_stats : list (string * stats))
    : list (string * node_statistics_entry) :=
  omap
    (λ kv : string * stats,
       match bandwidths kv.2 with
       | [] => None
       | _ :: _ =>
           Some (kv.1,
                 {| average_bandwidth_gb_s := np.mean (bandwidths kv.2);
                    std_bandwidth_gb_s := np.std (bandwidths kv.2);
                    failure_count := failures kv.2;
                    total_tests := tests kv.2;
                    failure_rate :=
                      if (0 <? Z.of_nat (tests kv.2))
                      then F64.div (F64.of_nat (failures kv.2))
                                   (F64.of_nat (tests kv.2))
                      else F64.zero |})
       end)
    node_stats.

(** The test of line 434. *)
Definition is_problematic (threshold : spec_float) (s : node_statistics_entry)
    : bool :=
  F64.ltb (average_bandwidth_gb_s s) threshold
  || F64.gtb (failure_rate s) (F64.ratio 2 10).

(** Lines 435-440. *)
Definition flag (threshold : spec_float) (kv : string * node_statistics_entry)
    : problematic_node :=
  {| node := kv.1;
     pn_average_bandwidth_gb_s := average_bandwidth_gb_s kv.2;
     pn_failure_rate := failure_rate kv.2;
     reason := if F64.ltb (average_bandwidth_gb_s kv.2) threshold
               then "Low bandwidth" else "High failure rate" |}.

Definition _analyze_pairwise_results (self : tester) : analysis_result :=
  let node_stats := collect_node_stats (pairwise_results self) in
  let table := node_statistics_table node_stats in
  let all_avg_bw := map (λ kv, average_bandwidth_gb_s kv.2) table in
  match all_avg_bw with
  | [] =>
      {| node_statistics := table; problematic_nodes := [];
         overall_mean_bandwidth := None; overall_std_bandwidth := None;
         threshold_bandwidth := None |}
  | _ :: _ =>
      let mean_bw := np.mean all_avg_bw in
      let std_bw := np.std all_avg_bw in
      let threshold := F64.sub mean_bw (F64.mul (F64.of_Z 2) std_bw) in
      {| node_statistics := table;
         problematic_nodes :=
           map (flag threshold)
               (filter (λ kv, is_problematic threshold kv.2 = true) table);
         overall_mean_bandwidth := Some mean_bw;
         overall_std_bandwidth := Some std_bw;
         threshold_bandwidth := Some threshold |}
  end.

Record report := {
  total_pairs : nat;
  report_pairwise_results : list (string * pair_result);
  analysis : analysis_result;
}.

Section Methods.

Variable mpirun : nat → list string → Z → BisectionNodeTester.outcome.

(** [random.sample]: which pairs it draws is left open. *)
Variable random_sample :
  list (string * string) → nat → list (string * string).

(** One turn of the loop of lines 346-357; the state is the inner
    [BisectionNodeTester], the results dict and the counter [i]. *)
Definition test_pair
    (st : BisectionNodeTester.tester * list (string * pair_result) * nat)
    (p : string * string)
    : BisectionNodeTester.tester * list (string * pair_result) * nat :=
  let '(inner, results, i) := st in
  let r := BisectionNodeTester._run_nccl_test mpirun inner [p.1; p.2]
             ("pair_" +:+ pretty i) in
  let pair_key := p.1 +:+ "↔" +:+ p.2 in
  (r.2,
   dict_set pair_key
     {| nodes := [p.1; p.2];
        bandwidth_gb_s := BisectionNodeTester.bandwidth_gb_s r.1;
        success := BisectionNodeTester.success r.1 |}
     results,
   S i).

(** [None] is the [ValueError] that [random.sample] raises for a negative
    sample size. *)
Definition run_pairwise_tests (self : tester) (max_pairs : option Z)
    : option (report * tester) :=
  let all_pairs := combinations2 (hosts self) in
  let chosen :=
    match max_pairs with
    | Some m =>
        if negb (m =? 0) && (m <? Z.of_nat (length all_pairs)) then
          if m <? 0 then None
          else Some (random_sample all_pairs (Z.to_nat m))
        else Some all_pairs
    | None => Some all_pairs
    end in
  match chosen with
  | None => None
  | Some all_pairs =>
      let inner :=
        BisectionNodeTester.new (hosts self) (gpus_per_node self) None in
      let '(_, results, _) :=
        fold_left test_pair all_pairs (inner, pairwise_results self, 1%nat) in
      let self := set_pairwise_results results self in
      Some ({| total_pairs := length all_pairs;
               report_pairwise_results := results;
               analysis := _analyze_pairwise_results self |}, self)
  end.

End Methods.

End PairwiseNodeTester.

(** ** [bisection_detection.py]: [main] *)

Inductive detection_mode := bisection | pairwise | both.

(** The parsed command line, with what [main] finds at [--hostfile]:
    whether the file exists, and the hosts it lists. *)
Record arguments := {
  hostfile_exists : bool;
  hostfile : list string;
  mode : detection_mode;
  gpus_per_node : Z;
  threshold : option spec_float;
  max_pairs : option Z;
}.

(** The [results] dict of [main]. *)
Record detection_results := {
  bisection_result : option BisectionNodeTester.report;
  pairwise_result : option PairwiseNodeTester.report;
}.

(** Lines 525-541: the final set of bad nodes. *)
Definition final_bad_nodes (results : detection_results) : gset string :=
  let bad_nodes : gset string := ∅ in
  let bad_nodes :=
    match bisection_result results with
    | Some r => bad_nodes ∪ BisectionNodeTester.report_bad_nodes r
    | None => bad_nodes
    end in
  match pairwise_result results with
  | Some r =>
      foldl (λ acc item, acc ∪ {[ PairwiseNodeTester.node item ]}) bad_nodes
        (PairwiseNodeTester.problematic_nodes
           (PairwiseNodeTester.analysis r))
  | None => bad_nodes
  end.

(** Lines 543-550. *)
Definition final_exit_status (results : detection_results) : Z :=
  if decide (final_bad_nodes results = ∅) then 0 else 1.

Section Main.

Variable mpirun : nat → list string → Z → BisectionNodeTester.outcome.
Variable random_sample :
  list (string * string) → nat → list (string * string).

(** Lines 499-518; the pairwise tests come after those of the bisection.
    [None] is an uncaught exception: the [TypeError] of the bisection's
    report or the [ValueError] of the pairwise sampling. *)
Definition run_detection (args : arguments) : option detection_results :=
  bisect ←
    match mode args with
    | bisection | both =>
        report ←
          (BisectionNodeTester.run_bisection_detection mpirun
             (BisectionNodeTester.new (hostfile args) (gpus_per_node args)
                (threshold args))).1;
        Some (Some report)
    | pairwise => Some None
    end;
  match mode args with
  | pairwise | both =>
      let earlier :=
        from_option BisectionNodeTester.total_tests 0%nat bisect in
      match PairwiseNodeTester.run_pairwise_tests
              (λ k, mpirun (earlier + k)%nat) random_sample
              (PairwiseNodeTester.new (hostfile args) (gpus_per_node args))
              (max_pairs args) with
      | Some r => Some {| bisection_result := bisect;
                          pairwise_result := Some r.1 |}
      | None => None
      end
  | bisection => Some {| bisection_result := bisect; pairwise_result := None |}
  end.

(** The exit status of the process.  An uncaught exception ends a Python
    process with status 1. *)
Definition main (args : arguments) : Z :=
  if negb (hostfile_exists args) then 1
  else
    match run_detection args with
    | Some results => final_exit_status results
    | None => 1
    end.

End Main.

(** ** [detect_slow_nodes.py]: [SlowNodeDetector] *)

Module SlowNodeDetector.

(** Indices [i] of [l] with [p l[i]], in increasing order. *)
Definition where_ {A} (p : A → bool) (l : list A) : list nat :=
  map fst (filter (λ iv : nat * A, p iv.2 = true) (imap pair l)).

Definition detect_outliers_zscore (values : list spec_float)
    (threshold : spec_float) : list nat :=
  if (length values <? 3)%nat then []
  else
    let mean := np.mean values in
    let std := np.std values in
    if F64.eqb std F64.zero then []
    else
      let z_scores :=
        map (λ v, F64.abs (F64.div (F64.sub v mean) std)) values in
      where_ (λ z, F64.gtb z threshold) z_scores.

Definition detect_outliers_iqr (values : list spec_float)
    (multiplier : spec_float) : list nat :=
  if (length values <? 4)%nat then []
  else
    let q1 := np.percentile values 25 in
    let q3 := np.percentile values 75 in
    let iqr := F64.sub q3 q1 in
    let lower_bound := F64.sub q1 (F64.mul multiplier iqr) in
    let upper_bound := F64.add q3 (F64.mul multiplier iqr) in
    where_ (λ val, F64.ltb val lower_bound || F64.gtb val upper_bound) values.

(** The input of [analyze_node_performance].  A test is the list of the
    ['busbw_GB/s'] of its ['results'], [None] when it has no such key. *)
Record test_results := {
  tests : option (list (option (list spec_float)));
  hosts : option (list string);
  gpus_per_node : option Z;
}.

Record slow_node := {
  hostname : string;
  index : nat;
  reason : string;
  confidence : string;
}.

(** The builtin [max] of a non-empty sequence. *)
Definition py_max (first : spec_float) (others : list spec_float)
    : spec_float :=
  fold_left (λ best v, if F64.gtb v best then v else best) others first.

(** Lines 154-160. *)
Definition all_bandwidths (ts : list (option (list spec_float)))
    : list spec_float :=
  omap (λ t, match t with
             | Some (r :: rs) => Some (py_max r rs)
             | _ => None
             end) ts.

(** Lines 185-202, for one host. *)
Definition report_host (zscore_outliers iqr_outliers : list nat)
    (outlier_indices : gset nat) (gpus : Z) (host_idx : nat) (host : string)
    : option slow_node :=
  let node_gpu_start := Z.of_nat host_idx * gpus in
  let node_gpu_end := node_gpu_start + gpus in
  let node_has_outlier :=
    existsb (λ outlier_idx : nat,
               (node_gpu_start <=? Z.of_nat outlier_idx)
               && (Z.of_nat outlier_idx <? node_gpu_end))
            (elements outlier_indices) in
  if node_has_outlier then
    Some {| hostname := host; index := host_idx;
            reason := "Performance outlier detected";
            confidence :=
              if bool_decide (host_idx ∈ zscore_outliers)
                 && bool_decide (host_idx ∈ iqr_outliers)
              then "high" else "medium" |}
  else None.

(** The ['slow_nodes'] list of the analysis.  The summary statistics of
    lines 163-169 do not enter it. *)
Definition analyze_node_performance (r : test_results) : list slow_node :=
  match tests r with
  | None => []
  | Some ts =>
      let bw := all_bandwidths ts in
      match bw with
      | [] => []
      | _ :: _ =>
          let zscore_outliers := detect_outliers_zscore bw (F64.of_Z 2) in
          let iqr_outliers := detect_outliers_iqr bw (F64.ratio 15 10) in
          let outlier_indices : gset nat :=
            list_to_set zscore_outliers ∩ list_to_set iqr_outliers in
          match hosts r with
          | None => []
          | Some hs =>
              let gpus := default 8 (gpus_per_node r) in
              omap (λ ih : nat * string,
                      report_host zscore_outliers iqr_outliers
                        outlier_indices gpus ih.1 ih.2)
                   (imap pair hs)
          end
      end
  end.

End SlowNodeDetector.

(** ** [detect_slow_nodes.py]: [analyze_from_raw_logs] *)

Module RawLogs.

(** An entry of [parse_nccl_logs]: one performance line of the log. *)
Record perf_entry := {
  size_bytes : Z;
  count : Z;
  time_us : spec_float;
  algbw : spec_float;
  busbw : spec_float;
}.

(** An entry of ['slow_nodes']. *)
Record finding := {
  detection : string;
  threshold_GB_s : spec_float;
  percentage : spec_float;
}.

(** [size_groups[size].append(bw)] on the [defaultdict(list)]. *)
Fixpoint group_append (size : Z) (bw : spec_float)
    (size_groups : list (Z * list spec_float)) : list (Z * list spec_float) :=
  match size_groups with
  | [] => [(size, [bw])]
  | (s, bandwidths) :: rest =>
      if decide (s = size) then (s, bandwidths ++ [bw]) :: rest
      else (s, bandwidths) :: group_append size bw rest
  end.

(** Lines 223-225. *)
Definition group_by_size (perf_entries : list perf_entry)
    : list (Z * list spec_float) :=
  foldl (λ size_groups entry,
           group_append (size_bytes entry) (busbw entry) size_groups)
        [] perf_entries.

(** Lines 235-244. *)
Definition pooled (size_groups : list (Z * list spec_float))
    : list spec_float :=
  foldl (λ all_bw_values group,
           if (3 <=? length group.2)%nat then all_bw_values ++ group.2
           else all_bw_values)
        [] size_groups.

(** Lines 255-256. *)
Definition slow_samples (all_bw_values : list spec_float) : nat :=
  let threshold :=
    F64.sub (np.mean all_bw_values)
            (F64.mul (F64.of_Z 2) (np.std all_bw_values)) in
  length (filter (λ bw, F64.ltb bw threshold = true) all_bw_values).

(** The ['slow_nodes'] list of the analysis, from the entries that
    [parse_nccl_logs] found in the log. *)
Definition analyze_from_raw_logs (perf_entries : list perf_entry)
    : list finding :=
  match perf_entries with
  | [] => []
  | _ :: _ =>
      let all_bw_values := pooled (group_by_size perf_entries) in
      match all_bw_values with
      | [] => []
      | _ :: _ =>
          let threshold :=
            F64.sub (np.mean all_bw_values)
                    (F64.mul (F64.of_Z 2) (np.std all_bw_values)) in
          let slow_samples := slow_samples all_bw_values in
          if (0 <? slow_samples)%nat then
            [ {| detection :=
                   pretty slow_samples +:+ " samples below threshold";
                 threshold_GB_s := threshold;
                 percentage :=
                   F64.mul (F64.div (F64.of_nat slow_samples)
                                    (F64.of_nat (length all_bw_values)))
                           (F64.of_Z 100) |} ]
          else []
      end
  end.

(** The exit status of line 369, which [main] reaches when the input file
    exists and nothing has raised. *)
Definition exit_status {A} (slow_nodes : list A) : Z :=
  match slow_nodes with [] => 0 | _ :: _ => 1 end.

(** What a run of [main] with [--raw] meets: no file at the input path; an
    exception on the way (the file cannot be read, a number of a
    performance line does not convert, the report cannot be written); or
    the performance lines of the log. *)
Inductive raw_input :=
| Missing
| Raising
| Entries (perf_entries : list perf_entry).

(** [main] with [--raw], lines 349-376: the exit status. *)
Definition main (input : raw_input) : Z :=
  match input with
  | Missing => 1
  | Raising => 2
  | Entries perf_entries => exit_status (analyze_from_raw_logs perf_entries)
  end.

End RawLogs.

(** ** Text: the [str] methods and the text files the scripts use *)

Module text.

Definition LF : ascii := "010"%char.
Definition CR : ascii := "013"%char.

(** [str.isspace] of one character; a character is a code point below
    256. *)
Definition isspace (c : ascii) : bool :=
  let n := nat_of_ascii c in
  ((9 <=? n) && (n <=? 13) || (28 <=? n) && (n <=? 32)
   || (n =? 133) || (n =? 160))%nat.

Fixpoint lstrip (s : string) : string :=
  match s with
  | String c s' => if isspace c then lstrip s' else s
  | EmptyString => EmptyString
  end.

Fixpoint rstrip (s : string) : string :=
  match s with
  | String c s' =>
      match rstrip s' with
      | EmptyString => if isspace c then EmptyString else String c EmptyString
      | t => String c t
      end
  | EmptyString => EmptyString
  end.

Definition strip (s : string) : string := rstrip (lstrip s).

(** [s.split()]: the maximal runs of characters that are not whitespace. *)
Fixpoint split (s : string) : list string :=
  match s with
  | String c s' =>
      if isspace c then split s'
      else
        match s' with
        | String c' _ =>
            if isspace c' then String c EmptyString :: split s'
            else
              match split s' with
              | w :: ws => String c w :: ws
              | [] => [String c EmptyString]
              end
        | EmptyString => [String c EmptyString]
        end
  | EmptyString => []
  end.

Definition startswith (s prefix : string) : bool := String.prefix prefix s.

(** Reading in text mode: ["\r\n"] and ["\r"] arrive as ["\n"]. *)
Fixpoint universal_newlines (s : string) : string :=
  match s with
  | String c s' =>
      if Ascii.eqb c CR then
        match s' with
        | String c' _ =>
            if Ascii.eqb c' LF then universal_newlines s'
            else String LF (universal_newlines s')
        | EmptyString => String LF EmptyString
        end
      else String c (universal_newlines s')
  | EmptyString => EmptyString
  end.

(** The lines that iterating over a text file yields: each ends after its
    ["\n"], the last one where the text ends. *)
Fixpoint readlines (s : string) : list string :=
  match s with
  | String c s' =>
      if Ascii.eqb c LF then String c EmptyString :: readlines s'
      else
        match readlines s' with
        | l :: ls => String c l :: ls
        | [] => [String c EmptyString]
        end
  | EmptyString => []
  end.

(** [f.writelines(lines)]. *)
Definition writelines (lines : list string) : string :=
  foldr String.append EmptyString lines.

End text.

(** ** Host files *)

Module Hostfile.

Import text.

(** One turn of the loop of [_parse_hostfile]; [None] is the [IndexError]
    of [line.split()[0]]. *)
Definition parse_line (hosts : list string) (line : string)
    : option (list string) :=
  let line := strip line in
  if bool_decide (line ≠ EmptyString) && negb (startswith line "#") then
    host ← head (split line);
    Some (hosts ++ [host])
  else Some hosts.

(** [_parse_hostfile], of the content of the file at [self.hostfile].  The
    three classes of [bisection_detection.py] and [mpi_nccl_test.py] have
    the same method. *)
Definition _parse_hostfile (content : string) : option (list string) :=
  foldl (λ hosts line, hosts ≫= λ hosts, parse_line hosts line)
        (Some []) (readlines (universal_newlines content)).

(** [_create_temp_hostfile]: what is written to the temporary file. *)
Definition _create_temp_hostfile (nodes : list string) (gpus_per_node : Z)
    : string :=
  foldl (λ written node,
           written +:+ (node +:+ " slots=" +:+ pretty gpus_per_node
                        +:+ String LF EmptyString))
        EmptyString nodes.

End Hostfile.

(** ** [node_isolation_helper.py]: [NodeIsolator] *)

Module NodeIsolator.

Import text.

(** Lines 43-62: one turn of the loop, on [good_lines] and
    [excluded_count]. *)
Definition update_line (bad_nodes : gset string)
    (state : list string * nat) (original_line : string)
    : option (list string * nat) :=
  let '(good_lines, excluded_count) := state in
  let line := strip original_line in
  if bool_decide (line = EmptyString) || startswith line "#" then
    Some (good_lines ++ [original_line], excluded_count)
  else
    hostname ← head (split line);
    if bool_decide (hostname ∈ bad_nodes) then
      Some (good_lines ++ ["# ISOLATED: " +:+ original_line],
            S excluded_count)
    else Some (good_lines ++ [original_line], excluded_count).

(** [update_hostfile], of the content of the host file, [None] when there
    is no such file.  The result is the value returned, with the text
    written to the output file and the number of excluded lines that is
    printed; the outer [None] is an exception.  The backup copy is left
    out. *)
Definition update_hostfile (bad_nodes : gset string)
    (hostfile : option string) : option (bool * option (string * nat)) :=
  match hostfile with
  | None => Some (false, None)
  | Some content =>
      '(good_lines, excluded_count) ←
        foldl (λ state line, state ≫= λ state,
                 update_line bad_nodes state line)
              (Some ([], 0%nat)) (readlines (universal_newlines content));
      Some (true, Some (writelines good_lines, excluded_count))
  end.

End NodeIsolator.

(** ** [node_isolation_helper.py]: [load_bad_nodes_from_report] *)

(** What [json.load] returns. *)
Module json.

Inductive value :=
| Null
| Bool (b : bool)
| Int (z : Z)
| Float (f : spec_float)
| Str (s : string)
| List (items : list value)
| Dict (fields : list (string * value)).

Fixpoint is_substring (sub s : string) : bool :=
  String.prefix sub s
  || match s with
     | String _ s' => is_substring sub s'
     | EmptyString => false
     end.

(** [key in v] for a string [key]; [None] is the [TypeError] of a value
    that is no container. *)
Definition contains (key : string) (v : value) : option bool :=
  match v with
  | Dict fields => Some (bool_decide (is_Some (dict_get key fields)))
  | List items =>
      Some (existsb (λ item, match item with
                             | Str s => bool_decide (s = key)
                             | _ => false
                             end) items)
  | Str s => Some (is_substring key s)
  | _ => None
  end.

(** [v[key]] for a string [key]; [None] is a [KeyError] or a
    [TypeError]. *)
Definition getitem (v : value) (key : string) : option value :=
  match v with
  | Dict fields => dict_get key fields
  | _ => None
  end.

(** [v.get(key, default)]; [None] is the [AttributeError] of a value
    that is no dict. *)
Definition get (v : value) (key : string) (default : value) : option value :=
  match v with
  | Dict fields => Some (from_option id default (dict_get key fields))
  | _ => None
  end.

(** The elements that iterating over [v] yields; [None] is the
    [TypeError] of a value that cannot be iterated. *)
Definition iter (v : value) : option (list value) :=
  match v with
  | List items => Some items
  | Dict fields => Some (map (λ kv, Str kv.1) fields)
  | Str s => Some (map (λ c, Str (String c EmptyString))
                       (String.list_ascii_of_string s))
  | _ => None
  end.

End json.

Module IsolationHelper.

Import json.

(** The set [bad_nodes] of [load_bad_nodes_from_report]: its members that
    are strings, and whether it has a member that is none. *)
Definition node_set : Type := gset string * bool.

(** [bad_nodes.add(x)]; [None] is the [TypeError] of an unhashable [x]. *)
Definition add (x : value) (bad_nodes : node_set) : option node_set :=
  match x with
  | Str name => Some (bad_nodes.1 ∪ {[ name ]}, bad_nodes.2)
  | List _ | Dict _ => None
  | Null | Bool _ | Int _ | Float _ => Some (bad_nodes.1, true)
  end.

(** [bad_nodes.update(v)]. *)
Definition update (v : value) (bad_nodes : node_set) : option node_set :=
  items ← iter v;
  foldl (λ acc x, acc ≫= add x) (Some bad_nodes) items.

(** [for item in v: bad_nodes.add(item["node"])]. *)
Definition add_nodes (v : value) (bad_nodes : node_set) : option node_set :=
  items ← iter v;
  foldl (λ acc item,
           acc ≫= λ acc, name ← getitem item "node"; add name acc)
        (Some bad_nodes) items.

(** [load_bad_nodes_from_report], of the value that [json.load] returns
    for the report file.  The members of the list returned, in no
    particular order; [None] is an exception. *)
Definition load_bad_nodes_from_report (data : value) : option node_set :=
  let bad_nodes : node_set := (∅, false) in
  has_key ← contains "bad_nodes" data;
  bad_nodes ←
    (if has_key : bool then
       v ← getitem data "bad_nodes"; update v bad_nodes
     else Some bad_nodes);
  has_key ← contains "analysis" data;
  has_key ←
    (if has_key : bool then
       analysis ← getitem data "analysis";
       contains "problematic_nodes" analysis
     else Some false);
  bad_nodes ←
    (if has_key : bool then
       analysis ← getitem data "analysis";
       items ← getitem analysis "problematic_nodes";
       add_nodes items bad_nodes
     else Some bad_nodes);
  has_key ← contains "pairwise" data;
  has_key ←
    (if has_key : bool then
       pairwise ← getitem data "pairwise";
       contains "analysis" pairwise
     else Some false);
  bad_nodes ←
    (if has_key : bool then
       pairwise ← getitem data "pairwise";
       analysis ← getitem pairwise "analysis";
       items ← get analysis "problematic_nodes" (List []);
       add_nodes items bad_nodes
     else Some bad_nodes);
  Some bad_nodes.

End IsolationHelper.

(** ** The report files of [bisection_detection.py] as JSON

    What [json.load] makes of the files that [json.dump] wrote.  The
    values of the test history and of the pair results, which carry time
    stamps, are left open. *)

Definition optional_float (x : option spec_float) : json.value :=
  from_option json.Float json.Null x.

(** Lines 260-269. *)
Definition bisection_report_json (r : BisectionNodeTester.report)
    (timestamp : string) (duration_seconds : spec_float)
    (test_history : json.value) : json.value :=
  json.Dict
    [ ("timestamp", json.Str timestamp);
      ("total_nodes", json.Int (Z.of_nat (BisectionNodeTester.total_nodes r)));
      ("total_tests", json.Int (Z.of_nat (BisectionNodeTester.total_tests r)));
      ("duration_seconds", json.Float duration_seconds);
      ("threshold_gb_s",
       optional_float (BisectionNodeTester.report_threshold_gb_s r));
      ("bad_nodes",
       json.List
         (json.Str <$> elements (BisectionNodeTester.report_bad_nodes r)));
      ("good_nodes",
       json.List
         (json.Str <$> elements (BisectionNodeTester.report_good_nodes r)));
      ("test_history", test_history) ].

(** Lines 415-421. *)
Definition node_statistics_json
    (s : PairwiseNodeTester.node_statistics_entry) : json.value :=
  json.Dict
    [ ("average_bandwidth_gb_s",
       json.Float (PairwiseNodeTester.average_bandwidth_gb_s s));
      ("std_bandwidth_gb_s",
       json.Float (PairwiseNodeTester.std_bandwidth_gb_s s));
      ("failure_count",
       json.Int (Z.of_nat (PairwiseNodeTester.failure_count s)));
      ("total_tests", json.Int (Z.of_nat (PairwiseNodeTester.total_tests s)));
      ("failure_rate", json.Float (PairwiseNodeTester.failure_rate s)) ].

(** Lines 435-440. *)
Definition problematic_node_json (item : PairwiseNodeTester.problematic_node)
    : json.value :=
  json.Dict
    [ ("node", json.Str (PairwiseNodeTester.node item));
      ("average_bandwidth_gb_s",
       json.Float (PairwiseNodeTester.pn_average_bandwidth_gb_s item));
      ("failure_rate", json.Float (PairwiseNodeTester.pn_failure_rate item));
      ("reason", json.Str (PairwiseNodeTester.reason item)) ].

(** Lines 403-406 and 429-431: the three overall values are there only
    when some node has a bandwidth. *)
Definition analysis_json (a : PairwiseNodeTester.analysis_result)
    : json.value :=
  json.Dict
    ([ ("node_statistics",
        json.Dict
          (prod_map id node_statistics_json
             <$> PairwiseNodeTester.node_statistics a));
       ("problematic_nodes",
        json.List
          (problematic_node_json <$> PairwiseNodeTester.problematic_nodes a)) ]
     ++ from_option (λ v, [("overall_mean_bandwidth", json.Float v)]) []
          (PairwiseNodeTester.overall_mean_bandwidth a)
     ++ from_option (λ v, [("overall_std_bandwidth", json.Float v)]) []
          (PairwiseNodeTester.overall_std_bandwidth a)
     ++ from_option (λ v, [("threshold_bandwidth", json.Float v)]) []
          (PairwiseNodeTester.threshold_bandwidth a)).

(** Lines 363-368. *)
Definition pairwise_report_json (r : PairwiseNodeTester.report)
    (timestamp : string) (pairwise_results : json.value) : json.value :=
  json.Dict
    [ ("timestamp", json.Str timestamp);
      ("total_pairs", json.Int (Z.of_nat (PairwiseNodeTester.total_pairs r)));
      ("pairwise_results", pairwise_results);
      ("analysis", analysis_json (PairwiseNodeTester.analysis r)) ].

(** * Scenarios and vocabulary of the properties *)

(** ** Benchmarks and runs used as instances *)

(** A scripted benchmark: exit status 1 when a node of [bad] takes part,
    no bandwidth line in the log. *)
Definition scripted_benchmark (bad : list string)
    : nat → list string → Z → BisectionNodeTester.outcome :=
  λ _ ns _,
    BisectionNodeTester.Exited
      (if existsb (λ x, bool_decide (x ∈ bad)) ns then 1 else 0) None.

(** A benchmark that always completes with exit status 0 and the given
    bandwidth. *)
Definition steady_benchmark (bw : Z)
    : nat → list string → Z → BisectionNodeTester.outcome :=
  λ _ _ _, BisectionNodeTester.Exited 0 (Some (F64.of_Z bw)).

(** A benchmark whose log yields the bandwidth [0.0]. *)
Definition stalled_benchmark
    : nat → list string → Z → BisectionNodeTester.outcome :=
  λ _ _ _, BisectionNodeTester.Exited 0 (Some F64.zero).

(** A benchmark whose first invocation reads the given bandwidth and whose
    later invocations complete without a bandwidth line in their log. *)
Definition first_reading_benchmark (bw : Z)
    : nat → list string → Z → BisectionNodeTester.outcome :=
  λ k _ _,
    BisectionNodeTester.Exited 0
      (if (k =? 0)%nat then Some (F64.of_Z bw) else None).

(** A benchmark that never comes back in time. *)
Definition timeout_benchmark
    : nat → list string → Z → BisectionNodeTester.outcome :=
  λ _ _ _, BisectionNodeTester.TimeoutExpired.

(** [random.sample] replaced by the first [k] pairs. *)
Definition first_pairs (l : list (string * string)) (k : nat)
    : list (string * string) := take k l.

(** A command line whose [--hostfile] does not exist. *)
Definition missing_hostfile_run : arguments :=
  {| hostfile_exists := false; hostfile := []; mode := bisection;
     gpus_per_node := 8; threshold := None; max_pairs := None |}.

(** A bisection over four hosts, no threshold given. *)
Definition one_bad_node_run : arguments :=
  {| hostfile_exists := true; hostfile := ["n0"; "n1"; "n2"; "n3"];
     mode := bisection; gpus_per_node := 8; threshold := None;
     max_pairs := None |}.

(** Three nodes whose pairs measure AB = 100, AC = 100 and BC = 10, every
    pair run succeeding. *)
Definition slow_link_benchmark
    : nat → list string → Z → BisectionNodeTester.outcome :=
  λ _ ns _,
    BisectionNodeTester.Exited 0
      (Some (F64.of_Z (if decide (ns = ["B"; "C"]) then 10 else 100))).

(** The report of [run_pairwise_tests] on these three nodes. *)
Definition slow_link_report : option PairwiseNodeTester.report :=
  fst <$> PairwiseNodeTester.run_pairwise_tests slow_link_benchmark first_pairs
            (PairwiseNodeTester.new ["A"; "B"; "C"] 8) None.

(** What the report says of each node: its name and average bandwidth, and
    the names of the nodes flagged. *)
Definition averages_and_flags (r : PairwiseNodeTester.report)
    : list (string * spec_float) * list string :=
  let a := PairwiseNodeTester.analysis r in
  (map (λ kv, (kv.1, PairwiseNodeTester.average_bandwidth_gb_s kv.2))
       (PairwiseNodeTester.node_statistics a),
   map PairwiseNodeTester.node (PairwiseNodeTester.problematic_nodes a)).

(** Three nodes all of whose pairs measure 100; the pair of A and C ends
    with exit status 1. *)
Definition failing_pair_benchmark
    : nat → list string → Z → BisectionNodeTester.outcome :=
  λ _ ns _,
    BisectionNodeTester.Exited (if decide (ns = ["A"; "C"]) then 1 else 0)
      (Some (F64.of_Z 100)).

Definition failing_pair_report : option PairwiseNodeTester.report :=
  fst <$> PairwiseNodeTester.run_pairwise_tests failing_pair_benchmark
            first_pairs (PairwiseNodeTester.new ["A"; "B"; "C"] 8) None.

(** The nodes a report flags, each with the reason given. *)
Definition flags_and_reasons (r : PairwiseNodeTester.report)
    : list (string * string) :=
  map (λ p, (PairwiseNodeTester.node p, PairwiseNodeTester.reason p))
      (PairwiseNodeTester.problematic_nodes (PairwiseNodeTester.analysis r)).

(** ** The pair results of a node *)

(** Every node of every pair result, with that result, in the order of the
    results. *)
Definition mentions (results : list (string * PairwiseNodeTester.pair_result))
    : list (string * PairwiseNodeTester.pair_result) :=
  flat_map (λ kv, map (λ n, (n, kv.2)) (PairwiseNodeTester.nodes kv.2))
           results.

(** The elements of a list in the order of their first occurrence. *)
Definition first_mentions (l : list string) : list string :=
  foldl (λ seen x, if decide (x ∈ seen) then seen else seen ++ [x]) [] l.

(** The pair results that name [x], once for each time a pair names it. *)
Definition results_of (x : string)
    (ms : list (string * PairwiseNodeTester.pair_result))
    : list PairwiseNodeTester.pair_result :=
  map snd (filter (λ e, e.1 = x) ms).

(** The bandwidths measured on the pairs of [x], the number of those pairs
    and the number of them that failed. *)
Definition samples_of (x : string)
    (ms : list (string * PairwiseNodeTester.pair_result))
    : list spec_float :=
  omap (λ r, if truthy (PairwiseNodeTester.bandwidth_gb_s r)
             then PairwiseNodeTester.bandwidth_gb_s r else None)
       (results_of x ms).

Definition tests_of (x : string)
    (ms : list (string * PairwiseNodeTester.pair_result)) : nat :=
  length (results_of x ms).

Definition failures_of (x : string)
    (ms : list (string * PairwiseNodeTester.pair_result)) : nat :=
  length (filter (λ r, PairwiseNodeTester.success r = false)
                 (results_of x ms)).

(** ** Classes of floating-point numbers *)

Definition is_zero (x : spec_float) : Prop :=
  match x with S754_zero _ => True | _ => False end.

Definition zero_or_nan (x : spec_float) : Prop :=
  match x with S754_zero _ | S754_nan => True | _ => False end.

(** [q] is what is left of the common value [x] of identical samples after
    interpolation: [x] itself, a zero if [x] is one, or NaN. *)
Definition keeps (x q : spec_float) : Prop :=
  q = S754_nan
  ∨ (is_zero x ∧ is_zero q)
  ∨ (∃ s m e, x = S754_finite s m e ∧ q = x).

(** ** Texts and host files *)

(** Every character of [s] satisfies [p]. *)
Fixpoint all_chars (p : ascii → bool) (s : string) : bool :=
  match s with
  | String c s' => p c && all_chars p s'
  | EmptyString => true
  end.

(** A host name as a host file can give it: not empty, no whitespace in it,
    and not starting with the comment sign. *)
Definition host_name (h : string) : Prop :=
  h ≠ EmptyString
  ∧ all_chars (λ c, negb (text.isspace c)) h = true
  ∧ text.startswith h "#" = false.

Definition newline_free (s : string) : bool :=
  all_chars (λ c, negb (Ascii.eqb c text.LF)) s.

Definition cr_free (s : string) : bool :=
  all_chars (λ c, negb (Ascii.eqb c text.CR)) s.

(** A line that ends with its line feed, and a last line without one. *)
Definition full_line (l : string) : Prop :=
  ∃ body,
    newline_free body = true ∧ l = body +:+ String text.LF EmptyString.

Definition open_line (l : string) : Prop :=
  l ≠ EmptyString ∧ newline_free l = true.

(** The lines of a text: full lines, the last one possibly open. *)
Fixpoint well_split (ls : list string) : Prop :=
  match ls with
  | [] => True
  | l :: ls' =>
      match ls' with
      | [] => full_line l ∨ open_line l
      | _ :: _ => full_line l ∧ well_split ls'
      end
  end.

(** The host that a line of a host file stands for, if any. *)
Definition line_host (line : string) : option string :=
  let line := text.strip line in
  if bool_decide (line ≠ EmptyString) && negb (text.startswith line "#")
  then head (text.split line) else None.

(** A line with the mark of an isolated host when it stands for one of
    [bad_nodes]. *)
Definition isolate (bad_nodes : gset string) (line : string) : string :=
  match line_host line with
  | Some h => if bool_decide (h ∈ bad_nodes) then "# ISOLATED: " +:+ line
              else line
  | None => line
  end.

(** ** Counting the lines of a raw log *)

(** The performance lines of one message size. *)
Definition samples_of_size (size : Z) (entries : list RawLogs.perf_entry)
    : nat :=
  length (filter (λ e, RawLogs.size_bytes e = size) entries).

(** The samples held by the size groups. *)
Definition group_sizes_sum (groups : list (Z * list spec_float)) : nat :=
  foldr (λ g n, (length g.2 + n)%nat) 0%nat groups.

(** * Properties *)

(** ** The bisection: how [_bisect_test] unfolds *)

Section BisectionFacts.

Import BisectionNodeTester.

Variable mpirun : nat → list string → Z → outcome.

Lemma run_nccl_test_state self ns name :
  (_run_nccl_test mpirun self ns name).2
  = append_history (_run_nccl_test mpirun self ns name).1 self.
Proof. reflexivity. Qed.

Lemma bisect_test_single node depth self :
  _bisect_test mpirun [node] depth self =
  let r := _run_nccl_test mpirun self [node]
             ("single_node_depth" +:+ pretty depth) in
  if negb (is_good r.1) then ({[ node ]}, r.2) else (∅, r.2).
Proof. by simp _bisect_test. Qed.

Lemma bisect_test_group ns depth self :
  (2 ≤ length ns)%nat →
  _bisect_test mpirun ns depth self =
  let r := _run_nccl_test mpirun self ns ("group_depth" +:+ pretty depth) in
  if is_good r.1 then (∅, update_good_nodes ns r.2)
  else
    let mid := (length ns / 2)%nat in
    let left_bad := _bisect_test mpirun (take mid ns) (S depth) r.2 in
    let right_bad :=
      _bisect_test mpirun (drop mid ns) (S depth) left_bad.2 in
    (left_bad.1 ∪ right_bad.1, right_bad.2).
Proof.
  destruct ns as [|n1 [|n2 rest]]; cbn [length]; try lia.
  intros _. by simp _bisect_test.
Qed.

Lemma halves_shorter (ns : list string) :
  (2 ≤ length ns)%nat →
  (length (take (length ns / 2) ns) < length ns)%nat
  ∧ (length (drop (length ns / 2) ns) < length ns)%nat.
Proof.
  intros Hlen. rewrite length_take, length_drop.
  assert (1 ≤ length ns / 2)%nat
    by (apply (Nat.div_le_lower_bound _ 2 1); lia).
  assert (length ns / 2 < length ns)%nat by (apply Nat.div_lt; lia).
  lia.
Qed.

(** Induction along the calls of [_bisect_test]. *)
Lemma bisect_test_ind
    (P : list string → nat → tester → gset string * tester → Prop) :
  (∀ depth self, P [] depth self (∅, self)) →
  (∀ node depth self,
     let r := _run_nccl_test mpirun self [node]
                ("single_node_depth" +:+ pretty depth) in
     P [node] depth self
       (if negb (is_good r.1) then ({[ node ]}, r.2) else (∅, r.2))) →
  (∀ ns depth self,
     (2 ≤ length ns)%nat →
     let r := _run_nccl_test mpirun self ns
                ("group_depth" +:+ pretty depth) in
     is_good r.1 = true →
     P ns depth self (∅, update_good_nodes ns r.2)) →
  (∀ ns depth self,
     (2 ≤ length ns)%nat →
     let r := _run_nccl_test mpirun self ns
                ("group_depth" +:+ pretty depth) in
     is_good r.1 = false →
     let mid := (length ns / 2)%nat in
     let left_bad := _bisect_test mpirun (take mid ns) (S depth) r.2 in
     let right_bad :=
       _bisect_test mpirun (drop mid ns) (S depth) left_bad.2 in
     P (take mid ns) (S depth) r.2 left_bad →
     P (drop mid ns) (S depth) left_bad.2 right_bad →
     P ns depth self (left_bad.1 ∪ right_bad.1, right_bad.2)) →
  ∀ ns depth self, P ns depth self (_bisect_test mpirun ns depth self).
Proof.
  intros Hnil Hone Hgood Hsplit ns.
  induction ns as [ns IH] using (induction_ltof1 _ (@length string)).
  unfold ltof in IH. intros depth self.
  destruct (decide (2 ≤ length ns)%nat) as [Hlen|Hlen].
  - rewrite (bisect_test_group _ _ _ Hlen). cbv zeta.
    destruct (is_good (_run_nccl_test mpirun self ns _).1) eqn:Hg.
    + by apply Hgood.
    + destruct (halves_shorter ns Hlen) as [Hl Hr].
      apply Hsplit; [done | done | by apply IH | by apply IH].
  - destruct ns as [|n1 [|n2 rest]]; cbn [length] in Hlen; try lia.
    + rewrite _bisect_test_equation_1. apply Hnil.
    + rewrite bisect_test_single. apply Hone.
Qed.

(** The run only appends to the history, and leaves the threshold, the
    process count per node and the roster alone. *)
Lemma bisect_test_frame ns depth self :
  let out := _bisect_test mpirun ns depth self in
  threshold_gb_s out.2 = threshold_gb_s self
  ∧ gpus_per_node out.2 = gpus_per_node self
  ∧ hosts out.2 = hosts self
  ∧ test_history self `prefix_of` test_history out.2.
Proof.
  revert ns depth self.
  apply (bisect_test_ind (λ _ _ self out,
           threshold_gb_s out.2 = threshold_gb_s self
           ∧ gpus_per_node out.2 = gpus_per_node self
           ∧ hosts out.2 = hosts self
           ∧ test_history self `prefix_of` test_history out.2)); cbn zeta.
  - done.
  - intros node depth self.
    destruct (negb _); cbn; (repeat split; try done); by apply prefix_app_r.
  - intros ns depth self _ _. cbn. repeat split; try done. by apply prefix_app_r.
  - intros ns depth self _ _ (Ht1 & Hg1 & Hh1 & Hp1) (Ht2 & Hg2 & Hh2 & Hp2).
    cbn [fst snd] in *. rewrite Ht2, Ht1, Hg2, Hg1, Hh2, Hh1.
    repeat split; try done.
    etrans; [|exact Hp2]. etrans; [|exact Hp1]. by apply prefix_app_r.
Qed.

End BisectionFacts.

(** ** Bisection correctness *)

Section BisectionCorrectness.

Import BisectionNodeTester.

Variable mpirun : nat → list string → Z → outcome.

(** With a benchmark that judges a sublist bad exactly when it holds a
    member of [Sbad], every call condemns the members of [Sbad] among its
    nodes. *)
Lemma bisect_test_on_sublist thr gpus (Sbad : gset string) :
  (∀ self ns name,
     threshold_gb_s self = thr → gpus_per_node self = gpus →
     is_good (_run_nccl_test mpirun self ns name).1 = false
     ↔ ∃ x, x ∈ ns ∧ x ∈ Sbad) →
  ∀ ns depth self,
    threshold_gb_s self = thr → gpus_per_node self = gpus →
    (_bisect_test mpirun ns depth self).1 = Sbad ∩ list_to_set ns.
Proof.
  intros Hjudge.
  apply (bisect_test_ind mpirun (λ ns _ self out,
           threshold_gb_s self = thr → gpus_per_node self = gpus →
           out.1 = Sbad ∩ list_to_set ns)); cbn zeta.
  - intros _ self _ _. set_solver.
  - intros node depth self Ht Hg.
    specialize (Hjudge self [node] ("single_node_depth" +:+ pretty depth) Ht Hg).
    destruct (is_good _); cbn [negb fst].
    + assert (node ∉ Sbad).
      { intros Hin.
        assert (true = false) by (apply Hjudge; exists node; set_solver).
        done. }
      set_solver.
    + destruct Hjudge as [(x & Hx & HS) _]; [done|].
      apply list_elem_of_singleton in Hx as ->. set_solver.
  - intros ns depth self _ Hgood Ht Hg. cbn [fst].
    specialize (Hjudge self ns ("group_depth" +:+ pretty depth) Ht Hg).
    assert (∀ x, x ∈ ns → x ∉ Sbad).
    { intros x Hx HS.
      assert (is_good (_run_nccl_test mpirun self ns
                         ("group_depth" +:+ pretty depth)).1 = false)
        by (apply Hjudge; eauto).
      congruence. }
    set_solver.
  - intros ns depth self _ _ IHl IHr Ht Hg. cbn [fst].
    set (r := _run_nccl_test mpirun self ns
                ("group_depth" +:+ pretty depth)) in *.
    assert (threshold_gb_s r.2 = thr) as Htr by exact Ht.
    assert (gpus_per_node r.2 = gpus) as Hgr by exact Hg.
    pose proof (bisect_test_frame mpirun (take (length ns / 2) ns) (S depth)
                  r.2) as (Ht' & Hg' & _).
    cbv zeta in Ht', Hg'.
    rewrite IHl by done.
    rewrite IHr by congruence.
    rewrite <-(take_drop (length ns / 2) ns) at 5.
    rewrite list_to_set_app_L. set_solver.
Qed.

(** C1.  For every roster and every benchmark that judges a tested sublist
    bad exactly when it contains a member of a fixed subset [Sbad] of the
    roster, [_bisect_test] returns (it is a total function) the condemned
    set [Sbad]; on every sublist it is called on it returns the members of
    [Sbad] in that sublist.  A bad sublist of length at least 2 is cut at
    [len // 2] into two contiguous halves in roster order, the right half
    is searched after the left one, and the result is the union of the two
    results.  Rosters of 4, 8 and 16 nodes with one or two bad nodes are
    instances. *)
Theorem bisect_test_condemns_exactly_S
    (Sbad : gset string) (roster : list string) (self : tester) :
  (∀ self' ns name,
     threshold_gb_s self' = threshold_gb_s self →
     gpus_per_node self' = gpus_per_node self →
     is_good (_run_nccl_test mpirun self' ns name).1 = false
     ↔ ∃ x, x ∈ ns ∧ x ∈ Sbad) →
  Sbad ⊆ list_to_set roster →
  (_bisect_test mpirun roster 0 self).1 = Sbad
  ∧ (∀ ns depth self',
       threshold_gb_s self' = threshold_gb_s self →
       gpus_per_node self' = gpus_per_node self →
       (_bisect_test mpirun ns depth self').1 = Sbad ∩ list_to_set ns)
  ∧ (∀ ns depth self',
       (2 ≤ length ns)%nat →
       let r := _run_nccl_test mpirun self' ns
                  ("group_depth" +:+ pretty depth) in
       is_good r.1 = false →
       let mid := (length ns / 2)%nat in
       let left_bad := _bisect_test mpirun (take mid ns) (S depth) r.2 in
       let right_bad :=
         _bisect_test mpirun (drop mid ns) (S depth) left_bad.2 in
       take mid ns ++ drop mid ns = ns
       ∧ _bisect_test mpirun ns depth self'
         = (left_bad.1 ∪ right_bad.1, right_bad.2)).
Proof.
  intros Hjudge Hsub.
  pose proof (bisect_test_on_sublist _ _ Sbad Hjudge) as Hall.
  split; [|split].
  - rewrite Hall by done. set_solver.
  - exact Hall.
  - intros ns depth self' Hlen r Hbad mid left_bad right_bad.
    split; [apply take_drop|].
    rewrite (bisect_test_group _ _ _ _ Hlen). cbv zeta.
    fold r. by rewrite Hbad.
Qed.

End BisectionCorrectness.

Lemma scripted_benchmark_judges bad self ns name :
  BisectionNodeTester.threshold_gb_s self = None →
  BisectionNodeTester.is_good
    (BisectionNodeTester._run_nccl_test (scripted_benchmark bad) self ns name).1
  = false
  ↔ ∃ x, x ∈ ns ∧ x ∈ (list_to_set bad : gset string).
Proof.
  intros Hthr. unfold BisectionNodeTester._run_nccl_test. cbn [fst].
  rewrite Hthr. unfold scripted_benchmark, BisectionNodeTester.nccl_result.
  cbn [BisectionNodeTester.is_good]. unfold BisectionNodeTester.verdict.
  cbn [truthy andb].
  destruct (existsb _ ns) eqn:Hex; cbn [Z.eqb].
  - split; [|done]. intros _.
    apply existsb_exists in Hex as (x & Hx & Hb).
    exists x. apply bool_decide_eq_true in Hb.
    split; [by apply list_elem_of_In | set_solver].
  - split; [done|]. intros (x & Hx & Hb).
    assert (existsb (λ x, bool_decide (x ∈ bad)) ns = true); [|congruence].
    apply existsb_exists. exists x.
    split; [by apply list_elem_of_In|].
    apply bool_decide_eq_true. set_solver.
Defined.

Lemma bisect_test_condemns_exactly_S_witness :
  let roster := ["n0"; "n1"; "n2"; "n3"; "n4"; "n5"; "n6"; "n7"] in
  let Sbad : gset string := list_to_set ["n2"; "n6"] in
  (∀ self ns name,
     BisectionNodeTester.threshold_gb_s self = None →
     BisectionNodeTester.is_good
       (BisectionNodeTester._run_nccl_test
          (scripted_benchmark ["n2"; "n6"]) self ns name).1 = false
     ↔ ∃ x, x ∈ ns ∧ x ∈ Sbad)
  ∧ Sbad ⊆ list_to_set roster
  ∧ (BisectionNodeTester._bisect_test (scripted_benchmark ["n2"; "n6"])
       roster 0 (BisectionNodeTester.new roster 8 None)).1 = Sbad.
Proof.
  intros roster Sbad.
  assert (Sbad ⊆ list_to_set roster) as Hsub
    by (apply (bool_decide_unpack _); vm_compute; exact I).
  split; [intros self ns name; apply scripted_benchmark_judges|].
  split; [exact Hsub|].
  refine (proj1 (bisect_test_condemns_exactly_S
                   (scripted_benchmark ["n2"; "n6"]) Sbad roster
                   (BisectionNodeTester.new roster 8 None) _ Hsub)).
  intros self' ns name Hthr _. by apply scripted_benchmark_judges.
Defined.

(** Rosters of 4, 6 and 16 nodes, one or two of them bad. *)
Example bisect_roster_of_4_one_bad :
  (BisectionNodeTester._bisect_test (scripted_benchmark ["d"])
     ["a"; "b"; "c"; "d"] 0
     (BisectionNodeTester.new ["a"; "b"; "c"; "d"] 8 None)).1 = {[ "d" ]}.
Proof. apply (bool_decide_unpack _). by vm_compute. Qed.

Example bisect_roster_of_6_two_bad :
  (BisectionNodeTester._bisect_test (scripted_benchmark ["a"; "e"])
     ["a"; "b"; "c"; "d"; "e"; "f"] 0
     (BisectionNodeTester.new ["a"; "b"; "c"; "d"; "e"; "f"] 8 None)).1
  = {[ "a"; "e" ]}.
Proof. apply (bool_decide_unpack _). by vm_compute. Qed.

Example bisect_roster_of_16_two_bad :
  let roster := ["h00"; "h01"; "h02"; "h03"; "h04"; "h05"; "h06"; "h07";
                 "h08"; "h09"; "h10"; "h11"; "h12"; "h13"; "h14"; "h15"] in
  let out := BisectionNodeTester._bisect_test (scripted_benchmark ["h03"; "h12"])
               roster 0 (BisectionNodeTester.new roster 8 None) in
  out.1 = {[ "h03"; "h12" ]}
  ∧ length (BisectionNodeTester.test_history out.2) = 15%nat.
Proof. cbv zeta. apply (bool_decide_unpack _). by vm_compute. Qed.

(** ** Bisection pruning *)

Section BisectionPruning.

Import BisectionNodeTester.

Variable mpirun : nat → list string → Z → outcome.

Lemma establish_threshold_frame self :
  let self' := establish_threshold mpirun self in
  hosts self' = hosts self
  ∧ gpus_per_node self' = gpus_per_node self
  ∧ good_nodes self' = good_nodes self
  ∧ test_history self' =
      if truthy (threshold_gb_s self) then test_history self
      else test_history self
           ++ [(_run_nccl_test mpirun self (take 2 (hosts self)) "baseline").1].
Proof.
  unfold establish_threshold.
  destruct (truthy (threshold_gb_s self)); cbn [negb]; [done|].
  destruct (truthy (bandwidth_gb_s _)); [|done].
  by destruct (bandwidth_gb_s _).
Qed.

(** When every invocation it makes is judged good, a call on a non-empty
    sublist makes one invocation and condemns nothing. *)
Lemma bisect_test_all_good ns depth self :
  ns ≠ [] →
  let out := _bisect_test mpirun ns depth self in
  Forall (λ r, is_good r = true)
         (drop (length (test_history self)) (test_history out.2)) →
  out.1 = ∅
  ∧ length (test_history out.2) = S (length (test_history self)).
Proof.
  intros Hne. cbv zeta.
  destruct (decide (2 ≤ length ns)%nat) as [Hlen|Hlen].
  - rewrite (bisect_test_group _ _ _ _ Hlen). cbv zeta.
    set (r := _run_nccl_test mpirun self ns ("group_depth" +:+ pretty depth)).
    destruct (is_good r.1) eqn:Hg.
    + intros _. cbn. rewrite length_app. cbn. split; [done|lia].
    + intros Hall. exfalso.
      set (l := _bisect_test mpirun (take (length ns / 2) ns) (S depth) r.2)
        in *.
      set (r' := _bisect_test mpirun (drop (length ns / 2) ns) (S depth) l.2)
        in *.
      cbn [snd] in Hall.
      pose proof (bisect_test_frame mpirun (take (length ns / 2) ns)
                    (S depth) r.2) as (_ & _ & _ & Hp1).
      pose proof (bisect_test_frame mpirun (drop (length ns / 2) ns)
                    (S depth) l.2) as (_ & _ & _ & Hp2).
      cbv zeta in Hp1, Hp2. fold l in Hp1, Hp2. fold r' in Hp2.
      assert (test_history r.2 `prefix_of` test_history r'.2) as [k Hk]
        by (by etrans).
      change (test_history r.2) with (test_history self ++ [r.1]) in Hk.
      rewrite Hk, <-(assoc_L (++)), drop_app_length in Hall.
      apply Forall_cons in Hall as [Hgood _]. congruence.
  - destruct ns as [|n1 [|n2 rest]]; cbn [length] in Hlen; try lia; [done|].
    rewrite bisect_test_single. cbv zeta.
    set (r := _run_nccl_test mpirun self [n1]
                ("single_node_depth" +:+ pretty depth)).
    assert (test_history r.2 = test_history self ++ [r.1]) as Hh by done.
    destruct (is_good r.1) eqn:Hg; cbn [negb fst snd].
    + intros _. rewrite Hh, length_app. cbn. split; [done|lia].
    + rewrite Hh, drop_app_length. intros Hall.
      apply Forall_cons in Hall as [Hgood _]. congruence.
Qed.

(** What [run_bisection_detection] returns, in terms of the calibration
    and the search it is made of. *)
Lemma run_bisection_detection_unfold self :
  let self1 := establish_threshold mpirun self in
  let found := _bisect_test mpirun (hosts self1) 0 self1 in
  let out := run_bisection_detection mpirun self in
  out.2 = found.2
  ∧ (out.1 = None ↔ json_serializable (test_history found.2) = false)
  ∧ ∀ report, out.1 = Some report →
      total_nodes report = length (hosts found.2)
      ∧ total_tests report = length (test_history found.2)
      ∧ report_threshold_gb_s report = threshold_gb_s found.2
      ∧ report_bad_nodes report = found.1
      ∧ report_good_nodes report = good_nodes found.2
      ∧ report_test_history report = test_history found.2.
Proof.
  cbv zeta. unfold run_bisection_detection. cbn [fst snd].
  split; [done|]. destruct (json_serializable _).
  - split; [done|]. by intros report [= <-].
  - split; [done|]. by intros report [=].
Qed.

(** C2, as the code has it.  For an all-good roster that is not empty, a
    run of [run_bisection_detection] makes exactly one benchmark invocation
    when a (non-zero) threshold was supplied, and exactly two when none
    was: the baseline on the first two nodes, then the one test of the
    whole roster.  The report it returns condemns no node and holds that
    history. *)
Theorem all_good_roster_test_count hostfile gpus thr :
  hostfile ≠ [] →
  let out := run_bisection_detection mpirun (new hostfile gpus thr) in
  Forall (λ r, is_good r = true) (test_history out.2) →
  length (test_history out.2) = (if truthy thr then 1%nat else 2%nat)
  ∧ ∀ report, out.1 = Some report →
      report_bad_nodes report = ∅
      ∧ report_test_history report = test_history out.2
      ∧ total_tests report = length (test_history out.2).
Proof.
  intros Hne. cbv zeta.
  set (self0 := new hostfile gpus thr).
  destruct (run_bisection_detection_unfold self0) as (Hstate & _ & Hreport).
  cbv zeta in Hstate, Hreport. rewrite Hstate.
  pose proof (establish_threshold_frame self0) as (Hh & _ & _ & Hhist).
  cbv zeta in Hh, Hhist.
  set (self1 := establish_threshold mpirun self0) in *.
  change (hosts self0) with hostfile in Hh. rewrite Hh in *.
  intros Hall.
  destruct (bisect_test_all_good hostfile 0 self1 Hne) as [Hbad Hlen].
  { by apply Forall_drop. }
  split.
  - rewrite Hlen, Hhist. change (threshold_gb_s self0) with thr.
    destruct (truthy thr); [done|]. by rewrite length_app.
  - intros report Hsome.
    destruct (Hreport report Hsome) as (_ & Htests & _ & Hfound & _ & Hhistory).
    by rewrite Hfound, Hhistory, Htests.
Qed.

End BisectionPruning.

Lemma all_good_roster_test_count_witness :
  let out := BisectionNodeTester.run_bisection_detection
               (scripted_benchmark [])
               (BisectionNodeTester.new ["n0"; "n1"; "n2"] 8
                  (Some (F64.of_Z 80))) in
  ["n0"; "n1"; "n2"] ≠ []
  ∧ Forall (λ r, BisectionNodeTester.is_good r = true)
           (BisectionNodeTester.test_history out.2)
  ∧ length (BisectionNodeTester.test_history out.2) = 1%nat
  ∧ ∃ report,
      out.1 = Some report
      ∧ BisectionNodeTester.report_bad_nodes report = ∅
      ∧ BisectionNodeTester.total_tests report = 1%nat.
Proof.
  intros out.
  assert (["n0"; "n1"; "n2"] ≠ ([] : list string)) as Hne by discriminate.
  assert (Forall (λ r, BisectionNodeTester.is_good r = true)
            (BisectionNodeTester.test_history out.2)) as Hall
    by (vm_compute; repeat constructor).
  split; [exact Hne|]. split; [exact Hall|].
  destruct (all_good_roster_test_count (scripted_benchmark [])
              ["n0"; "n1"; "n2"] 8 (Some (F64.of_Z 80)) Hne Hall)
    as [Hlen Hreport].
  split; [exact Hlen|].
  destruct out.1 as [report|] eqn:Hout; [|by vm_compute in Hout].
  exists report. split; [done|].
  destruct (Hreport report) as (Hbad & _ & Htests); [exact Hout|].
  split; [exact Hbad|]. by rewrite Htests.
Defined.

(** C2, as stated, fails when no threshold is supplied: every invocation
    is judged good, the report condemns no node, and the history has two
    entries, the baseline and the test of the whole roster. *)
Lemma all_good_roster_needs_two_tests :
  let out := BisectionNodeTester.run_bisection_detection
               (scripted_benchmark [])
               (BisectionNodeTester.new ["n0"; "n1"; "n2"] 8 None) in
  Forall (λ r, BisectionNodeTester.is_good r = true)
         (BisectionNodeTester.test_history out.2)
  ∧ BisectionNodeTester.report_bad_nodes <$> out.1 = Some ∅
  ∧ BisectionNodeTester.total_tests <$> out.1 = Some 2%nat
  ∧ map BisectionNodeTester.test_name
        (BisectionNodeTester.test_history out.2)
    = ["baseline"; "group_depth0"]
  ∧ length (BisectionNodeTester.test_history out.2) ≠ 1%nat.
Proof.
  vm_compute. split; [repeat constructor|]. split; [done|]. split; [done|].
  split; [done|]. discriminate.
Qed.

(** ** The verdict of a benchmark invocation *)

Section Verdict.

Import BisectionNodeTester.

Variable mpirun : nat → list string → Z → outcome.

Lemma verdict_without_threshold bandwidth ok : verdict bandwidth None ok = ok.
Proof. unfold verdict. cbn [truthy]. by rewrite andb_false_r. Qed.

(** C5, as the code has it.  When the parsed bandwidth and the threshold
    are both known and both different from zero, [is_good] is
    [bandwidth >= threshold]; in every other case (no bandwidth, no
    threshold, or one of them equal to [0.0], which the code treats like a
    missing value) it is the raw process success flag. *)
Theorem run_nccl_test_verdict self ns name :
  let r := (_run_nccl_test mpirun self ns name).1 in
  match bandwidth_gb_s r, threshold_gb_s self with
  | Some b, Some t =>
      is_good r =
        if negb (F64.eqb b F64.zero) && negb (F64.eqb t F64.zero)
        then F64.geb b t else success r
  | _, _ => is_good r = success r
  end.
Proof.
  cbv zeta. unfold _run_nccl_test. cbn [fst].
  destruct (mpirun _ _ _) as [rc [b|]| |msg];
    cbn [nccl_result bandwidth_gb_s is_good success]; try done.
  destruct (threshold_gb_s self) as [t|]; [done|].
  apply verdict_without_threshold.
Qed.

End Verdict.

(** C5, as stated, fails for a parsed bandwidth of exactly [0.0]: with the
    threshold 100 the comparison [0.0 >= 100.0] is false, and the verdict
    is the success flag, true. *)
Lemma zero_bandwidth_falls_back_to_success :
  let self := BisectionNodeTester.new ["n0"; "n1"] 8 (Some (F64.of_Z 100)) in
  let r := (BisectionNodeTester._run_nccl_test stalled_benchmark self
              ["n0"; "n1"] "group_depth0").1 in
  BisectionNodeTester.bandwidth_gb_s r = Some F64.zero
  ∧ BisectionNodeTester.threshold_gb_s self = Some (F64.of_Z 100)
  ∧ F64.geb F64.zero (F64.of_Z 100) = false
  ∧ BisectionNodeTester.success r = true
  ∧ BisectionNodeTester.is_good r = true.
Proof. by vm_compute. Qed.

(** ** Threshold auto-calibration *)

Section Calibration.

Import BisectionNodeTester.

Variable mpirun : nat → list string → Z → outcome.

(** A property of the results that holds under a fixed threshold is kept
    by the whole search. *)
Lemma bisect_test_history_Forall (P : test_result → Prop) thr :
  (∀ self ns name,
     threshold_gb_s self = thr → P (_run_nccl_test mpirun self ns name).1) →
  ∀ ns depth self,
    threshold_gb_s self = thr →
    Forall P (test_history self) →
    Forall P (test_history (_bisect_test mpirun ns depth self).2).
Proof.
  intros Hrun.
  apply (bisect_test_ind mpirun (λ _ _ self out,
           threshold_gb_s self = thr →
           Forall P (test_history self) →
           Forall P (test_history out.2))); cbn zeta.
  - done.
  - intros node depth self Ht Hall.
    assert (Forall P (test_history (_run_nccl_test mpirun self [node]
              ("single_node_depth" +:+ pretty depth)).2)).
    { apply Forall_app. split; [done|]. apply Forall_singleton. by apply Hrun. }
    by destruct (negb _).
  - intros ns depth self _ _ Ht Hall. cbn.
    apply Forall_app. split; [done|]. apply Forall_singleton. by apply Hrun.
  - intros ns depth self _ _ IHl IHr Ht Hall. cbn [snd].
    set (r := _run_nccl_test mpirun self ns
                ("group_depth" +:+ pretty depth)) in *.
    assert (threshold_gb_s r.2 = thr) as Htr by exact Ht.
    pose proof (bisect_test_frame mpirun (take (length ns / 2) ns) (S depth)
                  r.2) as (Ht' & _).
    cbv zeta in Ht'.
    apply IHr; [congruence|]. apply IHl; [done|].
    apply Forall_app. split; [done|]. apply Forall_singleton. by apply Hrun.
Qed.

(** C6, as the code has it.  Without a supplied threshold the first
    invocation of [run_bisection_detection] is a baseline on the first two
    nodes of the roster.  A baseline bandwidth different from zero sets the
    threshold of the tester to exactly that bandwidth times [0.8], so 250
    gives exactly 200.  A baseline without a bandwidth reading, or with the
    reading [0.0], establishes no threshold, and then every [is_good] of
    the run is the raw success flag of the process.  The report returned
    shows the threshold and the history of the tester. *)
Theorem baseline_calibration hostfile gpus :
  let self := new hostfile gpus None in
  let baseline :=
    (_run_nccl_test mpirun self (take 2 hostfile) "baseline").1 in
  let out := run_bisection_detection mpirun self in
  head (test_history out.2) = Some baseline
  ∧ nodes baseline = take 2 hostfile
  ∧ (∀ bw, bandwidth_gb_s baseline = Some bw →
           F64.eqb bw F64.zero = false →
           threshold_gb_s out.2 = Some (F64.mul bw (F64.ratio 8 10)))
  ∧ (truthy (bandwidth_gb_s baseline) = false →
     threshold_gb_s out.2 = None
     ∧ Forall (λ r, is_good r = success r) (test_history out.2))
  ∧ (∀ report, out.1 = Some report →
       report_threshold_gb_s report = threshold_gb_s out.2
       ∧ report_test_history report = test_history out.2)
  ∧ F64.mul (F64.of_Z 250) (F64.ratio 8 10) = F64.of_Z 200.
Proof.
  cbv zeta. set (self := new hostfile gpus None).
  set (b := _run_nccl_test mpirun self (take 2 hostfile) "baseline").
  destruct (run_bisection_detection_unfold mpirun self)
    as (Hstate & _ & Hreport).
  cbv zeta in Hstate, Hreport. rewrite Hstate.
  set (self1 := establish_threshold mpirun self) in *.
  pose proof (bisect_test_frame mpirun (hosts self1) 0 self1)
    as (Hthr & _ & _ & [k Hk]).
  cbv zeta in Hthr, Hk.
  assert (test_history self1 = [b.1]) as Hh1.
  { pose proof (establish_threshold_frame mpirun self) as (_ & _ & _ & H).
    exact H. }
  split; [by rewrite Hk, Hh1|].
  split; [unfold b, _run_nccl_test; cbn [fst]; by destruct (mpirun _ _ _)|].
  split; [|split; [|split]]; [| | |by vm_compute].
  - intros bw Hbw Hnz. rewrite Hthr.
    unfold self1, establish_threshold.
    cbn [threshold_gb_s self new truthy negb].
    change (hosts self) with hostfile. fold b.
    rewrite Hbw. cbn [truthy]. by rewrite Hnz.
  - intros Hfalsy.
    assert (self1 = b.2) as Hself1.
    { unfold self1, establish_threshold.
      cbn [threshold_gb_s self new truthy negb].
      change (hosts self) with hostfile. fold b.
      by rewrite Hfalsy. }
    assert (threshold_gb_s self1 = None) as Hnone by (by rewrite Hself1).
    split; [by rewrite Hthr|].
    apply (bisect_test_history_Forall _ None); [|done|].
    + intros s ns name Hs. unfold _run_nccl_test. cbn [fst]. rewrite Hs.
      destruct (mpirun _ _ _); cbn; [apply verdict_without_threshold|done..].
    + rewrite Hh1. apply Forall_singleton.
      unfold b, _run_nccl_test. cbn [fst].
      destruct (mpirun _ _ _); cbn; [apply verdict_without_threshold|done..].
  - intros report Hsome.
    by destruct (Hreport report Hsome) as (_ & _ & -> & _ & _ & ->).
Qed.

End Calibration.

Lemma baseline_calibration_witness :
  let self := BisectionNodeTester.new ["n0"; "n1"; "n2"] 8 None in
  let out := BisectionNodeTester.run_bisection_detection
               (first_reading_benchmark 250) self in
  BisectionNodeTester.bandwidth_gb_s
    (BisectionNodeTester._run_nccl_test (first_reading_benchmark 250) self
       (take 2 ["n0"; "n1"; "n2"]) "baseline").1 = Some (F64.of_Z 250)
  ∧ F64.eqb (F64.of_Z 250) F64.zero = false
  ∧ BisectionNodeTester.threshold_gb_s out.2 = Some (F64.of_Z 200)
  ∧ ∃ report,
      out.1 = Some report
      ∧ BisectionNodeTester.report_threshold_gb_s report
        = Some (F64.of_Z 200).
Proof.
  intros self out.
  assert (BisectionNodeTester.bandwidth_gb_s
            (BisectionNodeTester._run_nccl_test (first_reading_benchmark 250)
               self (take 2 ["n0"; "n1"; "n2"]) "baseline").1
          = Some (F64.of_Z 250)) as Hbw by reflexivity.
  assert (F64.eqb (F64.of_Z 250) F64.zero = false) as Hnz by reflexivity.
  split; [exact Hbw|]. split; [exact Hnz|].
  destruct (baseline_calibration (first_reading_benchmark 250)
              ["n0"; "n1"; "n2"] 8)
    as (_ & _ & Hset & _ & Hreport & Hexact).
  assert (BisectionNodeTester.threshold_gb_s out.2 = Some (F64.of_Z 200))
    as Hthr by (rewrite <-Hexact; exact (Hset (F64.of_Z 250) Hbw Hnz)).
  split; [exact Hthr|].
  destruct out.1 as [report|] eqn:Hout; [|by vm_compute in Hout].
  exists report. split; [done|].
  destruct (Hreport report Hout) as [-> _]. exact Hthr.
Defined.

(** A baseline of 250 followed by runs that read 250 too: the threshold of
    the tester is 200, every later verdict is a numpy value, and the run
    ends in the [TypeError] of [json.dump] without a report. *)
Example baseline_calibration_steady :
  let self := BisectionNodeTester.new ["n0"; "n1"; "n2"] 8 None in
  let out := BisectionNodeTester.run_bisection_detection
               (steady_benchmark 250) self in
  BisectionNodeTester.threshold_gb_s out.2 = Some (F64.of_Z 200)
  ∧ map BisectionNodeTester.numpy_verdict
        (BisectionNodeTester.test_history out.2) = [false; true]
  ∧ out.1 = None.
Proof. by vm_compute. Qed.

(** C6, as stated, fails for a baseline whose measured bandwidth is [0.0]:
    the reading exists, and no threshold is set, neither in the tester nor
    in the report returned. *)
Lemma zero_baseline_sets_no_threshold :
  let self := BisectionNodeTester.new ["n0"; "n1"; "n2"] 8 None in
  let baseline :=
    (BisectionNodeTester._run_nccl_test stalled_benchmark self
       (take 2 ["n0"; "n1"; "n2"]) "baseline").1 in
  let out := BisectionNodeTester.run_bisection_detection
               stalled_benchmark self in
  BisectionNodeTester.bandwidth_gb_s baseline = Some F64.zero
  ∧ BisectionNodeTester.threshold_gb_s out.2 = None
  ∧ BisectionNodeTester.report_threshold_gb_s <$> out.1 = Some None
  ∧ BisectionNodeTester.threshold_gb_s out.2
    ≠ Some (F64.mul F64.zero (F64.ratio 8 10)).
Proof. vm_compute. by repeat split. Qed.

(** ** The single-node base case *)

(** C7, at the code.  On a single node [_bisect_test] runs one benchmark on
    that node and returns the node exactly when the result is not good.
    The set of known-good nodes is the same before and after, also when the
    result is good. *)
Theorem single_node_base_case
    (mpirun : nat → list string → Z → BisectionNodeTester.outcome)
    (node : string) (depth : nat) (self : BisectionNodeTester.tester) :
  let r := BisectionNodeTester._run_nccl_test mpirun self [node]
             ("single_node_depth" +:+ pretty depth) in
  let out := BisectionNodeTester._bisect_test mpirun [node] depth self in
  BisectionNodeTester.test_history out.2
  = BisectionNodeTester.test_history self ++ [r.1]
  ∧ BisectionNodeTester.nodes r.1 = [node]
  ∧ out.1 = (if BisectionNodeTester.is_good r.1 then ∅ else {[ node ]})
  ∧ BisectionNodeTester.good_nodes out.2 = BisectionNodeTester.good_nodes self.
Proof.
  cbv zeta. rewrite bisect_test_single. cbv zeta.
  split; [by destruct (BisectionNodeTester.is_good _)|].
  split.
  { unfold BisectionNodeTester._run_nccl_test. cbn [fst].
    by destruct (mpirun _ _ _). }
  by destruct (BisectionNodeTester.is_good _).
Qed.

(** A good single node is not among the known-good nodes afterwards; a
    good pair is. *)
Example good_single_node_is_not_recorded :
  let out := BisectionNodeTester._bisect_test (scripted_benchmark [])
               ["n0"] 0 (BisectionNodeTester.new ["n0"] 8 None) in
  Forall (λ r, BisectionNodeTester.is_good r = true)
         (BisectionNodeTester.test_history out.2)
  ∧ out.1 = ∅
  ∧ BisectionNodeTester.good_nodes out.2 = ∅.
Proof. vm_compute. split; [repeat constructor|done]. Qed.

Example good_pair_is_recorded :
  let out := BisectionNodeTester._bisect_test (scripted_benchmark [])
               ["n0"; "n1"] 0 (BisectionNodeTester.new ["n0"; "n1"] 8 None) in
  out.1 = ∅
  ∧ BisectionNodeTester.good_nodes out.2 = {[ "n0"; "n1" ]}.
Proof. cbv zeta. apply (bool_decide_unpack _). by vm_compute. Qed.

(** ** The exit status of [main] *)

(** C4, as the code has it.  When the host file exists and the detection
    runs to its summary, the exit status is 0 if the final set of bad nodes
    is empty and 1 if it holds at least one node.  A missing host file
    exits with status 1 too: the same status as for bad nodes found. *)
Theorem exit_status_contract
    (mpirun : nat → list string → Z → BisectionNodeTester.outcome)
    (random_sample : list (string * string) → nat → list (string * string))
    (args : arguments) :
  (hostfile_exists args = false → main mpirun random_sample args = 1)
  ∧ (∀ results,
       hostfile_exists args = true →
       run_detection mpirun random_sample args = Some results →
       (final_bad_nodes results = ∅ → main mpirun random_sample args = 0)
       ∧ (final_bad_nodes results ≠ ∅ → main mpirun random_sample args = 1)).
Proof.
  unfold main. split.
  - by intros ->.
  - intros results -> ->. cbn [negb]. unfold final_exit_status.
    by destruct (decide (final_bad_nodes results = ∅)).
Qed.

Lemma one_bad_node_run_finds_n1 :
  final_bad_nodes <$>
    run_detection (scripted_benchmark ["n1"]) first_pairs one_bad_node_run
  = Some {[ "n1" ]}.
Proof. apply (bool_decide_unpack _). by vm_compute. Qed.

Lemma exit_status_contract_witness :
  hostfile_exists missing_hostfile_run = false
  ∧ main (scripted_benchmark ["n1"]) first_pairs missing_hostfile_run = 1
  ∧ hostfile_exists one_bad_node_run = true
  ∧ main (scripted_benchmark ["n1"]) first_pairs one_bad_node_run = 1
  ∧ final_bad_nodes <$>
      run_detection (scripted_benchmark []) first_pairs one_bad_node_run
    = Some ∅
  ∧ main (scripted_benchmark []) first_pairs one_bad_node_run = 0.
Proof.
  split; [reflexivity|].
  split.
  { exact (proj1 (exit_status_contract (scripted_benchmark ["n1"]) first_pairs
                    missing_hostfile_run) eq_refl). }
  split; [reflexivity|].
  split.
  { pose proof one_bad_node_run_finds_n1 as Hfound.
    destruct (run_detection (scripted_benchmark ["n1"]) first_pairs
                one_bad_node_run) as [results|] eqn:Hrun; [|discriminate].
    injection Hfound as Hfound.
    apply (proj2 (proj2 (exit_status_contract (scripted_benchmark ["n1"])
                           first_pairs one_bad_node_run)
                    results eq_refl Hrun)).
    rewrite Hfound. intros Hempty.
    apply (f_equal (λ X : gset string, bool_decide ("n1" ∈ X))) in Hempty.
    vm_compute in Hempty. discriminate. }
  assert (final_bad_nodes <$>
            run_detection (scripted_benchmark []) first_pairs
              one_bad_node_run = Some ∅) as Hnone
    by (apply (bool_decide_unpack _); by vm_compute).
  split; [exact Hnone|].
  destruct (run_detection (scripted_benchmark []) first_pairs
              one_bad_node_run) as [results|] eqn:Hrun; [|discriminate].
  injection Hnone as Hnone.
  exact (proj1 (proj2 (exit_status_contract (scripted_benchmark [])
                         first_pairs one_bad_node_run)
                  results eq_refl Hrun) Hnone).
Defined.

(** C4, as stated, fails: the missing host file and the run that finds the
    bad node [n1] end with the same exit status. *)
Lemma missing_hostfile_exits_like_bad_nodes :
  hostfile_exists missing_hostfile_run = false
  ∧ final_bad_nodes <$>
      run_detection (scripted_benchmark ["n1"]) first_pairs one_bad_node_run
    = Some {[ "n1" ]}
  ∧ main (scripted_benchmark ["n1"]) first_pairs missing_hostfile_run
    = main (scripted_benchmark ["n1"]) first_pairs one_bad_node_run.
Proof.
  split; [reflexivity|]. split; [exact one_bad_node_run_finds_n1|].
  by vm_compute.
Qed.

(** ** Pairwise aggregation *)

(** C3, as stated, fails: on the three-node example the averages are
    A: 100, B: 55, C: 55 (B takes part in the slow pair too), the threshold
    [mean - 2 * std] is about 27.6, and no node is flagged, C included. *)
Lemma slow_link_flags_no_node :
  averages_and_flags <$> slow_link_report
  = Some ([("A", F64.of_Z 100); ("B", F64.of_Z 55); ("C", F64.of_Z 55)], [])
  ∧ (PairwiseNodeTester.threshold_bandwidth
       ∘ PairwiseNodeTester.analysis) <$> slow_link_report
    = Some (Some (S754_finite false 7761276483760096 (-48)))
  ∧ F64.ltb (F64.of_Z 55) (S754_finite false 7761276483760096 (-48)) = false
  ∧ F64.gtb F64.zero (F64.ratio 2 10) = false.
Proof. by vm_compute. Qed.

Section PairwiseRule.

Import PairwiseNodeTester.

(** *** The statistics of a node, from the pair results *)

Lemma collect_node_stats_mentions (results : list (string * pair_result)) :
  collect_node_stats results
  = fold_left
      (λ node_stats e,
         record_pair (bandwidth_gb_s e.2) (success e.2) node_stats e.1)
      (mentions results) [].
Proof.
  unfold collect_node_stats, mentions. generalize (@nil (string * stats)).
  induction results as [|kv results IH]; intros acc; [done|].
  cbn [fold_left flat_map]. rewrite fold_left_app, IH. f_equal.
  generalize (nodes kv.2). intros ns. revert acc.
  induction ns as [|n ns IHn]; intros acc; [done|].
  cbn [fold_left map fst snd]. apply IHn.
Qed.

Lemma first_mentions_snoc l x :
  first_mentions (l ++ [x])
  = if decide (x ∈ first_mentions l) then first_mentions l
    else first_mentions l ++ [x].
Proof. unfold first_mentions. by rewrite foldl_app. Qed.

Lemma elem_of_first_mentions l x : x ∈ first_mentions l ↔ x ∈ l.
Proof.
  induction l as [|y l IH] using rev_ind; [done|].
  rewrite first_mentions_snoc. destruct (decide (y ∈ first_mentions l)).
  - set_solver.
  - set_solver.
Qed.

Lemma NoDup_first_mentions l : NoDup (first_mentions l).
Proof.
  induction l as [|y l IH] using rev_ind; [constructor|].
  rewrite first_mentions_snoc. destruct (decide (y ∈ first_mentions l)).
  - done.
  - apply NoDup_app. split; [done|]. split; [|apply NoDup_singleton].
    intros x Hx ->%list_elem_of_singleton. done.
Qed.

Lemma dict_get_map {V} (f : string → V) (l : list string) (k : string) :
  dict_get k (map (λ x, (x, f x)) l)
  = if decide (k ∈ l) then Some (f k) else None.
Proof.
  induction l as [|x l IH]; [done|]. cbn [map dict_get].
  destruct (decide (x = k)) as [->|Hne].
  - by rewrite decide_True by set_solver.
  - rewrite IH. destruct (decide (k ∈ l)).
    + by rewrite decide_True by set_solver.
    + by rewrite decide_False by set_solver.
Qed.

Lemma dict_set_map {V} (f : string → V) (l : list string) (k : string)
    (v : V) :
  NoDup l →
  dict_set k v (map (λ x, (x, f x)) l)
  = map (λ x, (x, if decide (x = k) then v else f x))
        (if decide (k ∈ l) then l else l ++ [k]).
Proof.
  induction 1 as [|x l Hx Hnd IH].
  { cbn [map dict_set]. rewrite decide_False by set_solver. cbn.
    by rewrite decide_True. }
  cbn [map dict_set]. destruct (decide (x = k)) as [->|Hne].
  - rewrite decide_True by set_solver. cbn [map].
    rewrite decide_True by done. f_equal.
    apply map_ext_in. intros y Hy%list_elem_of_In.
    by rewrite decide_False by (by intros ->).
  - rewrite IH. destruct (decide (k ∈ l)).
    + rewrite decide_True by set_solver. cbn [map].
      by rewrite decide_False by done.
    + rewrite decide_False by set_solver. cbn [map app].
      by rewrite decide_False by done.
Qed.

Lemma filter_none {A} (Q : A → Prop) `{!∀ x, Decision (Q x)} (l : list A) :
  (∀ x, x ∈ l → ¬ Q x) → filter Q l = [].
Proof.
  induction l as [|x l IH]; intros Hl; [done|].
  rewrite filter_cons, decide_False by (apply Hl; set_solver).
  apply IH. intros y Hy. apply Hl. set_solver.
Qed.

(** The [node_stats] dict holds, for the nodes in the order of their first
    mention, the samples, the failures and the tests of each. *)
Lemma collect_node_stats_spec (results : list (string * pair_result)) :
  collect_node_stats results
  = map (λ x, (x, {| bandwidths := samples_of x (mentions results);
                     failures := failures_of x (mentions results);
                     tests := tests_of x (mentions results) |}))
        (first_mentions (map fst (mentions results))).
Proof.
  rewrite collect_node_stats_mentions. generalize (mentions results).
  intros ms. induction ms as [|[n r] ms IH] using rev_ind; [done|].
  rewrite fold_left_app, IH. cbn [fold_left fst snd].
  rewrite map_app. cbn [map fst]. rewrite first_mentions_snoc.
  set (seen := first_mentions (map fst ms)).
  unfold record_pair. cbv zeta.
  rewrite dict_get_map, dict_set_map by apply NoDup_first_mentions.
  assert (results_of n (ms ++ [(n, r)]) = results_of n ms ++ [r]) as Hn.
  { unfold results_of. rewrite filter_app, map_app.
    rewrite filter_cons, decide_True by done. done. }
  assert (∀ x, x ≠ n → results_of x (ms ++ [(n, r)]) = results_of x ms)
    as Hx.
  { intros x Hne. unfold results_of. rewrite filter_app.
    rewrite filter_cons, decide_False by (cbn; congruence).
    rewrite filter_nil. by rewrite app_nil_r. }
  assert (n ∉ seen → results_of n ms = []) as Hfresh.
  { intros Hnotin. unfold results_of. rewrite filter_none; [done|].
    intros [y ry] Hy Heq. cbn in Heq. subst y. apply Hnotin.
    apply elem_of_first_mentions, list_elem_of_fmap. by exists (n, ry). }
  apply map_ext_in. intros x Hin%list_elem_of_In. f_equal.
  destruct (decide (x = n)) as [->|Hne].
  - assert (default default_stats
              (if decide (n ∈ seen)
               then Some {| bandwidths := samples_of n ms;
                            failures := failures_of n ms;
                            tests := tests_of n ms |}
               else None)
            = {| bandwidths := samples_of n ms;
                 failures := failures_of n ms;
                 tests := tests_of n ms |}) as ->.
    { destruct (decide (n ∈ seen)) as [|Hnotin]; [done|].
      unfold samples_of, failures_of, tests_of.
      by rewrite (Hfresh Hnotin). }
    unfold samples_of, failures_of, tests_of. rewrite Hn.
    cbn [bandwidths failures tests].
    rewrite omap_app, filter_app, !length_app. cbn [omap list_omap].
    rewrite filter_cons, filter_nil.
    destruct (truthy (bandwidth_gb_s r)) eqn:Hbw,
             (success r) eqn:Hok; cbn [negb].
    all: try rewrite decide_True by done.
    all: try rewrite decide_False by done.
    all: cbn [length]; rewrite ?app_nil_r, ?Nat.add_0_r, ?Nat.add_1_r.
    all: destruct (bandwidth_gb_s r); try done.
  - unfold samples_of, failures_of, tests_of. by rewrite (Hx x Hne).
Qed.

Lemma node_statistics_table_map (st : string → stats) (l : list string) :
  node_statistics_table (map (λ x, (x, st x)) l)
  = map (λ x, (x, {| average_bandwidth_gb_s := np.mean (bandwidths (st x));
                     std_bandwidth_gb_s := np.std (bandwidths (st x));
                     failure_count := failures (st x);
                     total_tests := tests (st x);
                     failure_rate :=
                       if (0 <? Z.of_nat (tests (st x)))
                       then F64.div (F64.of_nat (failures (st x)))
                                    (F64.of_nat (tests (st x)))
                       else F64.zero |}))
        (filter (λ x, (0 < length (bandwidths (st x)))%nat) l).
Proof.
  unfold node_statistics_table.
  induction l as [|x l IH]; [done|]. cbn [map omap list_omap fst snd].
  rewrite filter_cons. destruct (bandwidths (st x)) as [|b bs] eqn:Hb.
  - rewrite decide_False by (cbn; lia). exact IH.
  - rewrite decide_True by (cbn; lia). cbn [map]. rewrite Hb.
    f_equal. exact IH.
Qed.

Lemma filter_map_commute {A B} (g : A → B) (Q : B → Prop)
    `{!∀ y, Decision (Q y)} (l : list A) :
  filter Q (map g l) = map g (filter (λ x, Q (g x)) l).
Proof.
  induction l as [|x l IH]; [done|]. cbn [map].
  rewrite !filter_cons. destruct (decide (Q (g x))); cbn [map]; by rewrite IH.
Qed.

Lemma filter_ext_in {A} (Q1 Q2 : A → Prop) `{!∀ x, Decision (Q1 x)}
    `{!∀ x, Decision (Q2 x)} (l : list A) :
  (∀ x, x ∈ l → Q1 x ↔ Q2 x) → filter Q1 l = filter Q2 l.
Proof.
  induction l as [|x l IH]; intros Hl; [done|]. rewrite !filter_cons.
  assert (Q1 x ↔ Q2 x) as Hx by (apply Hl; set_solver).
  rewrite IH by (intros y Hy; apply Hl; set_solver).
  destruct (decide (Q1 x)), (decide (Q2 x)); tauto.
Qed.

Lemma samples_within_tests x (ms : list (string * pair_result)) :
  (length (samples_of x ms) ≤ tests_of x ms)%nat.
Proof.
  unfold samples_of, tests_of. generalize (results_of x ms). intros rs.
  induction rs as [|r rs IH]; [done|]. cbn [omap list_omap length].
  destruct (if truthy _ then _ else _); cbn [length]; lia.
Qed.

(** C3, as the code has it.  The nodes are taken in the order in which the
    pair results first name them, and those with at least one bandwidth
    sample have an average: the mean of the bandwidths (other than [0.0])
    measured on the pairs that name the node.  The failure rate of a node is
    the number of its pairs that failed over the number of its pairs.  Such
    a node is flagged if and only if its average is below
    [global_mean - 2 * global_std], the mean and the population deviation
    of these averages, or its failure rate exceeds 0.2, with the reason
    "Low bandwidth" when it is below the bandwidth threshold and "High
    failure rate" otherwise.  On the three-node example (AB = 100,
    AC = 100, BC = 10, all pairs succeeding) the averages are A: 100, B: 55,
    C: 55 and the rule flags no node; when all pairs measure 100 and the
    pair of A and C fails, A and C are flagged for their failure rate. *)
Theorem pairwise_flagging_rule :
  averages_and_flags <$> slow_link_report
  = Some ([("A", F64.of_Z 100); ("B", F64.of_Z 55); ("C", F64.of_Z 55)], [])
  ∧ flags_and_reasons <$> failing_pair_report
    = Some [("A", "High failure rate"); ("C", "High failure rate")]
  ∧ ∀ self : tester,
      let ms := mentions (pairwise_results self) in
      let sampled :=
        filter (λ x, (0 < length (samples_of x ms))%nat)
               (first_mentions (map fst ms)) in
      let average x := np.mean (samples_of x ms) in
      let rate x :=
        F64.div (F64.of_nat (failures_of x ms))
                (F64.of_nat (tests_of x ms)) in
      let threshold :=
        F64.sub (np.mean (map average sampled))
                (F64.mul (F64.of_Z 2) (np.std (map average sampled))) in
      problematic_nodes (_analyze_pairwise_results self)
      = map (λ x, {| node := x;
                     pn_average_bandwidth_gb_s := average x;
                     pn_failure_rate := rate x;
                     reason := if F64.ltb (average x) threshold
                               then "Low bandwidth"
                               else "High failure rate" |})
            (filter (λ x, F64.ltb (average x) threshold = true
                          ∨ F64.gtb (rate x) (F64.ratio 2 10) = true)
                    sampled).
Proof.
  split; [by vm_compute|]. split; [by vm_compute|].
  intros self. cbv zeta. unfold _analyze_pairwise_results.
  rewrite collect_node_stats_spec, node_statistics_table_map.
  cbn [bandwidths failures tests].
  set (ms := mentions (pairwise_results self)).
  set (sampled := filter _ (first_mentions (map fst ms))).
  rewrite map_map. cbn [snd average_bandwidth_gb_s].
  destruct (map (λ x, np.mean (samples_of x ms)) sampled)
    as [|avg avgs] eqn:Havgs; cbn [problematic_nodes].
  { destruct sampled; [done|discriminate]. }
  rewrite <-Havgs.
  set (threshold := F64.sub _ _).
  rewrite (filter_map_commute _ (λ kv, is_problematic threshold kv.2 = true)).
  rewrite map_map. unfold is_problematic, flag.
  cbn [fst snd average_bandwidth_gb_s failure_rate].
  assert (∀ x, x ∈ sampled → (0 <? Z.of_nat (tests_of x ms)) = true)
    as Htests.
  { intros x [Hx _]%list_elem_of_filter.
    pose proof (samples_within_tests x ms). apply Z.ltb_lt. lia. }
  assert (filter (λ x, F64.ltb (np.mean (samples_of x ms)) threshold
                       || F64.gtb
                            (if 0 <? Z.of_nat (tests_of x ms)
                             then F64.div (F64.of_nat (failures_of x ms))
                                          (F64.of_nat (tests_of x ms))
                             else F64.zero) (F64.ratio 2 10) = true)
                 sampled
          = filter (λ x, F64.ltb (np.mean (samples_of x ms)) threshold = true
                         ∨ F64.gtb
                             (F64.div (F64.of_nat (failures_of x ms))
                                      (F64.of_nat (tests_of x ms)))
                             (F64.ratio 2 10) = true) sampled) as ->.
  { apply filter_ext_in. intros x Hx. rewrite (Htests x Hx).
    by rewrite orb_true_iff. }
  apply map_ext_in. intros x [_ Hx]%list_elem_of_In%list_elem_of_filter.
  by rewrite (Htests x Hx).
Qed.

End PairwiseRule.

(** A node without a single bandwidth sample has no statistics and is not
    flagged, whatever its failure rate: when both pairs of C fail without a
    bandwidth line, A and B are flagged for their failure rate of 0.5, and
    C, which fails always, is not. *)
Example node_without_samples_is_not_flagged :
  let bench : nat → list string → Z → BisectionNodeTester.outcome :=
    λ _ ns _,
      if bool_decide ("C" ∈ ns) then BisectionNodeTester.Exited 1 None
      else BisectionNodeTester.Exited 0 (Some (F64.of_Z 100)) in
  averages_and_flags ∘ fst <$>
    PairwiseNodeTester.run_pairwise_tests bench first_pairs
      (PairwiseNodeTester.new ["A"; "B"; "C"] 8) None
  = Some ([("A", F64.of_Z 100); ("B", F64.of_Z 100)], ["A"; "B"]).
Proof. by vm_compute. Qed.

(** ** Outlier detection *)

(** *** Facts of floating-point arithmetic *)

Lemma F64_sub_diag x : F64.sub x x = F64.zero ∨ F64.sub x x = S754_nan.
Proof.
  destruct x as [[]|[]| |s m e]; cbn; auto.
  left. unfold F64.sub, SFsub. by rewrite Z.sub_diag.
Qed.

Lemma F64_div_nan_l y : F64.div S754_nan y = S754_nan.
Proof. done. Qed.

Lemma F64_div_nan_r x : F64.div x S754_nan = S754_nan.
Proof. by destruct x. Qed.

Lemma F64_div_zero_l c : zero_or_nan (F64.div F64.zero c).
Proof. by destruct c as [[]|[]| |[] m e]. Qed.

Lemma F64_sqrt_zero_or_nan x :
  zero_or_nan x → zero_or_nan (F64.sqrt x).
Proof. by destruct x as [[]|[]| |[] m e]. Qed.

Lemma F64_gtb_nan y : F64.gtb S754_nan y = false.
Proof. by destruct y. Qed.

Lemma F64_ltb_nan_r x : F64.ltb x S754_nan = false.
Proof. by destruct x. Qed.

Lemma F64_ltb_nan_l y : F64.ltb S754_nan y = false.
Proof. done. Qed.

Lemma F64_eqb_zero x : is_zero x → F64.eqb x F64.zero = true.
Proof. by destruct x. Qed.

(** *** Floating-point sums *)

Section PairwiseSum.

(** Facts that hold of a sum whatever the order of the additions: a
    property kept by [+] that holds of all the elements holds of the sum,
    and a property that [+] passes on from either argument holds of the sum
    when it holds of some element. *)

Variable P : spec_float → Prop.

Lemma fold_add_closed a acc :
  (∀ x y, P x → P y → P (F64.add x y)) →
  P acc → Forall P a → P (fold_left F64.add a acc).
Proof.
  intros Hadd Hacc Ha. revert acc Hacc.
  induction Ha as [|x a Hx _ IH]; intros acc Hacc; [done|].
  cbn [fold_left]. apply IH. by apply Hadd.
Qed.

Lemma fold_add_absorbing a acc :
  (∀ x y, P x ∨ P y → P (F64.add x y)) →
  P acc ∨ Exists P a → P (fold_left F64.add a acc).
Proof.
  intros Hadd. revert acc.
  induction a as [|x a IH]; intros acc [Hacc|Ha]; cbn [fold_left].
  - done.
  - by apply Exists_nil in Ha.
  - apply IH. left. apply Hadd. by left.
  - apply IH. apply Exists_cons in Ha as [Hx|Ha]; [left|by right].
    apply Hadd. by right.
Qed.

Lemma zip_add_closed r c :
  (∀ x y, P x → P y → P (F64.add x y)) →
  Forall P r → Forall P c → Forall P (zip_with F64.add r c).
Proof.
  intros Hadd Hr. revert c.
  induction Hr as [|x r Hx _ IH]; intros c Hc; [constructor|].
  destruct Hc as [|y c Hy Hc]; [constructor|]. cbn [zip_with].
  constructor; [by apply Hadd|by apply IH].
Qed.

Lemma zip_add_absorbing r c :
  (∀ x y, P x ∨ P y → P (F64.add x y)) →
  length r = length c →
  Exists P r ∨ Exists P c → Exists P (zip_with F64.add r c).
Proof.
  intros Hadd. revert c.
  induction r as [|x r IH]; intros [|y c] Hlen H; try done.
  { destruct H as [H|H]; by apply Exists_nil in H. }
  cbn [zip_with]. rewrite Exists_cons.
  rewrite !Exists_cons in H. cbn [length] in Hlen.
  destruct H as [[Hx|Hr]|[Hy|Hc]].
  - left. apply Hadd. by left.
  - right. apply IH; [lia|by left].
  - left. apply Hadd. by right.
  - right. apply IH; [lia|by right].
Qed.

Lemma accumulate8_length turns r a :
  length r = 8%nat → (8 * turns ≤ length a)%nat →
  length (np.accumulate8 turns r a).1 = 8%nat
  ∧ length (np.accumulate8 turns r a).2 = (length a - 8 * turns)%nat.
Proof.
  revert r a. induction turns as [|turns IH]; intros r a Hr Ha.
  { cbn. split; [done|lia]. }
  cbn [np.accumulate8].
  destruct (IH (zip_with F64.add r (take 8 a)) (drop 8 a)) as [H1 H2].
  - rewrite length_zip_with, length_take. lia.
  - rewrite length_drop. lia.
  - split; [done|]. rewrite H2, length_drop. lia.
Qed.

Lemma accumulate8_closed turns r a :
  (∀ x y, P x → P y → P (F64.add x y)) →
  Forall P r → Forall P a →
  Forall P (np.accumulate8 turns r a).1
  ∧ Forall P (np.accumulate8 turns r a).2.
Proof.
  intros Hadd. revert r a.
  induction turns as [|turns IH]; intros r a Hr Ha; [done|].
  cbn [np.accumulate8]. apply IH.
  - apply zip_add_closed; [done..|]. by apply Forall_take.
  - by apply Forall_drop.
Qed.

Lemma accumulate8_absorbing turns r a :
  (∀ x y, P x ∨ P y → P (F64.add x y)) →
  length r = 8%nat → (8 * turns ≤ length a)%nat →
  Exists P r ∨ Exists P a →
  Exists P (np.accumulate8 turns r a).1
  ∨ Exists P (np.accumulate8 turns r a).2.
Proof.
  intros Hadd. revert r a.
  induction turns as [|turns IH]; intros r a Hr Ha H; [done|].
  cbn [np.accumulate8]. apply IH.
  - rewrite length_zip_with, length_take. lia.
  - rewrite length_drop. lia.
  - assert (Exists P r ∨ Exists P (take 8 a) ∨ Exists P (drop 8 a))
      as [?|[?|?]].
    { destruct H as [?|H]; [by left|]. right.
      rewrite <-(take_drop 8 a) in H. by apply Exists_app in H. }
    + left. apply zip_add_absorbing; [done| |by left].
      rewrite length_take. lia.
    + left. apply zip_add_absorbing; [done| |by right].
      rewrite length_take. lia.
    + by right.
Qed.

Lemma block_sum_closed a :
  (∀ x y, P x → P y → P (F64.add x y)) →
  (8 ≤ length a)%nat → Forall P a → P (np.block_sum a).
Proof.
  intros Hadd Hlen Ha. unfold np.block_sum.
  assert (1 ≤ length a / 8)%nat
    by (apply (Nat.div_le_lower_bound _ 8 1); lia).
  pose proof (Nat.Div0.mul_div_le (length a) 8).
  destruct (accumulate8_length (length a / 8 - 1) (take 8 a) (drop 8 a))
    as [Hr _].
  { rewrite length_take. lia. }
  { rewrite length_drop. lia. }
  destruct (accumulate8_closed (length a / 8 - 1) (take 8 a) (drop 8 a) Hadd)
    as [Hacc Hrest]; [by apply Forall_take|by apply Forall_drop|].
  destruct (np.accumulate8 _ _ _) as [r rest]. cbn [fst snd] in *.
  do 8 (destruct r as [|? r]; [done|]). destruct r; [|done].
  repeat match goal with
         | H : Forall P (_ :: _) |- _ => apply Forall_cons in H as [? H]
         end.
  apply fold_add_closed; auto.
Qed.

Lemma block_sum_absorbing a :
  (∀ x y, P x ∨ P y → P (F64.add x y)) →
  (8 ≤ length a)%nat → Exists P a → P (np.block_sum a).
Proof.
  intros Hadd Hlen Ha. unfold np.block_sum.
  assert (1 ≤ length a / 8)%nat
    by (apply (Nat.div_le_lower_bound _ 8 1); lia).
  pose proof (Nat.Div0.mul_div_le (length a) 8).
  destruct (accumulate8_length (length a / 8 - 1) (take 8 a) (drop 8 a))
    as [Hr _].
  { rewrite length_take. lia. }
  { rewrite length_drop. lia. }
  destruct (accumulate8_absorbing (length a / 8 - 1) (take 8 a) (drop 8 a)
              Hadd) as [Hacc|Hrest].
  { rewrite length_take. lia. }
  { rewrite length_drop. lia. }
  { rewrite <-(take_drop 8 a) in Ha. by apply Exists_app in Ha. }
  all: destruct (np.accumulate8 _ _ _) as [r rest]; cbn [fst snd] in *.
  all: do 8 (destruct r as [|? r]; [done|]); destruct r; [|done].
  all: apply fold_add_absorbing; [done|].
  - left. rewrite !Exists_cons in Hacc.
    destruct Hacc as [?|[?|[?|[?|[?|[?|[?|[?|Hnil]]]]]]]];
      [..|by apply Exists_nil in Hnil]; auto 10.
  - by right.
Qed.

Lemma pairwise_sum_closed a :
  (∀ x y, P x → P y → P (F64.add x y)) →
  P (S754_zero true) → Forall P a → P (np.pairwise_sum a).
Proof.
  intros Hadd Hzero. funelim (np.pairwise_sum a); intros Ha.
  - destruct (length a <? 8)%nat eqn:Hshort.
    + by apply fold_add_closed.
    + apply Nat.ltb_ge in Hshort. by apply block_sum_closed.
  - apply Hadd; [apply H|apply H0]; auto using Forall_take, Forall_drop.
Qed.

Lemma pairwise_sum_absorbing a :
  (∀ x y, P x ∨ P y → P (F64.add x y)) →
  Exists P a → P (np.pairwise_sum a).
Proof.
  intros Hadd. funelim (np.pairwise_sum a); intros Ha.
  - destruct (length a <? 8)%nat eqn:Hshort.
    + apply fold_add_absorbing; [done|by right].
    + apply Nat.ltb_ge in Hshort. by apply block_sum_absorbing.
  - apply Hadd.
    rewrite <-(take_drop (length a / 2 - (length a / 2) mod 8) a) in Ha.
    apply Exists_app in Ha as [Ha|Ha]; [left; by apply H|right; by apply H0].
Qed.

End PairwiseSum.

Lemma np_sum_zeros n : np.sum (replicate n F64.zero) = F64.zero.
Proof.
  unfold np.sum.
  assert (np.pairwise_sum (replicate n F64.zero) = S754_zero true
          ∨ np.pairwise_sum (replicate n F64.zero) = S754_zero false)
    as [-> | ->]; [|done..].
  apply (pairwise_sum_closed
           (λ x, x = S754_zero true ∨ x = S754_zero false)).
  - by intros x y [-> | ->] [-> | ->]; [left|right..].
  - by left.
  - apply Forall_replicate. by right.
Qed.

(** *** Selecting indices *)

Lemma elem_of_where {A} (p : A → bool) (l : list A) (i : nat) :
  i ∈ SlowNodeDetector.where_ p l ↔ ∃ v, l !! i = Some v ∧ p v = true.
Proof.
  unfold SlowNodeDetector.where_. rewrite list_elem_of_fmap. split.
  - intros ([j v] & -> & Hin).
    apply list_elem_of_filter in Hin as [Hp Hin].
    apply elem_of_lookup_imap in Hin as (k & w & [= -> ->] & Hk).
    by exists w.
  - intros (v & Hv & Hp). exists (i, v). split; [done|].
    apply list_elem_of_filter. split; [done|].
    apply elem_of_lookup_imap. by exists i, v.
Qed.

Lemma where_none {A} (p : A → bool) (l : list A) :
  (∀ v, v ∈ l → p v = false) → SlowNodeDetector.where_ p l = [].
Proof.
  intros Hnone. apply elem_of_nil_inv. intros i Hi.
  apply elem_of_where in Hi as (v & Hv & Hp).
  rewrite Hnone in Hp; [done|]. by eapply list_elem_of_lookup_2.
Qed.

(** *** The Z-score test *)

Section ZScore.

Import SlowNodeDetector.

(** The deviations of identical samples from a mean that reproduces them,
    squared and averaged: the deviation is zero or NaN. *)
Lemma np_std_identical n x :
  np.mean (replicate n x) = x →
  F64.sub x x = S754_nan ∨ zero_or_nan (np.std (replicate n x)).
Proof.
  intros Hmean. destruct (F64_sub_diag x) as [Hd|Hd]; [right|by left].
  unfold np.std. rewrite Hmean, !fmap_replicate. cbv beta. rewrite Hd.
  change (F64.mul F64.zero F64.zero) with F64.zero.
  unfold np.mean. rewrite np_sum_zeros.
  apply F64_sqrt_zero_or_nan, F64_div_zero_l.
Qed.

Lemma zscore_identical n x threshold :
  np.mean (replicate n x) = x →
  detect_outliers_zscore (replicate n x) threshold = [].
Proof.
  intros Hmean. unfold detect_outliers_zscore.
  destruct (_ <? 3)%nat; [done|].
  destruct (F64.eqb (np.std (replicate n x)) F64.zero) eqn:Hstd; [done|].
  apply where_none. intros z Hz.
  apply list_elem_of_fmap in Hz as (v & -> & Hv).
  apply elem_of_replicate in Hv as [-> _]. rewrite Hmean.
  destruct (np_std_identical n x Hmean) as [Hd|Hs].
  - rewrite Hd. exact (F64_gtb_nan threshold).
  - destruct (np.std (replicate n x)) as [s| | |]; try done.
    rewrite F64_div_nan_r. exact (F64_gtb_nan threshold).
Qed.

(** C8, as the code has it.  [detect_outliers_zscore] returns no index
    when there are fewer than 3 samples or when the population standard
    deviation is 0; otherwise it returns exactly the indices [i] with
    [|x_i - mu| / sigma > threshold], [mu] the population mean and [sigma]
    the population standard deviation.  It returns no index on 2 samples.
    On an all-identical sequence it returns no index when the computed mean
    is the common value (the deviation is then 0 or, for an infinite or NaN
    sample, every score is NaN).  [mu] is the sum of the samples divided by
    their number, and [sigma] the square root of the sum of the squared
    deviations from [mu] divided by the number of samples. *)
Theorem zscore_outliers_spec (values : list spec_float)
    (threshold : spec_float) :
  let mu := np.mean values in
  let sigma := np.std values in
  ((length values < 3)%nat ∨ F64.eqb sigma F64.zero = true →
   detect_outliers_zscore values threshold = [])
  ∧ ((3 ≤ length values)%nat → F64.eqb sigma F64.zero = false →
     ∀ i, i ∈ detect_outliers_zscore values threshold
          ↔ ∃ x, values !! i = Some x
                 ∧ F64.gtb (F64.abs (F64.div (F64.sub x mu) sigma)) threshold
                   = true)
  ∧ (length values = 2%nat → detect_outliers_zscore values threshold = [])
  ∧ (∀ n x, values = replicate n x → mu = x →
            detect_outliers_zscore values threshold = [])
  ∧ mu = F64.div (np.sum values) (F64.of_nat (length values))
  ∧ sigma
    = F64.sqrt
        (F64.div
           (np.sum (map (λ x, F64.mul (F64.sub x mu) (F64.sub x mu)) values))
           (F64.of_nat (length values))).
Proof.
  cbv zeta. split; [|split; [|split; [|split; [|split]]]].
  - unfold detect_outliers_zscore. intros [Hlen|Hstd].
    + apply Nat.ltb_lt in Hlen. by rewrite Hlen.
    + rewrite Hstd. by destruct (_ <? 3)%nat.
  - intros Hlen Hstd i. unfold detect_outliers_zscore.
    apply Nat.ltb_ge in Hlen. rewrite Hlen, Hstd.
    rewrite elem_of_where. setoid_rewrite list_lookup_fmap. split.
    + intros (z & Hz & Hgt).
      destruct (values !! i) as [x|]; [|done].
      injection Hz as <-. by exists x.
    + intros (x & -> & Hgt). eauto.
  - intros Hlen. unfold detect_outliers_zscore. by rewrite Hlen.
  - intros n x -> Hmean. by apply zscore_identical.
  - done.
  - unfold np.std, np.mean. cbv zeta. by rewrite map_map, !length_map.
Qed.

End ZScore.

Lemma zscore_outliers_spec_witness :
  let values := replicate 4 (F64.of_Z 5) in
  ((length values < 3)%nat ∨ F64.eqb (np.std values) F64.zero = true)
  ∧ np.mean values = F64.of_Z 5
  ∧ SlowNodeDetector.detect_outliers_zscore values (F64.of_Z 2) = [].
Proof.
  intros values.
  assert (F64.eqb (np.std values) F64.zero = true) as Hstd by reflexivity.
  split; [by right|]. split; [reflexivity|].
  exact (proj1 (zscore_outliers_spec values (F64.of_Z 2)) (or_intror Hstd)).
Defined.

(** C8, as stated, fails on the all-identical samples [0.1, 0.1, 0.1] with
    the threshold [0.5]: their sum is rounded (in whichever order the three
    are added), the mean is not [0.1], the deviation is not 0, every score
    is 1, and all three indices are returned. *)
Lemma zscore_identical_samples_flagged :
  let x := F64.ratio 1 10 in
  F64.add (F64.add x x) x = F64.add x (F64.add x x)
  ∧ np.mean [x; x; x] ≠ x
  ∧ F64.eqb (np.std [x; x; x]) F64.zero = false
  ∧ SlowNodeDetector.detect_outliers_zscore [x; x; x] (F64.ratio 1 2)
    = [0; 1; 2]%nat.
Proof. vm_compute. by repeat split. Qed.

(** The eight samples 2, 4, 4, 4, 5, 5, 7, 9 have the mean 5 and the
    deviation 2; with the threshold 1.4 the first and the last are returned,
    whose scores are 1.5 and 2, and with the threshold 1.5 the last only. *)
Example zscore_eight_samples :
  let f := F64.of_Z in
  let values := [f 2; f 4; f 4; f 4; f 5; f 5; f 7; f 9] in
  np.mean values = f 5
  ∧ np.std values = f 2
  ∧ SlowNodeDetector.detect_outliers_zscore values (F64.ratio 14 10)
    = [0; 7]%nat
  ∧ SlowNodeDetector.detect_outliers_zscore values (F64.ratio 15 10)
    = [7%nat].
Proof. by vm_compute. Qed.

(** Ten samples of [0.1] with the same threshold: [np.sum] adds the first
    eight pairwise, which is exact, then the last two; the sum is 1, the mean
    is [0.1], the deviation is 0 and no index is returned. *)
Example zscore_ten_identical_samples :
  let x := F64.ratio 1 10 in
  np.sum (replicate 10 x) = F64.of_Z 1
  ∧ np.mean (replicate 10 x) = x
  ∧ np.std (replicate 10 x) = F64.zero
  ∧ SlowNodeDetector.detect_outliers_zscore (replicate 10 x) (F64.ratio 1 2)
    = [].
Proof. by vm_compute. Qed.

(** *** The interquartile-range test *)

Lemma keeps_diag x : F64.sub x x = F64.zero → keeps x x.
Proof.
  destruct x as [s|[]| |s m e]; try done; intros _.
  - right. by left.
  - right. right. by exists s, m, e.
Qed.

Lemma F64_mul_zero_or_nan_l z u : zero_or_nan z → zero_or_nan (F64.mul z u).
Proof. by destruct z, u. Qed.

Lemma F64_mul_zero_or_nan_r z u : zero_or_nan z → zero_or_nan (F64.mul u z).
Proof. by destruct z, u. Qed.

Lemma keeps_add x q z : keeps x q → zero_or_nan z → keeps x (F64.add q z).
Proof.
  intros [->|[[Hx Hq]|(s & m & e & -> & ->)]] Hz.
  - by left.
  - destruct q as [sq| | |]; try done.
    destruct z as [sz| | |]; try done; [|by left].
    right. left. split; [done|]. by destruct sq, sz.
  - destruct z as [sz| | |]; try done; [|by left].
    right. right. by exists s, m, e.
Qed.

Lemma keeps_sub x q z : keeps x q → zero_or_nan z → keeps x (F64.sub q z).
Proof.
  intros [->|[[Hx Hq]|(s & m & e & -> & ->)]] Hz.
  - by left.
  - destruct q as [sq| | |]; try done.
    destruct z as [sz| | |]; try done; [|by left].
    right. left. split; [done|]. by destruct sq, sz.
  - destruct z as [sz| | |]; try done; [|by left].
    right. right. by exists s, m, e.
Qed.

Lemma keeps_difference x q q' :
  keeps x q → keeps x q' → zero_or_nan (F64.sub q q').
Proof.
  intros [->|[[Hx Hq]|(s & m & e & -> & ->)]]
         [->|[[Hx' Hq']|(s' & m' & e' & Hxx & ->)]]; try done.
  - by destruct q.
  - by destruct q as [[]| | |], q' as [[]| | |].
  - by subst x.
  - by destruct (F64_sub_diag (S754_finite s m e)) as [-> | ->].
Qed.

Lemma SFcompare_finite_refl s m e :
  SFcompare (S754_finite s m e) (S754_finite s m e) = Some Eq.
Proof.
  cbn. rewrite Z.compare_refl.
  assert (Pos.compare_cont Eq m m = Eq) as -> by apply Pos.compare_refl.
  by destruct s.
Qed.

Lemma keeps_not_below x q : keeps x q → F64.ltb x q = false.
Proof.
  intros [->|[[Hx Hq]|(s & m & e & -> & ->)]].
  - apply F64_ltb_nan_r.
  - by destruct x, q.
  - unfold F64.ltb, SFltb. by rewrite SFcompare_finite_refl.
Qed.

Lemma keeps_not_above x q : keeps x q → F64.gtb x q = false.
Proof.
  intros [->|[[Hx Hq]|(s & m & e & -> & ->)]].
  - done.
  - by destruct x, q.
  - unfold F64.gtb, SFltb. by rewrite SFcompare_finite_refl.
Qed.

Lemma lerp_nan_l b t : np._lerp S754_nan b t = S754_nan.
Proof.
  unfold np._lerp. assert (F64.sub b S754_nan = S754_nan) as ->
    by (by destruct b).
  destruct (F64.geb _ _); [by destruct b|done].
Qed.

Lemma lerp_nan_r a t : np._lerp a S754_nan t = S754_nan.
Proof. unfold np._lerp. destruct (F64.geb _ _); [done|by destruct a]. Qed.

Lemma lerp_identical x t : keeps x (np._lerp x x t).
Proof.
  unfold np._lerp. destruct (F64_sub_diag x) as [Hd|Hd]; rewrite Hd.
  - destruct (F64.geb _ _).
    + apply keeps_sub; [by apply keeps_diag|]. by apply F64_mul_zero_or_nan_l.
    + apply keeps_add; [by apply keeps_diag|]. by apply F64_mul_zero_or_nan_l.
  - left. destruct (F64.geb _ _); by destruct x.
Qed.

Lemma insort_replicate x k : np.insort x (replicate k x) = replicate (S k) x.
Proof.
  induction k as [|k IH]; [done|]. cbn [replicate np.insort].
  destruct (SFleb x x); [done|]. by rewrite IH.
Qed.

Lemma sort_replicate x n : np.sort (replicate n x) = replicate n x.
Proof.
  unfold np.sort. induction n as [|n IH]; [done|].
  cbn [replicate foldr]. rewrite IH. apply insort_replicate.
Qed.

Lemma nth_replicate_cases {A} (x d : A) n i :
  nth i (replicate n x) d = x ∨ nth i (replicate n x) d = d.
Proof.
  revert i. induction n as [|n IH]; intros [|i]; cbn; auto.
Qed.

Lemma percentile_identical n x q : keeps x (np.percentile (replicate n x) q).
Proof.
  unfold np.percentile. destruct (existsb _ _); [by left|].
  rewrite sort_replicate. cbv zeta.
  match goal with
  | |- keeps x (np._lerp (nth ?i _ _) (nth ?j _ _) _) =>
      destruct (nth_replicate_cases x S754_nan n i) as [-> | ->];
      destruct (nth_replicate_cases x S754_nan n j) as [-> | ->]
  end.
  - apply lerp_identical.
  - left. apply lerp_nan_r.
  - left. apply lerp_nan_l.
  - left. apply lerp_nan_l.
Qed.

Lemma insort_Permutation v a : np.insort v a ≡ₚ v :: a.
Proof.
  induction a as [|w a IH]; [done|]. cbn [np.insort].
  destruct (SFleb v w); [done|]. rewrite IH. apply Permutation_swap.
Qed.

Lemma sort_Permutation a : np.sort a ≡ₚ a.
Proof.
  unfold np.sort. induction a as [|v a IH]; [done|].
  cbn [foldr]. by rewrite insort_Permutation, IH.
Qed.

Lemma SFcompare_swap x y :
  SFcompare y x = option_map CompOpp (SFcompare x y).
Proof.
  destruct x as [s1|s1| |s1 m1 e1], y as [s2|s2| |s2 m2 e2];
    cbn [SFcompare option_map]; try done; try (by destruct s1, s2);
    try (by destruct s1); try (by destruct s2).
  rewrite (Z.compare_antisym e1 e2).
  assert (Pos.compare_cont Eq m2 m1 = CompOpp (Pos.compare_cont Eq m1 m2))
    as -> by (by rewrite Pos.compare_cont_antisym).
  destruct s1, s2; try done;
    destruct (e1 ?= e2); cbn [CompOpp]; try done;
    by destruct (Pos.compare_cont Eq m1 m2).
Qed.

Lemma SFleb_total x y :
  F64.is_nan x = false → F64.is_nan y = false →
  SFleb x y = false → SFleb y x = true.
Proof.
  intros Hx Hy. unfold SFleb. rewrite (SFcompare_swap x y).
  destruct (SFcompare x y) as [[]|] eqn:Hc; cbn; try done.
  by destruct x, y.
Qed.

Lemma insort_elem v a x : x ∈ np.insort v a → x = v ∨ x ∈ a.
Proof.
  intros Hx. rewrite insort_Permutation in Hx. set_solver.
Qed.

Lemma insort_Sorted v a :
  F64.is_nan v = false → Forall (λ w, F64.is_nan w = false) a →
  Sorted (λ x y, SFleb x y = true) a →
  Sorted (λ x y, SFleb x y = true) (np.insort v a).
Proof.
  intros Hv Ha Hs. induction a as [|w a IH]; [by repeat constructor|].
  apply Forall_cons in Ha as [Hw Ha]. apply Sorted_inv in Hs as [Hs Hhd].
  cbn [np.insort]. destruct (SFleb v w) eqn:Hvw.
  - constructor; [by constructor|]. by constructor.
  - constructor; [by apply IH|].
    destruct a as [|u a]; cbn [np.insort].
    + constructor. by apply SFleb_total.
    + destruct (SFleb v u); constructor.
      * by apply SFleb_total.
      * by apply HdRel_inv in Hhd.
Qed.

Lemma sort_Sorted a :
  existsb F64.is_nan a = false →
  Sorted (λ x y, SFleb x y = true) (np.sort a).
Proof.
  intros Hnan.
  assert (Forall (λ w, F64.is_nan w = false) a) as Ha.
  { apply Forall_forall. intros w Hw.
    destruct (F64.is_nan w) eqn:Hn; [|done].
    assert (existsb F64.is_nan a = true); [|congruence].
    apply existsb_exists. exists w. by rewrite <-list_elem_of_In. }
  clear Hnan. unfold np.sort.
  induction Ha as [|v a Hv Ha IH]; [constructor|]. cbn [foldr].
  apply insort_Sorted; [done| |done].
  apply Forall_forall. intros w Hw.
  rewrite Forall_forall in Ha. apply Ha.
  by rewrite <-(sort_Permutation a).
Qed.

Section IQR.

Import SlowNodeDetector.

Lemma iqr_identical n x multiplier :
  detect_outliers_iqr (replicate n x) multiplier = [].
Proof.
  unfold detect_outliers_iqr. destruct (_ <? 4)%nat; [done|]. cbv zeta.
  pose proof (percentile_identical n x 25) as H1.
  pose proof (percentile_identical n x 75) as H3.
  set (q1 := np.percentile (replicate n x) 25) in *.
  set (q3 := np.percentile (replicate n x) 75) in *.
  assert (zero_or_nan (F64.mul multiplier (F64.sub q3 q1))) as Hz
    by (by apply F64_mul_zero_or_nan_r, (keeps_difference x)).
  apply where_none. intros v Hv. apply elem_of_replicate in Hv as [-> _].
  apply orb_false_iff. split.
  - by apply keeps_not_below, keeps_sub.
  - by apply keeps_not_above, keeps_add.
Qed.

(** C9.  [detect_outliers_iqr] returns no index when there are fewer than
    4 samples; otherwise, with [Q1] and [Q3] the linearly interpolated 25th
    and 75th percentiles and [IQR = Q3 - Q1], it returns exactly the indices
    whose value lies strictly outside
    [[Q1 - multiplier * IQR, Q3 + multiplier * IQR]].  It returns no index
    on 3 samples, and none on an all-identical sequence.  The percentile at
    [q] is taken on the samples in ascending order, at the position
    [(n - 1) * q / 100]: with [a] the sample at the position rounded down,
    [b] the next one and [t] the fractional part of the position, it is
    [a + (b - a) * t], computed as [b - (b - a) * (1 - t)] when [t] is one
    half or more (for 4 samples or more, none of them a NaN).  A NaN among
    the samples makes both percentiles NaN and the result empty. *)
Theorem iqr_outliers_spec (values : list spec_float)
    (multiplier : spec_float) :
  let q1 := np.percentile values 25 in
  let q3 := np.percentile values 75 in
  let iqr := F64.sub q3 q1 in
  let lower_bound := F64.sub q1 (F64.mul multiplier iqr) in
  let upper_bound := F64.add q3 (F64.mul multiplier iqr) in
  ((length values < 4)%nat → detect_outliers_iqr values multiplier = [])
  ∧ ((4 ≤ length values)%nat →
     ∀ i, i ∈ detect_outliers_iqr values multiplier
          ↔ ∃ v, values !! i = Some v
                 ∧ (F64.ltb v lower_bound = true
                    ∨ F64.gtb v upper_bound = true))
  ∧ (length values = 3%nat → detect_outliers_iqr values multiplier = [])
  ∧ (∀ n x, (4 ≤ n)%nat → values = replicate n x →
            detect_outliers_iqr values multiplier = [])
  ∧ ((4 ≤ length values)%nat → existsb F64.is_nan values = false →
     ∃ ascending,
       ascending ≡ₚ values
       ∧ Sorted (λ x y, SFleb x y = true) ascending
       ∧ ∀ q, q = 25 ∨ q = 75 →
           let n := Z.of_nat (length values) in
           let below := ((n - 1) * q) `div` 100 in
           let above := Z.min (below + 1) (n - 1) in
           let t := F64.ratio (((n - 1) * q) `mod` 100) 100 in
           let a := nth (Z.to_nat below) ascending S754_nan in
           let b := nth (Z.to_nat above) ascending S754_nan in
           np.percentile values q
           = if F64.geb t (F64.ratio 1 2)
             then F64.sub b (F64.mul (F64.sub b a) (F64.sub (F64.of_Z 1) t))
             else F64.add a (F64.mul (F64.sub b a) t))
  ∧ (existsb F64.is_nan values = true →
     q1 = S754_nan ∧ q3 = S754_nan
     ∧ detect_outliers_iqr values multiplier = []).
Proof.
  cbv zeta. split; [|split; [|split; [|split; [|split]]]].
  - intros Hlen. unfold detect_outliers_iqr.
    apply Nat.ltb_lt in Hlen. by rewrite Hlen.
  - intros Hlen i. unfold detect_outliers_iqr.
    apply Nat.ltb_ge in Hlen. rewrite Hlen. cbv zeta.
    rewrite elem_of_where. by setoid_rewrite orb_true_iff.
  - intros Hlen. unfold detect_outliers_iqr. by rewrite Hlen.
  - intros n x _ ->. apply iqr_identical.
  - intros _ Hnan. exists (np.sort values).
    split; [apply sort_Permutation|]. split; [by apply sort_Sorted|].
    intros q _. unfold np.percentile, np._lerp. by rewrite Hnan.
  - intros Hnan.
    assert (∀ q, np.percentile values q = S754_nan) as Hq
      by (intros q; unfold np.percentile; by rewrite Hnan).
    split; [apply Hq|]. split; [apply Hq|].
    unfold detect_outliers_iqr. destruct (_ <? 4)%nat; [done|]. cbv zeta.
    rewrite !Hq. apply where_none. intros v _.
    change (F64.sub S754_nan S754_nan) with S754_nan.
    assert (F64.mul multiplier S754_nan = S754_nan) as ->
      by (by destruct multiplier).
    change (F64.sub S754_nan S754_nan) with S754_nan.
    change (F64.add S754_nan S754_nan) with S754_nan.
    by rewrite F64_ltb_nan_r.
Qed.

End IQR.

Lemma iqr_outliers_spec_witness :
  let values := [F64.of_Z 1; F64.of_Z 1; F64.of_Z 1; F64.of_Z 2] in
  (4 ≤ length values)%nat
  ∧ existsb F64.is_nan values = false
  ∧ values !! 3%nat = Some (F64.of_Z 2)
  ∧ np.percentile values 25 = F64.of_Z 1
  ∧ np.percentile values 75 = F64.ratio 5 4
  ∧ F64.gtb (F64.of_Z 2)
      (F64.add (np.percentile values 75)
         (F64.mul (F64.ratio 15 10)
            (F64.sub (np.percentile values 75) (np.percentile values 25))))
    = true
  ∧ 3%nat ∈ SlowNodeDetector.detect_outliers_iqr values (F64.ratio 15 10)
  ∧ ∃ ascending,
      ascending ≡ₚ values
      ∧ Sorted (λ x y, SFleb x y = true) ascending.
Proof.
  intros values.
  assert (4 ≤ length values)%nat as Hlen by (cbn; lia).
  assert (existsb F64.is_nan values = false) as Hnan by reflexivity.
  split; [exact Hlen|]. split; [exact Hnan|].
  do 4 (split; [reflexivity|]).
  split.
  - apply (proj1 (proj2 (iqr_outliers_spec values (F64.ratio 15 10))) Hlen).
    exists (F64.of_Z 2). split; [reflexivity|]. right. reflexivity.
  - destruct (proj1 (proj2 (proj2 (proj2 (proj2
                (iqr_outliers_spec values (F64.ratio 15 10)))))) Hlen Hnan)
      as (ascending & Hperm & Hsorted & _).
    by exists ascending.
Defined.

(** The quartiles of 1, 2, 3, 4, 10 are 2 and 4; those of 1, 1, 1, 2 are 1
    and 1.25. *)
Example percentile_examples :
  let f := F64.of_Z in
  np.percentile [f 4; f 1; f 10; f 3; f 2] 25 = f 2
  ∧ np.percentile [f 4; f 1; f 10; f 3; f 2] 75 = f 4
  ∧ np.percentile [f 1; f 1; f 1; f 2] 25 = f 1
  ∧ np.percentile [f 1; f 1; f 1; f 2] 75 = F64.ratio 5 4.
Proof. by vm_compute. Qed.

(** *** Combining the two tests *)

Section Combination.

Import SlowNodeDetector.

Lemma report_host_Some z iq (both : gset nat) gpus host_idx host s :
  report_host z iq both gpus host_idx host = Some s
  ↔ (∃ i, i ∈ both
          ∧ Z.of_nat host_idx * gpus ≤ Z.of_nat i
            < Z.of_nat host_idx * gpus + gpus)
    ∧ s = {| hostname := host; index := host_idx;
             reason := "Performance outlier detected";
             confidence :=
               if bool_decide (host_idx ∈ z) && bool_decide (host_idx ∈ iq)
               then "high" else "medium" |}.
Proof.
  unfold report_host. cbv zeta.
  destruct (existsb _ (elements both)) eqn:Hex.
  - apply existsb_exists in Hex as (i & Hi & Hrange).
    apply list_elem_of_In, elem_of_elements in Hi.
    apply andb_true_iff in Hrange as [Hlo Hhi].
    split.
    + intros [= <-]. split; [|done]. exists i. split; [done|]. lia.
    + by intros [_ ->].
  - split; [done|]. intros [(i & Hi & Hrange) _].
    assert (existsb (λ outlier_idx : nat,
                       (Z.of_nat host_idx * gpus <=? Z.of_nat outlier_idx)
                       && (Z.of_nat outlier_idx
                           <? Z.of_nat host_idx * gpus + gpus))
                    (elements both) = true); [|congruence].
    apply existsb_exists. exists i. split.
    + by apply list_elem_of_In, elem_of_elements.
    + apply andb_true_iff. split; lia.
Qed.

(** C10, as the code has it.  A host is reported as slow if and only if
    some sample index flagged by both the Z-score test and the IQR test
    (their intersection, not their union) lies in the index range of the
    host.  An index flagged by one test only never gets a host reported:
    when the two tests share no index nothing is reported, so a host that
    is an outlier by one test only gets no entry and no confidence label. *)
Theorem slow_nodes_need_both_methods
    (ts : list (option (list spec_float))) (hs : list string)
    (gpus : option Z) :
  let bw := all_bandwidths ts in
  let zscore_outliers := detect_outliers_zscore bw (F64.of_Z 2) in
  let iqr_outliers := detect_outliers_iqr bw (F64.ratio 15 10) in
  let reported :=
    analyze_node_performance
      {| tests := Some ts; hosts := Some hs; gpus_per_node := gpus |} in
  (∀ k h, (∃ s, s ∈ reported ∧ index s = k ∧ hostname s = h)
          ↔ hs !! k = Some h
            ∧ ∃ i, i ∈ zscore_outliers ∧ i ∈ iqr_outliers
                   ∧ Z.of_nat k * default 8 gpus ≤ Z.of_nat i
                     < Z.of_nat k * default 8 gpus + default 8 gpus)
  ∧ (∀ s, s ∈ reported → reason s = "Performance outlier detected")
  ∧ ((∀ i, i ∈ zscore_outliers → i ∉ iqr_outliers) → reported = []).
Proof.
  cbv zeta.
  assert (∀ s, s ∈ analyze_node_performance
                     {| tests := Some ts; hosts := Some hs;
                        gpus_per_node := gpus |}
               → hs !! index s = Some (hostname s)
                 ∧ (∃ i, i ∈ detect_outliers_zscore (all_bandwidths ts)
                               (F64.of_Z 2)
                         ∧ i ∈ detect_outliers_iqr (all_bandwidths ts)
                                 (F64.ratio 15 10)
                         ∧ Z.of_nat (index s) * default 8 gpus ≤ Z.of_nat i
                           < Z.of_nat (index s) * default 8 gpus
                             + default 8 gpus)
                 ∧ reason s = "Performance outlier detected") as Hreported.
  { intros s. unfold analyze_node_performance.
    cbn [tests hosts gpus_per_node].
    destruct (all_bandwidths ts) as [|b bw] eqn:Hbw.
    { by intros H%elem_of_nil. }
    rewrite list_elem_of_omap.
    intros ([idx h] & Hin & Hs). cbn [fst snd] in Hs.
    apply elem_of_lookup_imap in Hin as (k & w & [= -> ->] & Hk).
    apply report_host_Some in Hs as [(i & Hi & Hrange) ->].
    cbn [index hostname reason].
    apply elem_of_intersection in Hi as [Hz Hiq].
    rewrite !elem_of_list_to_set in Hz, Hiq. eauto 10. }
  split; [|split].
  - intros k h. split.
    + intros (s & Hs & <- & <-).
      by destruct (Hreported s Hs) as (? & ? & _).
    + intros (Hh & i & Hz & Hiq & Hrange).
      unfold analyze_node_performance. cbn [tests hosts gpus_per_node].
      destruct (all_bandwidths ts) as [|b bw] eqn:Hbw.
      { by apply elem_of_nil in Hz. }
      set (z := detect_outliers_zscore (b :: bw) (F64.of_Z 2)) in *.
      set (iq := detect_outliers_iqr (b :: bw) (F64.ratio 15 10)) in *.
      eexists. split; [|split].
      * apply list_elem_of_omap. exists (k, h). split.
        -- apply elem_of_lookup_imap. by exists k, h.
        -- cbn [fst snd]. apply report_host_Some. split; [|done].
           exists i. split; [|done].
           apply elem_of_intersection. by rewrite !elem_of_list_to_set.
      * done.
      * done.
  - intros s Hs. by destruct (Hreported s Hs) as (_ & _ & ?).
  - intros Hnone.
    destruct (analyze_node_performance _) as [|s reported] eqn:Hrun; [done|].
    destruct (Hreported s) as (_ & (i & Hz & Hiq & _) & _); [by left|].
    by destruct (Hnone i Hz).
Qed.

End Combination.

Lemma slow_nodes_need_both_methods_witness :
  let bw := [F64.of_Z 1; F64.of_Z 1; F64.of_Z 1; F64.of_Z 2] in
  let ts := map (λ v, Some [v]) bw in
  (∀ i, i ∈ SlowNodeDetector.detect_outliers_zscore
              (SlowNodeDetector.all_bandwidths ts) (F64.of_Z 2)
        → i ∉ SlowNodeDetector.detect_outliers_iqr
                (SlowNodeDetector.all_bandwidths ts) (F64.ratio 15 10))
  ∧ SlowNodeDetector.analyze_node_performance
      {| SlowNodeDetector.tests := Some ts;
         SlowNodeDetector.hosts := Some ["h0"];
         SlowNodeDetector.gpus_per_node := Some 4 |} = [].
Proof.
  intros bw ts.
  assert (∀ i, i ∈ SlowNodeDetector.detect_outliers_zscore
                     (SlowNodeDetector.all_bandwidths ts) (F64.of_Z 2)
               → i ∉ SlowNodeDetector.detect_outliers_iqr
                       (SlowNodeDetector.all_bandwidths ts) (F64.ratio 15 10))
    as Hnone.
  { intros i Hi. vm_compute in Hi. by apply elem_of_nil in Hi. }
  split; [exact Hnone|].
  exact (proj2 (proj2 (slow_nodes_need_both_methods ts ["h0"] (Some 4)))
           Hnone).
Defined.

(** C10, as stated, fails: of the samples 1, 1, 1, 2 the last is an outlier
    by the IQR test only, and the host it belongs to is not listed at all,
    so it is not classified as "medium". *)
Lemma single_method_outlier_is_not_classified :
  let bw := [F64.of_Z 1; F64.of_Z 1; F64.of_Z 1; F64.of_Z 2] in
  SlowNodeDetector.detect_outliers_zscore bw (F64.of_Z 2) = []
  ∧ SlowNodeDetector.detect_outliers_iqr bw (F64.ratio 15 10) = [3%nat]
  ∧ SlowNodeDetector.analyze_node_performance
      {| SlowNodeDetector.tests := Some (map (λ v, Some [v]) bw);
         SlowNodeDetector.hosts := Some ["h0"];
         SlowNodeDetector.gpus_per_node := Some 4 |} = [].
Proof. by vm_compute. Qed.

(** Twelve samples, the last an outlier by both tests: with 8 samples per
    host the second host is reported.  Line 201 looks the host index 1 up
    among the outlier indices of the samples, where it is not, so the entry
    carries "medium". *)
Example both_methods_outlier_labelled_medium :
  let f := F64.of_Z in
  let bw := [f 10; f 10; f 10; f 10; f 10; f 10;
             f 10; f 10; f 10; f 10; f 10; f 100] in
  SlowNodeDetector.detect_outliers_zscore bw (f 2) = [11%nat]
  ∧ SlowNodeDetector.detect_outliers_iqr bw (F64.ratio 15 10) = [11%nat]
  ∧ SlowNodeDetector.analyze_node_performance
      {| SlowNodeDetector.tests := Some (map (λ v, Some [v]) bw);
         SlowNodeDetector.hosts := Some ["h0"; "h1"];
         SlowNodeDetector.gpus_per_node := None |}
    = [ {| SlowNodeDetector.hostname := "h1";
           SlowNodeDetector.index := 1;
           SlowNodeDetector.reason := "Performance outlier detected";
           SlowNodeDetector.confidence := "medium" |} ].
Proof. by vm_compute. Qed.

(** * Further properties of the bisection *)

Section BisectionCost.

Import BisectionNodeTester.

Variable mpirun : nat → list string → Z → outcome.

Lemma run_nccl_test_nodes self ns name :
  nodes (_run_nccl_test mpirun self ns name).1 = ns.
Proof. unfold _run_nccl_test. cbn [fst]. by destruct (mpirun _ _ _). Qed.

Lemma run_nccl_test_history self ns name :
  test_history (_run_nccl_test mpirun self ns name).2
  = test_history self ++ [(_run_nccl_test mpirun self ns name).1].
Proof. reflexivity. Qed.

(** The entries a call adds to the history. *)
Lemma bisect_test_new_entries ns depth self :
  test_history (_bisect_test mpirun ns depth self).2
  = test_history self
    ++ drop (length (test_history self))
            (test_history (_bisect_test mpirun ns depth self).2).
Proof.
  destruct (bisect_test_frame mpirun ns depth self) as (_ & _ & _ & [k Hk]).
  rewrite Hk at 1. by rewrite Hk, drop_app_length.
Qed.

(** X1. Whatever the benchmark answers, a call of [_bisect_test] on [n] nodes
    runs at least one benchmark when [n > 0] and at most [2 * n - 1]; on an
    empty list it runs none. The earlier history is kept as it is. *)
Theorem bisect_test_cost ns depth self :
  let out := _bisect_test mpirun ns depth self in
  let made :=
    (length (test_history out.2) - length (test_history self))%nat in
  test_history self `prefix_of` test_history out.2
  ∧ (Nat.min 1 (length ns) ≤ made ≤ 2 * length ns - 1)%nat.
Proof.
  cbv zeta. split; [apply bisect_test_frame|].
  revert ns depth self.
  apply (bisect_test_ind mpirun (λ ns _ self out,
           Nat.min 1 (length ns)
           ≤ length (test_history out.2) - length (test_history self)
           ≤ 2 * length ns - 1)%nat); cbn zeta.
  - intros _ self. cbn. lia.
  - intros node depth self.
    assert (length (test_history (_run_nccl_test mpirun self [node]
              ("single_node_depth" +:+ pretty depth)).2)
            = S (length (test_history self))) as Hlen
      by (rewrite run_nccl_test_history, length_app; cbn; lia).
    destruct (negb _); cbn [snd length]; rewrite Hlen; lia.
  - intros ns depth self Hn _. cbn [snd update_good_nodes test_history].
    rewrite run_nccl_test_history, length_app. cbn [length]. lia.
  - intros ns depth self Hn _ IHl IHr. cbn [snd].
    set (r := _run_nccl_test mpirun self ns
                ("group_depth" +:+ pretty depth)) in *.
    set (l := _bisect_test mpirun (take (length ns / 2) ns) (S depth) r.2)
      in *.
    set (r' := _bisect_test mpirun (drop (length ns / 2) ns) (S depth) l.2)
      in *.
    assert (length (test_history r.2) = S (length (test_history self)))
      as Hr by (unfold r; rewrite run_nccl_test_history, length_app; cbn; lia).
    pose proof (halves_shorter ns Hn) as [Hl1 Hl2].
    rewrite length_take in *. rewrite length_drop in *.
    pose proof (prefix_length _ _
                  (proj2 (proj2 (proj2 (bisect_test_frame mpirun
                     (take (length ns / 2) ns) (S depth) r.2))))) as Hp1.
    pose proof (prefix_length _ _
                  (proj2 (proj2 (proj2 (bisect_test_frame mpirun
                     (drop (length ns / 2) ns) (S depth) l.2))))) as Hp2.
    cbv zeta in Hp1, Hp2. fold l in Hp1, Hp2. fold r' in Hp2.
    assert (1 ≤ length ns / 2)%nat
      by (apply (Nat.div_le_lower_bound _ 2 1); lia).
    lia.
Qed.

(** X2. When every benchmark of the search is judged bad (all of them time
    out, say), [_bisect_test] condemns every node of the list and runs exactly
    [2 * n - 1] benchmarks on [n > 0] nodes. *)
Theorem bisect_test_worst_case ns depth self :
  (∀ self' ns' name,
     threshold_gb_s self' = threshold_gb_s self →
     is_good (_run_nccl_test mpirun self' ns' name).1 = false) →
  let out := _bisect_test mpirun ns depth self in
  out.1 = list_to_set ns
  ∧ (length (test_history out.2)
     = length (test_history self) + (2 * length ns - 1))%nat.
Proof.
  intros Hbad. cbv zeta. revert ns depth self Hbad.
  apply (bisect_test_ind mpirun (λ ns _ self out,
           (∀ self' ns' name,
              threshold_gb_s self' = threshold_gb_s self →
              is_good (_run_nccl_test mpirun self' ns' name).1 = false) →
           out.1 = list_to_set ns
           ∧ (length (test_history out.2)
              = length (test_history self) + (2 * length ns - 1))%nat));
    cbn zeta.
  - intros _ self _. cbn. split; [done|lia].
  - intros node depth self Hbad. rewrite Hbad by done. cbn [negb fst snd].
    rewrite run_nccl_test_history, length_app. cbn. split; [set_solver|lia].
  - intros ns depth self _ Hgood Hbad. rewrite Hbad in Hgood; done.
  - intros ns depth self Hn _ IHl IHr Hbad. cbn [fst snd].
    set (r := _run_nccl_test mpirun self ns
                ("group_depth" +:+ pretty depth)) in *.
    set (l := _bisect_test mpirun (take (length ns / 2) ns) (S depth) r.2)
      in *.
    assert (threshold_gb_s r.2 = threshold_gb_s self) as Htr by done.
    assert (threshold_gb_s l.2 = threshold_gb_s self) as Htl.
    { rewrite <-Htr. apply bisect_test_frame. }
    destruct IHl as [Hl1 Hl2].
    { intros self' ns' name Hs. apply Hbad. congruence. }
    destruct IHr as [Hr1 Hr2].
    { intros self' ns' name Hs. apply Hbad. congruence. }
    rewrite Hl1, Hr1, Hr2, Hl2. split.
    + rewrite <-list_to_set_app_L. by rewrite take_drop.
    + unfold r. rewrite run_nccl_test_history, length_app.
      pose proof (halves_shorter ns Hn) as [Hs1 Hs2].
      rewrite length_take in *. rewrite length_drop in *.
      assert (1 ≤ length ns / 2)%nat
        by (apply (Nat.div_le_lower_bound _ 2 1); lia).
      cbn [length]. lia.
Qed.

End BisectionCost.

Lemma bisect_test_worst_case_witness :
  let roster := ["n0"; "n1"; "n2"; "n3"; "n4"] in
  let out := BisectionNodeTester._bisect_test timeout_benchmark roster 0
               (BisectionNodeTester.new roster 8 None) in
  (∀ self ns name,
     BisectionNodeTester.is_good
       (BisectionNodeTester._run_nccl_test timeout_benchmark self ns name).1
     = false)
  ∧ out.1 = list_to_set roster
  ∧ length (BisectionNodeTester.test_history out.2) = 9%nat.
Proof.
  intros roster out. split; [reflexivity|].
  exact (bisect_test_worst_case timeout_benchmark roster 0
           (BisectionNodeTester.new roster 8 None)
           (λ _ _ _ _, eq_refl)).
Defined.

Section BisectionEvidence.

Import BisectionNodeTester.

Variable mpirun : nat → list string → Z → outcome.

(** What a call of [_bisect_test] on [ns] leaves behind: the entries [new]
    it adds to the history and the nodes [known] it adds to the known-good
    set. *)
Lemma bisect_test_trace ns depth self :
  let out := _bisect_test mpirun ns depth self in
  ∃ (new : list test_result) (known : gset string),
    test_history out.2 = test_history self ++ new
    ∧ good_nodes out.2 = good_nodes self ∪ known
    ∧ Forall (λ r, ∃ before after,
                ns = before ++ nodes r ++ after ∧ nodes r ≠ []) new
    ∧ (∀ x, x ∈ out.1
            ↔ ∃ r, r ∈ new ∧ nodes r = [x] ∧ is_good r = false)
    ∧ (∀ x, x ∈ known
            ↔ ∃ r, r ∈ new ∧ x ∈ nodes r ∧ (2 ≤ length (nodes r))%nat
                   ∧ is_good r = true)
    ∧ out.1 ⊆ list_to_set ns
    ∧ known ⊆ list_to_set ns
    ∧ (NoDup ns → out.1 ## known).
Proof.
  revert ns depth self.
  apply (bisect_test_ind mpirun (λ ns _ self out,
    ∃ (new : list test_result) (known : gset string),
      test_history out.2 = test_history self ++ new
      ∧ good_nodes out.2 = good_nodes self ∪ known
      ∧ Forall (λ r, ∃ before after,
                  ns = before ++ nodes r ++ after ∧ nodes r ≠ []) new
      ∧ (∀ x, x ∈ out.1
              ↔ ∃ r, r ∈ new ∧ nodes r = [x] ∧ is_good r = false)
      ∧ (∀ x, x ∈ known
              ↔ ∃ r, r ∈ new ∧ x ∈ nodes r ∧ (2 ≤ length (nodes r))%nat
                     ∧ is_good r = true)
      ∧ out.1 ⊆ list_to_set ns
      ∧ known ⊆ list_to_set ns
      ∧ (NoDup ns → out.1 ## known))); cbn zeta.
  - intros _ self. exists [], ∅. cbn.
    split; [by rewrite app_nil_r|]. split; [set_solver|].
    split; [constructor|].
    split; [intros x; split; [set_solver|]; intros (r & Hr & _);
            by apply elem_of_nil in Hr|].
    split; [intros x; split; [set_solver|]; intros (r & Hr & _);
            by apply elem_of_nil in Hr|].
    set_solver.
  - intros node depth self.
    set (r := _run_nccl_test mpirun self [node]
                ("single_node_depth" +:+ pretty depth)).
    assert (nodes r.1 = [node]) as Hnodes by apply run_nccl_test_nodes.
    exists [r.1], ∅.
    assert (∀ x : string, x ∈ (∅ : gset string)
              ↔ ∃ r0, r0 ∈ [r.1] ∧ x ∈ nodes r0
                      ∧ (2 ≤ length (nodes r0))%nat ∧ is_good r0 = true)
      as Hknown.
    { intros x. split; [set_solver|]. intros (r0 & Hr0 & _ & Hlen & _).
      apply list_elem_of_singleton in Hr0 as ->.
      rewrite Hnodes in Hlen. cbn in Hlen. lia. }
    assert (Forall (λ r0, ∃ before after,
                      [node] = before ++ nodes r0 ++ after ∧ nodes r0 ≠ [])
                   [r.1]) as Hwithin.
    { apply Forall_singleton. exists [], []. by rewrite Hnodes. }
    destruct (is_good r.1) eqn:Hg; cbn [negb fst snd].
    + split; [done|]. split; [set_solver|]. split; [done|].
      split; [|split; [done|set_solver]].
      intros x. split; [set_solver|]. intros (r0 & Hr0 & _ & Hbad).
      apply list_elem_of_singleton in Hr0 as ->. congruence.
    + split; [done|]. split; [set_solver|]. split; [done|].
      split; [|split; [done|set_solver]].
      intros x. rewrite elem_of_singleton. split.
      * intros ->. exists r.1. split; [set_solver|done].
      * intros (r0 & Hr0 & Hx & _).
        apply list_elem_of_singleton in Hr0 as ->. congruence.
  - intros ns depth self Hn Hgood.
    set (r := _run_nccl_test mpirun self ns
                ("group_depth" +:+ pretty depth)) in *.
    assert (nodes r.1 = ns) as Hnodes by apply run_nccl_test_nodes.
    exists [r.1], (list_to_set ns). cbn [fst snd].
    split; [done|]. split; [done|].
    split.
    { apply Forall_singleton. exists [], []. rewrite Hnodes, app_nil_r.
      split; [done|]. intros Hnil. rewrite Hnil in Hn. cbn in Hn. lia. }
    split.
    { intros x. split; [set_solver|]. intros (r0 & Hr0 & Hx & _).
      apply list_elem_of_singleton in Hr0 as ->.
      rewrite Hnodes in Hx. rewrite Hx in Hn. cbn in Hn. lia. }
    split; [|set_solver].
    intros x. rewrite elem_of_list_to_set. split.
    + intros Hx. exists r.1. rewrite Hnodes. split; [set_solver|done].
    + intros (r0 & Hr0 & Hx & _).
      apply list_elem_of_singleton in Hr0 as ->. by rewrite Hnodes in Hx.
  - intros ns depth self Hn Hbad
      (newl & knownl & Hhl & Hgl & Hwl & Hbl & Hkl & Hsl & Hksl & Hdl)
      (newr & knownr & Hhr & Hgr & Hwr & Hbr & Hkr & Hsr & Hksr & Hdr).
    set (r := _run_nccl_test mpirun self ns
                ("group_depth" +:+ pretty depth)) in *.
    set (l := _bisect_test mpirun (take (length ns / 2) ns) (S depth) r.2)
      in *.
    set (r' := _bisect_test mpirun (drop (length ns / 2) ns) (S depth) l.2)
      in *.
    assert (nodes r.1 = ns) as Hnodes by apply run_nccl_test_nodes.
    assert (list_to_set ns
            = (list_to_set (take (length ns / 2) ns) : gset string)
              ∪ list_to_set (drop (length ns / 2) ns)) as Hsplit
      by (by rewrite <-list_to_set_app_L, take_drop).
    exists (r.1 :: newl ++ newr), (knownl ∪ knownr). cbn [fst snd].
    split.
    { rewrite Hhr, Hhl. unfold r at 1.
      rewrite run_nccl_test_history, <-!(assoc_L (++)). done. }
    split; [rewrite Hgr, Hgl; set_solver|].
    split.
    { apply Forall_cons. split.
      - exists [], []. rewrite Hnodes, app_nil_r.
        split; [done|]. intros Hnil. rewrite Hnil in Hn. cbn in Hn. lia.
      - apply Forall_app. split.
        + eapply Forall_impl; [exact Hwl|].
          intros r0 (before & after & Heq & Hne).
          exists before, (after ++ drop (length ns / 2) ns).
          split; [|done].
          rewrite <-(take_drop (length ns / 2) ns) at 1.
          rewrite Heq, <-!(assoc_L (++)). done.
        + eapply Forall_impl; [exact Hwr|].
          intros r0 (before & after & Heq & Hne).
          exists (take (length ns / 2) ns ++ before), after.
          split; [|done].
          rewrite <-(take_drop (length ns / 2) ns) at 1.
          rewrite Heq, <-!(assoc_L (++)). done. }
    split.
    { intros x. rewrite elem_of_union, Hbl, Hbr. split.
      - intros [(r0 & Hr0 & H)|(r0 & Hr0 & H)]; exists r0;
          (split; [|done]); set_solver.
      - intros (r0 & Hr0 & Hx & Hb).
        apply elem_of_cons in Hr0 as [->|Hr0].
        + rewrite Hnodes in Hx. rewrite Hx in Hn. cbn in Hn. lia.
        + apply elem_of_app in Hr0 as [Hr0|Hr0]; [left|right]; eauto. }
    split.
    { intros x. rewrite elem_of_union, Hkl, Hkr. split.
      - intros [(r0 & Hr0 & H)|(r0 & Hr0 & H)]; exists r0;
          (split; [|done]); set_solver.
      - intros (r0 & Hr0 & Hx & Hlen & Hg).
        apply elem_of_cons in Hr0 as [->|Hr0]; [congruence|].
        apply elem_of_app in Hr0 as [Hr0|Hr0]; [left|right]; eauto. }
    split; [set_solver|]. split; [set_solver|].
    intros Hnd. rewrite <-(take_drop (length ns / 2) ns) in Hnd.
    apply NoDup_app in Hnd as (Hnd1 & Hcross & Hnd2).
    specialize (Hdl Hnd1). specialize (Hdr Hnd2).
    assert ((list_to_set (take (length ns / 2) ns) : gset string)
            ## list_to_set (drop (length ns / 2) ns)) as Hdisj.
    { intros x Hx1 Hx2. apply elem_of_list_to_set in Hx1, Hx2.
      by apply (Hcross x). }
    set_solver.
Qed.

(** X3. A node is condemned by [_bisect_test] exactly when a benchmark of this
    search that ran on that node alone was judged bad; a bad result of a group
    never condemns anybody by itself. *)
Theorem condemned_on_own_evidence ns depth self (x : string) :
  let out := _bisect_test mpirun ns depth self in
  x ∈ out.1
  ↔ ∃ r, r ∈ drop (length (test_history self)) (test_history out.2)
         ∧ nodes r = [x] ∧ is_good r = false.
Proof.
  cbv zeta.
  destruct (bisect_test_trace ns depth self)
    as (new & known & Hh & _ & _ & Hb & _).
  cbv zeta in Hh, Hb. by rewrite Hh, drop_app_length.
Qed.

(** X4. Every benchmark of the search runs on a non-empty contiguous stretch
    of the list it was given, in the order of the list. *)
Theorem tests_stay_within_sublist ns depth self :
  let out := _bisect_test mpirun ns depth self in
  Forall (λ r, ∃ before after, ns = before ++ nodes r ++ after ∧ nodes r ≠ [])
         (drop (length (test_history self)) (test_history out.2)).
Proof.
  cbv zeta.
  destruct (bisect_test_trace ns depth self)
    as (new & known & Hh & _ & Hw & _).
  cbv zeta in Hh, Hw. by rewrite Hh, drop_app_length.
Qed.

(** X5. The condemned nodes and the nodes newly recorded as known-good all
    belong to the list searched, the earlier known-good nodes are kept, and on
    a list without duplicates no node is both condemned and newly known-good. *)
Theorem condemned_and_known_good_apart ns depth self :
  NoDup ns →
  good_nodes self ## list_to_set ns →
  let out := _bisect_test mpirun ns depth self in
  out.1 ⊆ list_to_set ns
  ∧ good_nodes self ⊆ good_nodes out.2
  ∧ good_nodes out.2 ⊆ good_nodes self ∪ list_to_set ns
  ∧ out.1 ## good_nodes out.2.
Proof.
  intros Hnd Hfresh. cbv zeta.
  destruct (bisect_test_trace ns depth self)
    as (new & known & _ & Hg & _ & _ & _ & Hs & Hks & Hd).
  cbv zeta in Hg, Hs, Hks, Hd. specialize (Hd Hnd). rewrite Hg.
  set_solver.
Qed.

End BisectionEvidence.

Lemma condemned_and_known_good_apart_witness :
  let roster := ["n0"; "n1"; "n2"; "n3"; "n4"] in
  let out := BisectionNodeTester._bisect_test (scripted_benchmark ["n3"])
               roster 0 (BisectionNodeTester.new roster 8 None) in
  NoDup roster
  ∧ BisectionNodeTester.good_nodes (BisectionNodeTester.new roster 8 None)
    ## list_to_set roster
  ∧ out.1 ## BisectionNodeTester.good_nodes out.2
  ∧ out.1 = {[ "n3" ]}
  ∧ BisectionNodeTester.good_nodes out.2 = {[ "n0"; "n1" ]}.
Proof.
  intros roster out.
  assert (NoDup roster) as Hnd by (apply (bool_decide_unpack _); by vm_compute).
  split; [exact Hnd|]. split; [apply disjoint_empty_l|]. split.
  - refine (proj2 (proj2 (proj2 (condemned_and_known_good_apart
              (scripted_benchmark ["n3"]) roster 0
              (BisectionNodeTester.new roster 8 None) Hnd _)))).
    apply disjoint_empty_l.
  - split; apply (bool_decide_unpack _); by vm_compute.
Defined.

Section BisectionRun.

Import BisectionNodeTester.

Variable mpirun : nat → list string → Z → outcome.

(** A property that every benchmark result has under a fixed threshold and
    process count holds of all the entries the search adds. *)
Lemma bisect_test_new_Forall (P : test_result → Prop) thr gpus :
  (∀ self ns name,
     threshold_gb_s self = thr → gpus_per_node self = gpus →
     P (_run_nccl_test mpirun self ns name).1) →
  ∀ ns depth self,
    threshold_gb_s self = thr → gpus_per_node self = gpus →
    Forall P (drop (length (test_history self))
                   (test_history (_bisect_test mpirun ns depth self).2)).
Proof.
  intros Hrun.
  apply (bisect_test_ind mpirun (λ _ _ self out,
           threshold_gb_s self = thr → gpus_per_node self = gpus →
           Forall P (drop (length (test_history self))
                          (test_history out.2)))); cbn zeta.
  - intros _ self _ _. cbn [snd]. rewrite drop_all. constructor.
  - intros node depth self Ht Hg.
    assert (Forall P (drop (length (test_history self))
              (test_history (_run_nccl_test mpirun self [node]
                 ("single_node_depth" +:+ pretty depth)).2))).
    { rewrite run_nccl_test_history, drop_app_length.
      apply Forall_singleton. by apply Hrun. }
    by destruct (negb _).
  - intros ns depth self _ _ Ht Hg.
    cbn [snd update_good_nodes test_history].
    rewrite run_nccl_test_history, drop_app_length.
    apply Forall_singleton. by apply Hrun.
  - intros ns depth self _ _ IHl IHr Ht Hg. cbn [snd].
    set (r := _run_nccl_test mpirun self ns
                ("group_depth" +:+ pretty depth)) in *.
    set (l := _bisect_test mpirun (take (length ns / 2) ns) (S depth) r.2)
      in *.
    set (r' := _bisect_test mpirun (drop (length ns / 2) ns) (S depth) l.2)
      in *.
    assert (threshold_gb_s r.2 = thr) as Htr by exact Ht.
    assert (gpus_per_node r.2 = gpus) as Hgr by exact Hg.
    pose proof (bisect_test_frame mpirun (take (length ns / 2) ns)
                  (S depth) r.2) as (Htl & Hgl & _).
    cbv zeta in Htl, Hgl. fold l in Htl, Hgl.
    rewrite Htr in Htl. rewrite Hgr in Hgl.
    specialize (IHl Htr Hgr). specialize (IHr Htl Hgl).
    pose proof (bisect_test_new_entries mpirun (take (length ns / 2) ns)
                  (S depth) r.2) as Hl.
    pose proof (bisect_test_new_entries mpirun (drop (length ns / 2) ns)
                  (S depth) l.2) as Hr.
    fold l in Hl, IHl. fold l r' in Hr. fold r' in IHr.
    rewrite Hr, Hl. unfold r at 1.
    rewrite run_nccl_test_history, <-!(assoc_L (++)), drop_app_length.
    apply Forall_cons. split; [by apply Hrun|].
    apply Forall_app. split; [exact IHl|by rewrite <-Hl].
Qed.


(** X7. End to end: when the benchmark, judged against the threshold in force
    after calibration, calls a sublist bad exactly when it holds a member of
    [Sbad], the report that [run_bisection_detection] returns condemns
    exactly [Sbad], with or without a calibration baseline, and lists no
    member of [Sbad] as known-good.  A report is returned unless a verdict
    of the run is a numpy value, which the writing of the report refuses. *)
Theorem bisection_report_condemns_exactly_S hostfile gpus thr
    (Sbad : gset string) :
  let self1 := establish_threshold mpirun (new hostfile gpus thr) in
  (∀ self ns name,
     threshold_gb_s self = threshold_gb_s self1 →
     gpus_per_node self = gpus →
     is_good (_run_nccl_test mpirun self ns name).1 = false
     ↔ ∃ x, x ∈ ns ∧ x ∈ Sbad) →
  Sbad ⊆ list_to_set hostfile →
  let out := run_bisection_detection mpirun (new hostfile gpus thr) in
  good_nodes out.2 ## Sbad
  ∧ (out.1 = None
     ↔ Exists (λ r, numpy_verdict r = true) (test_history out.2))
  ∧ ∀ report, out.1 = Some report →
      report_bad_nodes report = Sbad
      ∧ report_good_nodes report ## Sbad.
Proof.
  cbv zeta. intros Hjudge Hsub.
  destruct (run_bisection_detection_unfold mpirun (new hostfile gpus thr))
    as (Hstate & Hnone & Hreport).
  cbv zeta in Hstate, Hnone, Hreport. rewrite Hstate, Hnone.
  set (self1 := establish_threshold mpirun (new hostfile gpus thr)) in *.
  pose proof (establish_threshold_frame mpirun (new hostfile gpus thr))
    as (Hhosts & Hgpus & Hgood & _).
  cbv zeta in Hhosts, Hgpus, Hgood. fold self1 in Hhosts, Hgpus, Hgood.
  cbn in Hhosts, Hgpus, Hgood. rewrite Hhosts in *.
  assert (good_nodes (_bisect_test mpirun hostfile 0 self1).2 ## Sbad)
    as Hdisjoint.
  { destruct (bisect_test_trace mpirun hostfile 0 self1)
      as (new & known & Hh & Hg & _ & _ & Hk & _).
    cbv zeta in Hh, Hg, Hk. rewrite Hg, Hgood.
    pose proof (bisect_test_new_Forall
                  (λ r, is_good r = true → ∀ x, x ∈ nodes r → x ∉ Sbad)
                  (threshold_gb_s self1) gpus) as Hall.
    specialize (Hall) with (ns := hostfile) (depth := 0%nat) (self := self1).
    rewrite Hh, drop_app_length in Hall.
    assert (Forall (λ r, is_good r = true → ∀ x, x ∈ nodes r → x ∉ Sbad)
              new) as Hnew.
    { apply Hall; [|done..]. intros self ns name Hs Hgp Hgd x Hx HS.
      rewrite run_nccl_test_nodes in Hx.
      assert (is_good (_run_nccl_test mpirun self ns name).1 = false)
        by (apply Hjudge; eauto).
      congruence. }
    rewrite Forall_forall in Hnew.
    intros x Hx HS. apply elem_of_union in Hx as [Hx|Hx]; [set_solver|].
    apply Hk in Hx as (r & Hr & Hxr & _ & Hgd).
    by apply (Hnew r Hr Hgd x). }
  split; [exact Hdisjoint|]. split.
  - unfold json_serializable.
    generalize (test_history (_bisect_test mpirun hostfile 0 self1).2).
    intros history. induction history as [|r history IH].
    + split; [done|]. by intros ?%Exists_nil.
    + cbn [forallb]. rewrite Exists_cons, <-IH.
      destruct (numpy_verdict r), (forallb _ history); cbn; naive_solver.
  - intros report Hsome.
    destruct (Hreport report Hsome) as (_ & _ & _ & -> & -> & _).
    split; [|exact Hdisjoint].
    rewrite (bisect_test_on_sublist mpirun (threshold_gb_s self1) gpus Sbad)
      by done.
    set_solver.
Qed.

End BisectionRun.


Lemma bisection_report_condemns_exactly_S_witness :
  let roster := ["n0"; "n1"; "n2"; "n3"; "n4"; "n5"] in
  let Sbad : gset string := list_to_set ["n1"; "n4"] in
  let out := BisectionNodeTester.run_bisection_detection
               (scripted_benchmark ["n1"; "n4"])
               (BisectionNodeTester.new roster 8 None) in
  Sbad ⊆ list_to_set roster
  ∧ ∃ report,
      out.1 = Some report
      ∧ BisectionNodeTester.report_bad_nodes report = Sbad
      ∧ BisectionNodeTester.report_good_nodes report ## Sbad.
Proof.
  intros roster Sbad out.
  assert (Sbad ⊆ list_to_set roster) as Hsub
    by (apply (bool_decide_unpack _); vm_compute; exact I).
  split; [exact Hsub|].
  destruct out.1 as [report|] eqn:Hout; [|by vm_compute in Hout].
  exists report. split; [done|].
  refine (proj2 (proj2 (bisection_report_condemns_exactly_S
            (scripted_benchmark ["n1"; "n4"]) roster 8 None Sbad _ Hsub))
            report Hout).
  intros self ns name Hthr _. by apply scripted_benchmark_judges.
Defined.

(** * Further properties of the pairwise tests *)

(** ** Insertion-ordered dicts *)

Lemma dict_get_Some {V} (k : string) (d : list (string * V)) v :
  dict_get k d = Some v → (k, v) ∈ d.
Proof.
  induction d as [|[k' v'] d IH]; [done|]. cbn [dict_get].
  destruct (decide (k' = k)) as [->|]; [intros [= ->]|]; set_solver.
Qed.

Lemma dict_set_keys {V} (k : string) (v : V) (d : list (string * V)) :
  map fst (dict_set k v d)
  = if decide (k ∈ map fst d) then map fst d else map fst d ++ [k].
Proof.
  induction d as [|[k' v'] d IH]; [done|]. cbn [dict_set map fst].
  destruct (decide (k' = k)) as [->|Hne].
  - cbn. rewrite decide_True by set_solver. done.
  - cbn [map fst]. rewrite IH.
    destruct (decide (k ∈ map fst d)).
    + rewrite decide_True by set_solver. done.
    + rewrite decide_False by set_solver. done.
Qed.

Lemma dict_set_NoDup {V} (k : string) (v : V) (d : list (string * V)) :
  NoDup (map fst d) → NoDup (map fst (dict_set k v d)).
Proof.
  intros Hnd. rewrite dict_set_keys. destruct (decide _); [done|].
  apply NoDup_app. split; [done|]. split; [|apply NoDup_singleton].
  intros x Hx Hk. apply list_elem_of_singleton in Hk as ->. done.
Qed.

Lemma dict_set_Forall {V} (Q : string * V → Prop) k v (d : list (string * V)) :
  Q (k, v) → Forall Q d → Forall Q (dict_set k v d).
Proof.
  intros Hv. induction 1 as [|[k' v'] d Hq Hd IH]; cbn [dict_set].
  - by apply Forall_singleton.
  - destruct (decide (k' = k)) as [->|]; by constructor.
Qed.

Lemma dict_set_length {V} k (v : V) (d : list (string * V)) :
  (length (dict_set k v d) ≤ S (length d))%nat.
Proof.
  induction d as [|[k' v'] d IH]; [done|]. cbn [dict_set].
  destruct (decide (k' = k)); cbn [length]; lia.
Qed.

Lemma fold_left_invariant {A B} (Inv : A → Prop) (f : A → B → A) l a :
  (∀ a b, b ∈ l → Inv a → Inv (f a b)) → Inv a → Inv (fold_left f l a).
Proof.
  revert a. induction l as [|b l IH]; intros a Hstep Ha; [done|].
  cbn [fold_left]. apply IH.
  - intros a' b' Hb'. apply Hstep. set_solver.
  - apply Hstep; [set_solver|done].
Qed.

(** ** The per-node statistics *)

Section PairwiseStatistics.

Import PairwiseNodeTester.

(** What [collect_node_stats] keeps of every node it has seen: a positive
    test count that bounds the failures and the bandwidth samples, and a
    node that comes from one of the pairs. *)
Lemma collect_node_stats_invariant results :
  let node_stats := collect_node_stats results in
  NoDup (map fst node_stats)
  ∧ Forall (λ kv : string * stats,
              (1 ≤ tests kv.2)%nat
              ∧ (failures kv.2 ≤ tests kv.2)%nat
              ∧ (length (bandwidths kv.2) ≤ tests kv.2)%nat
              ∧ ∃ pr, pr ∈ results ∧ kv.1 ∈ nodes pr.2) node_stats.
Proof.
  cbv zeta. unfold collect_node_stats.
  apply (fold_left_invariant
           (λ d : list (string * stats),
              NoDup (map fst d)
              ∧ Forall (λ kv : string * stats,
                          (1 ≤ tests kv.2)%nat
                          ∧ (failures kv.2 ≤ tests kv.2)%nat
                          ∧ (length (bandwidths kv.2) ≤ tests kv.2)%nat
                          ∧ ∃ pr, pr ∈ results ∧ kv.1 ∈ nodes pr.2) d));
    [|split; constructor].
  intros d pr Hpr Hd.
  assert (∀ ns, ns ⊆ nodes pr.2 →
            ∀ d0 : list (string * stats),
              NoDup (map fst d0)
              ∧ Forall (λ kv : string * stats,
                          (1 ≤ tests kv.2)%nat
                          ∧ (failures kv.2 ≤ tests kv.2)%nat
                          ∧ (length (bandwidths kv.2) ≤ tests kv.2)%nat
                          ∧ ∃ pr, pr ∈ results ∧ kv.1 ∈ nodes pr.2) d0 →
              NoDup (map fst (fold_left
                       (record_pair (bandwidth_gb_s pr.2) (success pr.2))
                       ns d0))
              ∧ Forall (λ kv : string * stats,
                          (1 ≤ tests kv.2)%nat
                          ∧ (failures kv.2 ≤ tests kv.2)%nat
                          ∧ (length (bandwidths kv.2) ≤ tests kv.2)%nat
                          ∧ ∃ pr, pr ∈ results ∧ kv.1 ∈ nodes pr.2)
                       (fold_left
                          (record_pair (bandwidth_gb_s pr.2) (success pr.2))
                          ns d0)) as Hinner.
  { intros ns Hns d0 Hd0.
    apply (fold_left_invariant
             (λ d : list (string * stats),
                NoDup (map fst d)
                ∧ Forall (λ kv : string * stats,
                            (1 ≤ tests kv.2)%nat
                            ∧ (failures kv.2 ≤ tests kv.2)%nat
                            ∧ (length (bandwidths kv.2) ≤ tests kv.2)%nat
                            ∧ ∃ pr, pr ∈ results ∧ kv.1 ∈ nodes pr.2) d));
      [|done].
    intros d1 node Hnode [Hnd Hall]. unfold record_pair. split.
    - by apply dict_set_NoDup.
    - apply dict_set_Forall; [|done]. cbn [fst snd tests failures bandwidths].
      assert ((failures (default default_stats (dict_get node d1))
               ≤ tests (default default_stats (dict_get node d1)))%nat
              ∧ (length (bandwidths (default default_stats
                                       (dict_get node d1)))
                 ≤ tests (default default_stats (dict_get node d1)))%nat)
        as [Hf Hb].
      { destruct (dict_get node d1) as [s|] eqn:Hget; cbn; [|lia].
        apply dict_get_Some in Hget.
        rewrite Forall_forall in Hall. apply Hall in Hget. cbn in Hget. lia. }
      split; [lia|]. split; [destruct (negb _); lia|].
      split; [|exists pr; set_solver].
      destruct (truthy _); [|lia].
      rewrite length_app. destruct (bandwidth_gb_s pr.2); cbn; lia. }
  by apply Hinner.
Qed.

(** X8. In the analysis every node with statistics appears once, took part in
    at least one pair, has no more failures than tests, and is one of the
    nodes of the pair results; the flagged nodes are some of the nodes with
    statistics, each at most once and in the same order. *)
Theorem pairwise_statistics_sound (self : tester) :
  let a := _analyze_pairwise_results self in
  NoDup (map fst (node_statistics a))
  ∧ Forall (λ kv : string * node_statistics_entry,
              (1 ≤ total_tests kv.2)%nat
              ∧ (failure_count kv.2 ≤ total_tests kv.2)%nat
              ∧ ∃ pr, pr ∈ pairwise_results self ∧ kv.1 ∈ nodes pr.2)
           (node_statistics a)
  ∧ map node (problematic_nodes a) `sublist_of` map fst (node_statistics a).
Proof.
  cbv zeta. unfold _analyze_pairwise_results.
  destruct (collect_node_stats_invariant (pairwise_results self))
    as [Hnd Hall]. cbv zeta in Hnd, Hall.
  set (node_stats := collect_node_stats (pairwise_results self)) in *.
  set (table := node_statistics_table node_stats).
  assert (map fst table `sublist_of` map fst node_stats) as Hsub.
  { unfold table, node_statistics_table. clear Hnd Hall.
    induction node_stats as [|[k st] d IH]; [done|]. cbn [omap list_omap].
    cbn [snd fst]. destruct (bandwidths st); cbn [map fst].
    - by apply sublist_cons.
    - by apply sublist_skip. }
  assert (Forall (λ kv : string * node_statistics_entry,
                    (1 ≤ total_tests kv.2)%nat
                    ∧ (failure_count kv.2 ≤ total_tests kv.2)%nat
                    ∧ ∃ pr, pr ∈ pairwise_results self ∧ kv.1 ∈ nodes pr.2)
                 table) as Htable.
  { unfold table, node_statistics_table. clear Hnd Hsub.
    induction Hall as [|[k st] d (H1 & H2 & _ & H4) Hd IH];
      [constructor|].
    cbn [omap list_omap]. cbn [snd fst] in *.
    destruct (bandwidths st); [done|]. constructor; [|done]. by cbn. }
  assert (NoDup (map fst table)) as Hndt by (by eapply sublist_NoDup).
  destruct (map (λ kv : string * node_statistics_entry,
                   average_bandwidth_gb_s kv.2) table)
    as [|avg avgs] eqn:Havgs; cbn [node_statistics problematic_nodes].
  - split; [done|]. split; [done|]. apply sublist_nil_l.
  - split; [done|]. split; [done|].
    rewrite <-list_fmap_compose.
    set (threshold := F64.sub _ _). clearbody threshold.
    clear. induction table as [|kv t IH]; [done|].
    rewrite filter_cons. destruct (decide _); cbn [fmap list_fmap map].
    + by apply sublist_skip.
    + by apply sublist_cons.
Qed.

End PairwiseStatistics.

(** ** The test plan and what comes of pairs without a bandwidth *)

Lemma combinations2_length {A} (l : list A) :
  (2 * length (combinations2 l) = length l * (length l - 1))%nat.
Proof.
  induction l as [|x l IH]; [done|]. cbn [combinations2 length].
  rewrite length_app, length_map. nia.
Qed.

Section PairwisePlan.

Import PairwiseNodeTester.

Variable mpirun : nat → list string → Z → BisectionNodeTester.outcome.
Variable random_sample :
  list (string * string) → nat → list (string * string).

(** X9. [run_pairwise_tests] fails (with the [ValueError] of [random.sample])
    exactly when [max_pairs] is negative. When no cap applies, that is when
    [max_pairs] is missing, 0, or not below the number of pairs, it tests all
    [n * (n - 1) / 2] pairs of the roster and the sampling function plays no
    part. The results dict grows by at most one entry per pair tested. *)
Theorem pairwise_test_plan (self : tester) (max_pairs : option Z) :
  let n := length (hosts self) in
  let run := run_pairwise_tests mpirun random_sample self max_pairs in
  (run = None ↔ ∃ m, max_pairs = Some m ∧ m < 0)
  ∧ (∀ out, run = Some out →
       (length (report_pairwise_results out.1)
        ≤ length (pairwise_results self) + total_pairs out.1)%nat)
  ∧ ((∀ m, max_pairs = Some m →
           m = 0 ∨ Z.of_nat (length (combinations2 (hosts self))) ≤ m) →
     ∃ out, run = Some out
            ∧ (2 * total_pairs out.1 = n * (n - 1))%nat
            ∧ ∀ other_sample,
                run_pairwise_tests mpirun other_sample self max_pairs
                = Some out).
Proof.
  cbv zeta. unfold run_pairwise_tests.
  set (all_pairs := combinations2 (hosts self)).
  assert (∀ pairs,
            let st := fold_left (test_pair mpirun) pairs
                        (BisectionNodeTester.new (hosts self)
                           (gpus_per_node self) None,
                         pairwise_results self, 1%nat) in
            (length st.1.2 ≤ length (pairwise_results self) + length pairs)%nat)
    as Hgrow.
  { intros pairs. cbv zeta.
    generalize (BisectionNodeTester.new (hosts self) (gpus_per_node self) None).
    generalize (pairwise_results self). generalize 1%nat.
    induction pairs as [|p pairs IH]; intros i d inner; [cbn; lia|].
    cbn [fold_left]. unfold test_pair at 2. cbn [length].
    etrans; [apply IH|].
    pose proof (dict_set_length (p.1 +:+ "↔" +:+ p.2)
                  {| nodes := [p.1; p.2];
                     bandwidth_gb_s :=
                       BisectionNodeTester.bandwidth_gb_s
                         (BisectionNodeTester._run_nccl_test mpirun inner
                            [p.1; p.2] ("pair_" +:+ pretty i)).1;
                     success :=
                       BisectionNodeTester.success
                         (BisectionNodeTester._run_nccl_test mpirun inner
                            [p.1; p.2] ("pair_" +:+ pretty i)).1 |} d).
    lia. }
  split; [|split].
  - destruct max_pairs as [m|].
    + destruct (negb (m =? 0) && (m <? Z.of_nat (length all_pairs))) eqn:Hcap.
      * destruct (m <? 0) eqn:Hneg.
        -- apply Z.ltb_lt in Hneg. split; [|done]. intros _. by exists m.
        -- apply Z.ltb_ge in Hneg.
           split; [by destruct (fold_left _ _ _) as [[??]?]|].
           intros (m' & [= <-] & Hm). lia.
      * split; [by destruct (fold_left _ _ _) as [[??]?]|].
        intros (m' & [= <-] & Hm).
        apply andb_false_iff in Hcap as [Hcap|Hcap].
        -- apply negb_false_iff, Z.eqb_eq in Hcap. lia.
        -- apply Z.ltb_ge in Hcap. lia.
    + split; [by destruct (fold_left _ _ _) as [[??]?]|].
      by intros (m' & [=] & _).
  - intros out.
    destruct (match max_pairs with
              | Some m =>
                  if negb (m =? 0) && (m <? Z.of_nat (length all_pairs))
                  then if m <? 0 then None
                       else Some (random_sample all_pairs (Z.to_nat m))
                  else Some all_pairs
              | None => Some all_pairs
              end) as [pairs|]; [|done].
    specialize (Hgrow pairs). cbv zeta in Hgrow.
    destruct (fold_left _ _ _) as [[inner results] i].
    intros [= <-]. by cbn.
  - intros Hnocap.
    assert (∀ sample : list (string * string) → nat → list (string * string),
              match max_pairs with
              | Some m =>
                  if negb (m =? 0) && (m <? Z.of_nat (length all_pairs))
                  then if m <? 0 then None
                       else Some (sample all_pairs (Z.to_nat m))
                  else Some all_pairs
              | None => Some all_pairs
              end = Some all_pairs) as Hchosen.
    { intros sample. destruct max_pairs as [m|]; [|done].
      destruct (Hnocap m eq_refl) as [->|Hm]; [done|].
      assert ((m <? Z.of_nat (length all_pairs)) = false) as ->
        by (apply Z.ltb_ge; lia).
      by rewrite andb_false_r. }
    rewrite Hchosen.
    destruct (fold_left _ _ _) as [[inner results] i] eqn:Hfold.
    eexists. split; [done|]. split.
    + cbn. apply combinations2_length.
    + intros other_sample. by rewrite Hchosen, Hfold.
Qed.

(** Pairs whose benchmark yields no usable bandwidth leave every node
    without statistics, and then nothing is flagged. *)
Lemma analysis_without_bandwidth (self : tester) :
  Forall (λ kv : string * pair_result, truthy (bandwidth_gb_s kv.2) = false)
         (pairwise_results self) →
  node_statistics (_analyze_pairwise_results self) = []
  ∧ problematic_nodes (_analyze_pairwise_results self) = [].
Proof.
  intros Hnone. unfold _analyze_pairwise_results.
  assert (Forall (λ kv : string * stats, bandwidths kv.2 = [])
                 (collect_node_stats (pairwise_results self))) as Hempty.
  { unfold collect_node_stats.
    apply (fold_left_invariant
             (Forall (λ kv : string * stats, bandwidths kv.2 = [])));
      [|constructor].
    intros d pr Hpr Hd. rewrite Forall_forall in Hnone.
    specialize (Hnone pr Hpr).
    apply (fold_left_invariant
             (Forall (λ kv : string * stats, bandwidths kv.2 = [])));
      [|done].
    intros d1 node _ Hd1. unfold record_pair. rewrite Hnone.
    apply dict_set_Forall; [|done]. cbn [snd bandwidths].
    destruct (dict_get node d1) as [s|] eqn:Hget; [|done].
    apply dict_get_Some in Hget. rewrite Forall_forall in Hd1.
    by apply Hd1 in Hget. }
  assert (node_statistics_table (collect_node_stats (pairwise_results self))
          = []) as ->.
  { unfold node_statistics_table.
    induction Hempty as [|[k st] d Hst Hd IH]; [done|].
    cbn [omap list_omap]. cbn [snd] in *. by rewrite Hst. }
  done.
Qed.

Lemma test_pair_without_bandwidth pairs inner results i :
  (∀ k ns procs,
     match mpirun k ns procs with
     | BisectionNodeTester.Exited _ bw => truthy bw = false
     | _ => True
     end) →
  Forall (λ kv : string * pair_result, truthy (bandwidth_gb_s kv.2) = false)
         results →
  Forall (λ kv : string * pair_result, truthy (bandwidth_gb_s kv.2) = false)
         (fold_left (test_pair mpirun) pairs (inner, results, i)).1.2.
Proof.
  intros Hnone.
  revert inner results i.
  induction pairs as [|p pairs IH]; intros inner results i Hres; [done|].
  cbn [fold_left]. unfold test_pair at 2. apply IH.
  apply dict_set_Forall; [|done]. cbn [snd bandwidth_gb_s].
  unfold BisectionNodeTester._run_nccl_test. cbn [fst].
  specialize (Hnone (length (BisectionNodeTester.test_history inner))
                [p.1; p.2]
                (Z.of_nat (length [p.1; p.2])
                 * BisectionNodeTester.gpus_per_node inner)).
  by destruct (mpirun _ _ _).
Qed.

End PairwisePlan.

(** X10. In pairwise mode, when no benchmark yields a usable bandwidth (every
    pair times out, say), no node gets statistics, nothing is flagged, and
    [main] ends with exit status 0, however many pairs failed. *)
Theorem pairwise_mode_without_bandwidth_exits_0
    (mpirun : nat → list string → Z → BisectionNodeTester.outcome)
    (random_sample : list (string * string) → nat → list (string * string))
    (args : arguments) :
  (∀ k ns procs,
     match mpirun k ns procs with
     | BisectionNodeTester.Exited _ bw => truthy bw = false
     | _ => True
     end) →
  hostfile_exists args = true →
  mode args = pairwise →
  (∀ m, max_pairs args = Some m → 0 ≤ m) →
  main mpirun random_sample args = 0.
Proof.
  intros Hnone Hexists Hmode Hcap. unfold main, run_detection.
  rewrite Hexists, Hmode. cbn [negb from_option mbind option_bind].
  unfold PairwiseNodeTester.run_pairwise_tests.
  set (all_pairs := combinations2 _).
  destruct (match max_pairs args with
            | Some m =>
                if negb (m =? 0) && (m <? Z.of_nat (length all_pairs))
                then if m <? 0 then None
                     else Some (random_sample all_pairs (Z.to_nat m))
                else Some all_pairs
            | None => Some all_pairs
            end) as [pairs|] eqn:Hchosen.
  - pose proof (test_pair_without_bandwidth (λ k, mpirun (0 + k)%nat) pairs
                  (BisectionNodeTester.new
                     (PairwiseNodeTester.hosts
                        (PairwiseNodeTester.new (hostfile args)
                           (gpus_per_node args)))
                     (PairwiseNodeTester.gpus_per_node
                        (PairwiseNodeTester.new (hostfile args)
                           (gpus_per_node args))) None)
                  [] 1%nat (λ k, Hnone _) (Forall_nil_2 _)) as Hres.
    cbn [PairwiseNodeTester.pairwise_results PairwiseNodeTester.new].
    destruct (fold_left _ _ _) as [[inner results] i]. cbn [fst snd] in Hres.
    unfold final_exit_status, final_bad_nodes.
    cbn [bisection_result pairwise_result fst PairwiseNodeTester.analysis].
    destruct (analysis_without_bandwidth
                (PairwiseNodeTester.set_pairwise_results results
                   (PairwiseNodeTester.new (hostfile args)
                      (gpus_per_node args))) Hres) as [_ ->].
    done.
  - destruct (max_pairs args) as [m|]; [|done].
    specialize (Hcap m eq_refl).
    destruct (negb _ && _); [|done].
    assert ((m <? 0) = false) as Hm by (apply Z.ltb_ge; lia).
    by rewrite Hm in Hchosen.
Qed.

Lemma pairwise_mode_without_bandwidth_exits_0_witness :
  let args := {| hostfile_exists := true; hostfile := ["n0"; "n1"; "n2"];
                 mode := pairwise; gpus_per_node := 8; threshold := None;
                 max_pairs := Some 2 |} in
  hostfile_exists args = true
  ∧ mode args = pairwise
  ∧ (∀ m, max_pairs args = Some m → 0 ≤ m)
  ∧ main timeout_benchmark first_pairs args = 0.
Proof.
  intros args.
  assert (∀ m, max_pairs args = Some m → 0 ≤ m) as Hcap
    by (intros m [= <-]; lia).
  split; [reflexivity|]. split; [reflexivity|]. split; [exact Hcap|].
  exact (pairwise_mode_without_bandwidth_exits_0 timeout_benchmark
           first_pairs args (λ _ _ _, I) eq_refl eq_refl Hcap).
Defined.

Lemma pairwise_test_plan_witness :
  let self := PairwiseNodeTester.new ["n0"; "n1"; "n2"; "n3"] 8 in
  (∀ m, Some 0 = Some m →
        m = 0
        ∨ Z.of_nat (length (combinations2 (PairwiseNodeTester.hosts self)))
          ≤ m)
  ∧ ∃ out,
      PairwiseNodeTester.run_pairwise_tests (steady_benchmark 100)
        first_pairs self (Some 0) = Some out
      ∧ PairwiseNodeTester.total_pairs out.1 = 6%nat.
Proof.
  intros self.
  assert (∀ m, Some 0 = Some m →
               m = 0
               ∨ Z.of_nat (length (combinations2
                                     (PairwiseNodeTester.hosts self))) ≤ m)
    as Hnocap by (intros m [= <-]; by left).
  split; [exact Hnocap|].
  destruct (proj2 (proj2 (pairwise_test_plan (steady_benchmark 100)
                            first_pairs self (Some 0))) Hnocap)
    as (out & Hrun & Hcount & _).
  exists out. split; [exact Hrun|]. cbn in Hcount. lia.
Defined.

(** * The final summary of [main] *)

(** X11. A node is in the final set of [main] exactly when the bisection
    condemned it or the pairwise analysis flagged it, whichever of the two
    ran; and the exit status is 1 exactly when that set has a member, 0
    otherwise. *)
Theorem final_bad_nodes_union (results : detection_results) :
  (∀ x, x ∈ final_bad_nodes results
        ↔ (∃ r, bisection_result results = Some r
                ∧ x ∈ BisectionNodeTester.report_bad_nodes r)
          ∨ (∃ r item,
               pairwise_result results = Some r
               ∧ item ∈ PairwiseNodeTester.problematic_nodes
                          (PairwiseNodeTester.analysis r)
               ∧ PairwiseNodeTester.node item = x))
  ∧ (final_exit_status results = 1 ↔ ∃ x, x ∈ final_bad_nodes results)
  ∧ (final_exit_status results = 0 ↔ final_bad_nodes results = ∅).
Proof.
  assert (∀ (items : list PairwiseNodeTester.problematic_node)
            (acc : gset string) x,
            x ∈ foldl (λ acc item, acc ∪ {[ PairwiseNodeTester.node item ]})
                  acc items
            ↔ x ∈ acc
              ∨ ∃ item, item ∈ items ∧ PairwiseNodeTester.node item = x)
    as Hfold.
  { induction items as [|item items IH]; intros acc x; cbn [foldl].
    - split; [by left|]. intros [?|(item & Hitem & _)]; [done|].
      by apply elem_of_nil in Hitem.
    - rewrite IH, elem_of_union, elem_of_singleton. split.
      + intros [[Hacc| ->]|(item' & Hin & Heq)]; [by left|right..].
        * exists item. split; [set_solver|done].
        * exists item'. split; [set_solver|done].
      + intros [?|(item' & Hin & Heq)]; [by left; left|].
        apply elem_of_cons in Hin as [->|Hin]; [left; by right|].
        right. by exists item'. }
  split; [|split].
  - intros x. unfold final_bad_nodes.
    destruct (pairwise_result results) as [pw|],
             (bisection_result results) as [bi|]; rewrite ?Hfold.
    + split.
      * intros [Hx|(item & Hin & Heq)]; [left|right].
        -- exists bi. split; [done|set_solver].
        -- by exists pw, item.
      * intros [(r & [= <-] & Hx)|(r & item & [= <-] & Hin & Heq)].
        -- left. set_solver.
        -- right. by exists item.
    + split.
      * intros [Hx|(item & Hin & Heq)]; [set_solver|right].
        by exists pw, item.
      * intros [(r & [=] & _)|(r & item & [= <-] & Hin & Heq)].
        right. by exists item.
    + split.
      * intros Hx. left. exists bi. split; [done|set_solver].
      * intros [(r & [= <-] & Hx)|(r & item & [=] & _)]. set_solver.
    + split; [set_solver|].
      by intros [(r & [=] & _)|(r & item & [=] & _)].
  - unfold final_exit_status.
    destruct (decide (final_bad_nodes results = ∅)) as [Hempty|Hne].
    + split; [done|]. intros [x Hx]. rewrite Hempty in Hx. set_solver.
    + split; [|done]. intros _. by apply set_choose_L.
  - unfold final_exit_status.
    by destruct (decide (final_bad_nodes results = ∅)).
Qed.

(** * Further properties of the outlier detection *)

(** ** The indices returned *)

Lemma filter_imap_increasing {A} (P : nat * A → Prop)
    `{!∀ x, Decision (P x)} (l : list A) (k : nat) :
  StronglySorted lt (map fst (filter P (imap (λ i v, ((k + i)%nat, v)) l)))
  ∧ Forall (λ i, (k ≤ i)%nat)
           (map fst (filter P (imap (λ i v, ((k + i)%nat, v)) l))).
Proof.
  revert k. induction l as [|x l IH]; intros k; [split; constructor|].
  rewrite imap_cons.
  rewrite (imap_ext _ (λ i v, ((S k + i)%nat, v)))
    by (intros i v _; cbn; f_equal; lia).
  destruct (IH (S k)) as [Hs Hb].
  rewrite filter_cons. destruct (decide _); cbn [map fst].
  - split; constructor.
    + done.
    + eapply Forall_impl; [exact Hb|]. cbn. lia.
    + lia.
    + eapply Forall_impl; [exact Hb|]. cbn. lia.
  - split; [done|]. eapply Forall_impl; [exact Hb|]. cbn. lia.
Qed.

Lemma where_increasing {A} (p : A → bool) (l : list A) :
  StronglySorted lt (SlowNodeDetector.where_ p l)
  ∧ Forall (λ i, (i < length l)%nat) (SlowNodeDetector.where_ p l).
Proof.
  split.
  - apply (filter_imap_increasing (λ iv : nat * A, p iv.2 = true) l 0).
  - apply Forall_forall. intros i Hi.
    apply elem_of_where in Hi as (v & Hv & _). by eapply lookup_lt_Some.
Qed.

(** X12. Both detectors return valid positions of the sample list, in strictly
    increasing order, so no position twice. *)
Theorem outlier_indices_well_formed (values : list spec_float)
    (threshold multiplier : spec_float) :
  let zs := SlowNodeDetector.detect_outliers_zscore values threshold in
  let iq := SlowNodeDetector.detect_outliers_iqr values multiplier in
  StronglySorted lt zs ∧ Forall (λ i, (i < length values)%nat) zs
  ∧ StronglySorted lt iq ∧ Forall (λ i, (i < length values)%nat) iq.
Proof.
  cbv zeta.
  unfold SlowNodeDetector.detect_outliers_zscore,
    SlowNodeDetector.detect_outliers_iqr.
  split; [|split; [|split]].
  - destruct (_ <? 3)%nat; [constructor|].
    destruct (F64.eqb _ _); [constructor|]. apply where_increasing.
  - destruct (_ <? 3)%nat; [constructor|].
    destruct (F64.eqb _ _); [constructor|].
    pose proof (where_increasing (λ z, F64.gtb z threshold)
                  (map (λ v, F64.abs (F64.div
                                        (F64.sub v (np.mean values))
                                        (np.std values))) values)) as [_ H].
    by rewrite length_map in H.
  - destruct (_ <? 4)%nat; [constructor|]. apply where_increasing.
  - destruct (_ <? 4)%nat; [constructor|]. apply where_increasing.
Qed.

(** ** A NaN among the samples *)

Lemma F64_add_nan_r x : F64.add x S754_nan = S754_nan.
Proof. by destruct x. Qed.

Lemma F64_sub_nan_r x : F64.sub x S754_nan = S754_nan.
Proof. by destruct x. Qed.

Lemma F64_mul_nan_r x : F64.mul x S754_nan = S754_nan.
Proof. by destruct x. Qed.

Lemma np_sum_nan a : S754_nan ∈ a → np.sum a = S754_nan.
Proof.
  intros Hin. unfold np.sum.
  rewrite (pairwise_sum_absorbing (λ x, x = S754_nan)); [done| |].
  - intros x y [-> | ->]; [done|by destruct x].
  - apply Exists_exists. by exists S754_nan.
Qed.

Lemma np_mean_nan a : S754_nan ∈ a → np.mean a = S754_nan.
Proof. intros Hin. unfold np.mean. by rewrite np_sum_nan. Qed.

Lemma np_std_nan a : S754_nan ∈ a → np.std a = S754_nan.
Proof.
  intros Hin. unfold np.std. rewrite (np_mean_nan a Hin).
  rewrite np_mean_nan; [done|].
  apply list_elem_of_fmap. exists S754_nan. split; [done|].
  apply list_elem_of_fmap. exists S754_nan. split; [done|exact Hin].
Qed.

(** X13. A single NaN among the samples silences both detectors: neither
    returns any index, whatever the other samples are. *)
Theorem nan_sample_silences_detectors (values : list spec_float)
    (threshold multiplier : spec_float) :
  S754_nan ∈ values →
  SlowNodeDetector.detect_outliers_zscore values threshold = []
  ∧ SlowNodeDetector.detect_outliers_iqr values multiplier = [].
Proof.
  intros Hin. split.
  - unfold SlowNodeDetector.detect_outliers_zscore.
    destruct (_ <? 3)%nat; [done|].
    rewrite (np_std_nan values Hin), (np_mean_nan values Hin).
    change (F64.eqb S754_nan F64.zero) with false.
    cbv iota. apply where_none. intros z Hz.
    apply list_elem_of_fmap in Hz as (v & -> & _).
    rewrite F64_sub_nan_r. exact (F64_gtb_nan threshold).
  - unfold SlowNodeDetector.detect_outliers_iqr.
    destruct (_ <? 4)%nat; [done|]. cbv zeta.
    assert (∀ q, np.percentile values q = S754_nan) as Hq.
    { intros q. unfold np.percentile.
      assert (existsb F64.is_nan values = true) as ->; [|done].
      apply existsb_exists. exists S754_nan.
      split; [by apply list_elem_of_In|done]. }
    rewrite !Hq. apply where_none. intros v _.
    change (F64.sub S754_nan S754_nan) with S754_nan.
    rewrite F64_mul_nan_r.
    change (F64.sub S754_nan S754_nan) with S754_nan.
    change (F64.add S754_nan S754_nan) with S754_nan.
    by rewrite F64_ltb_nan_r.
Qed.

Lemma nan_sample_silences_detectors_witness :
  let values := [F64.of_Z 10; F64.of_Z 10; F64.of_Z 10; F64.of_Z 10;
                 F64.of_Z 10; F64.of_Z 10; F64.of_Z 1; S754_nan] in
  S754_nan ∈ values
  ∧ SlowNodeDetector.detect_outliers_zscore (take 7 values) (F64.of_Z 2)
    = [6%nat]
  ∧ SlowNodeDetector.detect_outliers_zscore values (F64.of_Z 2) = []
  ∧ SlowNodeDetector.detect_outliers_iqr values (F64.ratio 15 10) = [].
Proof.
  intros values.
  assert (S754_nan ∈ values) as Hin by (unfold values; set_solver).
  split; [exact Hin|]. split; [reflexivity|].
  exact (nan_sample_silences_detectors values (F64.of_Z 2)
           (F64.ratio 15 10) Hin).
Defined.

(** ** What a reported host needs *)

Section ReportedHosts.

Import SlowNodeDetector.

Lemma analyze_node_performance_elem (r : test_results) (s : slow_node) :
  s ∈ analyze_node_performance r
  ↔ ∃ ts hs,
      tests r = Some ts ∧ hosts r = Some hs
      ∧ hs !! index s = Some (hostname s)
      ∧ report_host
          (detect_outliers_zscore (all_bandwidths ts) (F64.of_Z 2))
          (detect_outliers_iqr (all_bandwidths ts) (F64.ratio 15 10))
          (list_to_set
             (detect_outliers_zscore (all_bandwidths ts) (F64.of_Z 2))
           ∩ list_to_set
               (detect_outliers_iqr (all_bandwidths ts) (F64.ratio 15 10)))
          (default 8 (gpus_per_node r)) (index s) (hostname s) = Some s.
Proof.
  unfold analyze_node_performance.
  destruct (tests r) as [ts|];
    [|split; [by intros H%elem_of_nil|by intros (? & ? & [=] & _)]].
  destruct (all_bandwidths ts) as [|b bw] eqn:Hbw.
  { split; [by intros H%elem_of_nil|].
    intros (ts' & hs & [= <-] & _ & _ & Hrep). rewrite Hbw in Hrep.
    apply report_host_Some in Hrep as [(i & Hi & _) _].
    apply elem_of_intersection in Hi as [Hi _].
    by apply elem_of_list_to_set, elem_of_nil in Hi. }
  destruct (hosts r) as [hs|];
    [|split; [by intros H%elem_of_nil|by intros (? & ? & _ & [=] & _)]].
  cbv zeta. rewrite list_elem_of_omap. split.
  - intros ([idx h] & Hin & Hs). cbn [fst snd] in Hs.
    apply elem_of_lookup_imap in Hin as (k & w & [= -> ->] & Hk).
    pose proof Hs as Hs'.
    apply report_host_Some in Hs' as [_ ->]. cbn [index hostname].
    exists ts, hs. by rewrite Hbw.
  - intros (ts' & hs' & [= <-] & [= <-] & Hh & Hrep). rewrite Hbw in Hrep.
    exists (index s, hostname s). split; [|done].
    apply elem_of_lookup_imap. by exists (index s), (hostname s).
Qed.

Lemma iqr_outlier_needs_four values multiplier i :
  i ∈ detect_outliers_iqr values multiplier →
  (4 ≤ length values)%nat ∧ (i < length values)%nat.
Proof.
  unfold detect_outliers_iqr.
  destruct (length values <? 4)%nat eqn:Hlen;
    [by intros H%elem_of_nil|].
  apply Nat.ltb_ge in Hlen. intros Hi. split; [done|].
  apply elem_of_where in Hi as (v & Hv & _). by eapply lookup_lt_Some.
Qed.

(** X14. A host is only ever reported from an input that has both the tests
    and the hosts, at least four tests with results, and a positive number of
    GPUs per node (8 when the input has none); the reported entry carries the
    host's own position and name, and the first sample index of the host lies
    within the samples. So with fewer than four usable tests, or with a number
    of GPUs per node that is zero or negative, nothing is reported. *)
Theorem reported_host_requirements (r : test_results) (s : slow_node) :
  s ∈ analyze_node_performance r →
  ∃ ts hs,
    tests r = Some ts ∧ hosts r = Some hs
    ∧ hs !! index s = Some (hostname s)
    ∧ (4 ≤ length (all_bandwidths ts))%nat
    ∧ 0 < default 8 (gpus_per_node r)
    ∧ Z.of_nat (index s) * default 8 (gpus_per_node r)
      < Z.of_nat (length (all_bandwidths ts)).
Proof.
  intros (ts & hs & Hts & Hhs & Hh & Hrep)%analyze_node_performance_elem.
  exists ts, hs. do 3 (split; [done|]).
  apply report_host_Some in Hrep as [(i & Hi & Hrange) _].
  apply elem_of_intersection in Hi as [_ Hi].
  apply elem_of_list_to_set, iqr_outlier_needs_four in Hi as [H4 Hlt].
  split; [done|]. split; lia.
Qed.

Lemma reported_host_requirements_witness :
  let f := F64.of_Z in
  let r := {| tests := Some (map (λ v, Some [v])
                               [f 10; f 10; f 10; f 10; f 10; f 10;
                                f 10; f 10; f 10; f 10; f 10; f 100]);
              hosts := Some ["h0"; "h1"];
              gpus_per_node := None |} in
  let s := {| hostname := "h1"; index := 1;
              reason := "Performance outlier detected";
              confidence := "medium" |} in
  s ∈ analyze_node_performance r
  ∧ ∃ ts hs,
      tests r = Some ts ∧ hosts r = Some hs
      ∧ hs !! index s = Some (hostname s)
      ∧ (4 ≤ length (all_bandwidths ts))%nat
      ∧ 0 < default 8 (gpus_per_node r)
      ∧ Z.of_nat (index s) * default 8 (gpus_per_node r)
        < Z.of_nat (length (all_bandwidths ts)).
Proof.
  intros f r s.
  assert (s ∈ analyze_node_performance r) as Hin.
  { assert (analyze_node_performance r = [s]) as -> by by vm_compute.
    by apply list_elem_of_singleton. }
  split; [exact Hin|]. exact (reported_host_requirements r s Hin).
Defined.

Lemma omap_imap_increasing {A B} (g : nat → A → option B) (key : B → nat)
    (l : list A) (k : nat) :
  (∀ i v b, g i v = Some b → key b = i) →
  StronglySorted lt
    (map key (omap (λ iv : nat * A, g iv.1 iv.2)
                   (imap (λ i v, ((k + i)%nat, v)) l)))
  ∧ Forall (λ i, (k ≤ i)%nat)
      (map key (omap (λ iv : nat * A, g iv.1 iv.2)
                     (imap (λ i v, ((k + i)%nat, v)) l))).
Proof.
  intros Hkey. revert k.
  induction l as [|x l IH]; intros k; [split; constructor|].
  rewrite imap_cons.
  rewrite (imap_ext _ (λ i v, ((S k + i)%nat, v)))
    by (intros i v _; cbn; f_equal; lia).
  destruct (IH (S k)) as [Hs Hb]. cbn [omap list_omap fst snd].
  destruct (g (k + 0)%nat x) as [b|] eqn:Hg; cbn [map].
  - apply Hkey in Hg. rewrite Hg. split; constructor.
    + done.
    + eapply Forall_impl; [exact Hb|]. cbn. lia.
    + lia.
    + eapply Forall_impl; [exact Hb|]. cbn. lia.
  - split; [done|]. eapply Forall_impl; [exact Hb|]. cbn. lia.
Qed.

(** X15. Hosts are reported in the order of the host list, each at most once;
    and a sample index flagged by both methods gets at most one host reported:
    two reported entries whose ranges of sample indices share an index are the
    same entry. *)
Theorem reported_hosts_in_order (r : test_results) :
  StronglySorted lt (map index (analyze_node_performance r))
  ∧ ∀ s1 s2 (i : nat),
      s1 ∈ analyze_node_performance r →
      s2 ∈ analyze_node_performance r →
      Z.of_nat (index s1) * default 8 (gpus_per_node r) ≤ Z.of_nat i
        < Z.of_nat (index s1) * default 8 (gpus_per_node r)
          + default 8 (gpus_per_node r) →
      Z.of_nat (index s2) * default 8 (gpus_per_node r) ≤ Z.of_nat i
        < Z.of_nat (index s2) * default 8 (gpus_per_node r)
          + default 8 (gpus_per_node r) →
      s1 = s2.
Proof.
  split.
  - unfold analyze_node_performance.
    destruct (tests r) as [ts|]; [|constructor].
    destruct (all_bandwidths ts) as [|b bw]; [constructor|].
    destruct (hosts r) as [hs|]; [|constructor]. cbv zeta.
    refine (proj1 (omap_imap_increasing
                     (λ i v, report_host _ _ _ _ i v) index hs 0 _)).
    intros i v s Hs. by apply report_host_Some in Hs as [_ ->].
  - intros s1 s2 i Hs1 Hs2 Hr1 Hr2.
    apply analyze_node_performance_elem
      in Hs1 as (ts & hs & Hts & Hhs & Hh1 & Hrep1).
    apply analyze_node_performance_elem
      in Hs2 as (ts' & hs' & Hts' & Hhs' & Hh2 & Hrep2).
    assert (ts' = ts) as -> by congruence.
    assert (hs' = hs) as -> by congruence.
    assert (index s1 = index s2) as Hidx by nia.
    assert (hostname s1 = hostname s2) as Hname by congruence.
    rewrite Hidx, Hname in Hrep1. congruence.
Qed.

Lemma reported_hosts_in_order_witness :
  let f := F64.of_Z in
  let r := {| tests := Some (map (λ v, Some [v])
                               [f 10; f 10; f 10; f 10; f 10; f 10;
                                f 10; f 10; f 10; f 10; f 10; f 100]);
              hosts := Some ["h0"; "h1"];
              gpus_per_node := None |} in
  let s := {| hostname := "h1"; index := 1;
              reason := "Performance outlier detected";
              confidence := "medium" |} in
  s ∈ analyze_node_performance r
  ∧ Z.of_nat (index s) * default 8 (gpus_per_node r) ≤ Z.of_nat 11
    < Z.of_nat (index s) * default 8 (gpus_per_node r)
      + default 8 (gpus_per_node r)
  ∧ StronglySorted lt (map index (analyze_node_performance r))
  ∧ s = s.
Proof.
  intros f r s.
  assert (s ∈ analyze_node_performance r) as Hin.
  { assert (analyze_node_performance r = [s]) as -> by by vm_compute.
    by apply list_elem_of_singleton. }
  assert (Z.of_nat (index s) * default 8 (gpus_per_node r) ≤ Z.of_nat 11
          < Z.of_nat (index s) * default 8 (gpus_per_node r)
            + default 8 (gpus_per_node r)) as Hrange by (cbn; lia).
  split; [exact Hin|]. split; [exact Hrange|]. split.
  - exact (proj1 (reported_hosts_in_order r)).
  - exact (proj2 (reported_hosts_in_order r) s s 11%nat Hin Hin
             Hrange Hrange).
Defined.

(** X16. With one GPU per node a sample index is a host index, and every
    reported host is labelled "high": the host's own index is then among the
    outliers of both methods. *)
Theorem one_gpu_per_node_reports_high (r : test_results) (s : slow_node) :
  gpus_per_node r = Some 1 →
  s ∈ analyze_node_performance r →
  confidence s = "high"
  ∧ ∃ ts, tests r = Some ts
          ∧ index s ∈ detect_outliers_zscore (all_bandwidths ts)
                        (F64.of_Z 2)
          ∧ index s ∈ detect_outliers_iqr (all_bandwidths ts)
                        (F64.ratio 15 10).
Proof.
  intros Hg (ts & hs & Hts & Hhs & Hh & Hrep)%analyze_node_performance_elem.
  rewrite Hg in Hrep. change (default 8 (Some 1)) with 1 in Hrep.
  apply report_host_Some in Hrep as [(i & Hi & Hrange) Hs].
  assert (i = index s) as -> by lia.
  apply elem_of_intersection in Hi as [Hz Hiq].
  rewrite !elem_of_list_to_set in Hz, Hiq. split; [|by exists ts].
  rewrite Hs. cbn [confidence].
  by rewrite !bool_decide_eq_true_2.
Qed.

Lemma one_gpu_per_node_reports_high_witness :
  let f := F64.of_Z in
  let r := {| tests := Some (map (λ v, Some [v])
                               [f 10; f 10; f 10; f 10; f 10; f 10;
                                f 10; f 1]);
              hosts := Some ["h0"; "h1"; "h2"; "h3"; "h4"; "h5"; "h6"; "h7"];
              gpus_per_node := Some 1 |} in
  ∃ s, gpus_per_node r = Some 1
       ∧ analyze_node_performance r = [s]
       ∧ hostname s = "h7" ∧ confidence s = "high".
Proof.
  intros f r.
  assert (∃ s, analyze_node_performance r = [s] ∧ hostname s = "h7")
    as (s & Hs & Hname).
  { eexists. split; [by vm_compute|done]. }
  exists s. split; [done|]. split; [exact Hs|]. split; [exact Hname|].
  refine (proj1 (one_gpu_per_node_reports_high r s eq_refl _)).
  rewrite Hs. apply list_elem_of_singleton. done.
Defined.

End ReportedHosts.

(** * Properties of the raw-log analysis *)

Section RawLogFacts.

Import RawLogs.

Lemma group_append_sum size bw groups :
  group_sizes_sum (group_append size bw groups) = S (group_sizes_sum groups).
Proof.
  induction groups as [|[s bws] groups IH]; [done|]. cbn [group_append].
  destruct (decide (s = size)); cbn [group_sizes_sum foldr snd].
  - rewrite length_app. cbn. lia.
  - fold (group_sizes_sum (group_append size bw groups)). rewrite IH.
    fold (group_sizes_sum groups). lia.
Qed.

Lemma foldl_snoc {A B} (f : B → A → B) (b : B) (l : list A) (x : A) :
  foldl f b (l ++ [x]) = f (foldl f b l) x.
Proof. by rewrite foldl_app. Qed.

Lemma group_by_size_sum entries :
  group_sizes_sum (group_by_size entries) = length entries.
Proof.
  induction entries as [|e entries IH] using rev_ind; [done|].
  unfold group_by_size. rewrite foldl_snoc, group_append_sum.
  fold (group_by_size entries). rewrite IH, length_app. cbn. lia.
Qed.

Lemma group_append_elem size bw groups s bws :
  (s, bws) ∈ group_append size bw groups →
  (s, bws) ∈ groups
  ∨ s = size
    ∧ (bws = [bw] ∨ ∃ old, (s, old) ∈ groups ∧ bws = old ++ [bw]).
Proof.
  induction groups as [|[s' bws'] groups IH]; cbn [group_append].
  - intros [= -> ->]%list_elem_of_singleton. right. split; [done|by left].
  - destruct (decide (s' = size)) as [->|Hne].
    + intros [[= -> ->]|Hin]%elem_of_cons.
      * right. split; [done|]. right. exists bws'. split; [left|done].
      * left. by right.
    + intros [[= -> ->]|Hin]%elem_of_cons; [left; left|].
      destruct (IH Hin) as [?|(-> & [->|(old & ? & ->)])].
      * left. by right.
      * right. split; [done|by left].
      * right. split; [done|]. right. exists old. split; [by right|done].
Qed.

Lemma group_by_size_elem entries s bws :
  (s, bws) ∈ group_by_size entries →
  (length bws ≤ samples_of_size s entries)%nat.
Proof.
  revert s bws. induction entries as [|e entries IH] using rev_ind;
    intros s bws.
  { by intros ?%elem_of_nil. }
  unfold group_by_size. rewrite foldl_snoc. fold (group_by_size entries).
  unfold samples_of_size. rewrite filter_app, length_app.
  fold (samples_of_size s entries).
  intros [Hin|(-> & [->|(old & Hin & ->)])]%group_append_elem.
  - apply IH in Hin. lia.
  - rewrite filter_cons. rewrite decide_True by done. cbn. lia.
  - apply IH in Hin. rewrite filter_cons, decide_True by done.
    rewrite length_app. cbn. lia.
Qed.

Lemma pooled_acc groups acc :
  foldl (λ all_bw_values group,
           if (3 <=? length group.2)%nat then all_bw_values ++ group.2
           else all_bw_values)
        acc groups
  = acc ++ pooled groups.
Proof.
  unfold pooled. revert acc.
  induction groups as [|g groups IH] using rev_ind; intros acc.
  { cbn. by rewrite app_nil_r. }
  rewrite !foldl_snoc, IH. destruct (3 <=? _)%nat; [|done].
  by rewrite app_assoc.
Qed.

Lemma pooled_cons g groups :
  pooled (g :: groups)
  = (if (3 <=? length g.2)%nat then g.2 else []) ++ pooled groups.
Proof.
  unfold pooled at 1. cbn [foldl]. rewrite pooled_acc.
  by destruct (3 <=? _)%nat.
Qed.

Lemma pooled_length groups :
  (length (pooled groups) ≤ group_sizes_sum groups)%nat.
Proof.
  induction groups as [|g groups IH]; [done|].
  rewrite pooled_cons, length_app. cbn [group_sizes_sum foldr].
  fold (group_sizes_sum groups). destruct (3 <=? _)%nat; cbn; lia.
Qed.

Lemma pooled_nil groups :
  Forall (λ g : Z * list spec_float, (length g.2 < 3)%nat) groups →
  pooled groups = [].
Proof.
  induction 1 as [|g groups Hg _ IH]; [done|]. rewrite pooled_cons, IH.
  apply Nat.leb_gt in Hg. by rewrite Hg.
Qed.

Lemma pooled_three groups :
  pooled groups ≠ [] → (3 ≤ group_sizes_sum groups)%nat.
Proof.
  induction groups as [|g groups IH]; [done|]. rewrite pooled_cons.
  cbn [group_sizes_sum foldr]. fold (group_sizes_sum groups).
  destruct (3 <=? length g.2)%nat eqn:Hg.
  - apply Nat.leb_le in Hg. lia.
  - cbn [app]. intros ?%IH. lia.
Qed.

(** X17. The raw-log analysis gives at most one finding. A finding needs at
    least three performance lines in the log, and it counts at least one and
    at most all of them. [main] exits with 0 exactly when the log was
    analysed without a finding, with 2 exactly when an exception was raised,
    and with 1 both for a finding and for a missing input file. *)
Theorem raw_log_findings :
  (∀ input,
     (main input = 0
      ↔ ∃ perf_entries,
          input = Entries perf_entries
          ∧ analyze_from_raw_logs perf_entries = [])
     ∧ (main input = 1
        ↔ input = Missing
          ∨ ∃ perf_entries,
              input = Entries perf_entries
              ∧ analyze_from_raw_logs perf_entries ≠ [])
     ∧ (main input = 2 ↔ input = Raising))
  ∧ ∀ perf_entries,
      let found := analyze_from_raw_logs perf_entries in
      found = []
      ∨ ∃ n : nat,
          (1 ≤ n ≤ length perf_entries)%nat
          ∧ (3 ≤ length perf_entries)%nat
          ∧ detection <$> found = [pretty n +:+ " samples below threshold"].
Proof.
  split.
  - intros [| |perf_entries]; cbn [main]; [naive_solver..|].
    destruct (analyze_from_raw_logs perf_entries) as [|f found] eqn:Hrun;
      cbn [exit_status].
    + split; [|split]; split; try done.
      * intros _. by exists perf_entries.
      * intros [?|(es & [= <-] & Hne)]; [done|]. by rewrite Hrun in Hne.
    + split; [|split]; split; try done.
      * intros (es & [= <-] & Hnil). by rewrite Hrun in Hnil.
      * intros _. right. exists perf_entries. by rewrite Hrun.
  - intros perf_entries. cbv zeta. unfold analyze_from_raw_logs.
    destruct perf_entries as [|e entries]; [by left|].
    set (all := pooled (group_by_size (e :: entries))).
    assert (length all ≤ length (e :: entries))%nat as Hlen.
    { rewrite <-group_by_size_sum. apply pooled_length. }
    assert (all ≠ [] → 3 ≤ length (e :: entries))%nat as Hthree.
    { rewrite <-group_by_size_sum. apply pooled_three. }
    destruct all as [|b all'] eqn:Hall; [by left|]. cbv zeta.
    destruct (0 <? slow_samples (b :: all'))%nat eqn:Hslow; [|by left].
    right. exists (slow_samples (b :: all')). apply Nat.ltb_lt in Hslow.
    split; [|by auto]. split; [lia|].
    etrans; [|exact Hlen]. unfold slow_samples. cbv zeta. apply length_filter.
Qed.

(** X18. A log in which no message size has three performance lines, such as
    the log of a single benchmark run, gives no finding and the exit status 0,
    whatever the bandwidths are. *)
Theorem raw_log_needs_three_samples_per_size
    (perf_entries : list perf_entry) :
  (∀ size, samples_of_size size perf_entries < 3)%nat →
  analyze_from_raw_logs perf_entries = []
  ∧ exit_status (analyze_from_raw_logs perf_entries) = 0.
Proof.
  intros Hfew.
  assert (analyze_from_raw_logs perf_entries = []) as ->; [|done].
  unfold analyze_from_raw_logs. destruct perf_entries as [|e entries]; [done|].
  rewrite pooled_nil; [done|]. apply Forall_forall. intros [s bws] Hin.
  apply group_by_size_elem in Hin. specialize (Hfew s). cbn [snd]. lia.
Qed.

Lemma raw_log_needs_three_samples_per_size_witness :
  let line size bw :=
    {| size_bytes := size; count := size / 4; time_us := F64.of_Z 40;
       algbw := F64.of_Z bw; busbw := F64.of_Z bw |} in
  let log := [line 1024 1; line 2048 2; line 4096 200; line 1024 90;
              line 2048 1] in
  (∀ size, samples_of_size size log < 3)%nat
  ∧ analyze_from_raw_logs log = []
  ∧ exit_status (analyze_from_raw_logs log) = 0.
Proof.
  intros line log.
  assert (∀ size, samples_of_size size log < 3)%nat as Hfew.
  { intros size.
    destruct (decide (size = 1024)) as [->|?]; [vm_compute; lia|].
    destruct (decide (size = 2048)) as [->|?]; [vm_compute; lia|].
    destruct (decide (size = 4096)) as [->|?]; [vm_compute; lia|].
    unfold samples_of_size, log, line. rewrite !filter_cons, filter_nil.
    cbn [size_bytes]. rewrite !decide_False by done. cbn. lia. }
  split; [exact Hfew|].
  exact (raw_log_needs_three_samples_per_size log Hfew).
Defined.

End RawLogFacts.

(** * Host files as text *)

Section TextFacts.

Import text.

Lemma append_cons c s t : String c s +:+ t = String c (s +:+ t).
Proof. reflexivity. Qed.

Lemma append_nil_l t : EmptyString +:+ t = t.
Proof. reflexivity. Qed.

Lemma append_nil_r s : s +:+ EmptyString = s.
Proof.
  induction s as [|c s IH]; [done|]. by rewrite append_cons, IH.
Qed.

Lemma append_assoc s t u : (s +:+ t) +:+ u = s +:+ (t +:+ u).
Proof.
  induction s as [|c s IH]; [done|]. by rewrite !append_cons, IH.
Qed.

Lemma all_chars_app p s t :
  all_chars p (s +:+ t) = all_chars p s && all_chars p t.
Proof.
  induction s as [|c s IH]; [done|].
  rewrite append_cons. cbn [all_chars]. by rewrite IH, andb_assoc.
Qed.

Lemma all_chars_impl (p q : ascii → bool) s :
  (∀ c, p c = true → q c = true) →
  all_chars p s = true → all_chars q s = true.
Proof.
  intros Hpq. induction s as [|c s IH]; [done|]. cbn [all_chars].
  rewrite !andb_true_iff. intros [Hc Hs]. auto.
Qed.

Lemma lstrip_shape s :
  lstrip s = EmptyString
  ∨ ∃ c t, lstrip s = String c t ∧ isspace c = false.
Proof.
  induction s as [|c s IH]; [by left|]. cbn [lstrip].
  destruct (isspace c) eqn:Hc; [done|]. right. by exists c, s.
Qed.

Lemma rstrip_cons c s :
  isspace c = false → rstrip (String c s) = String c (rstrip s).
Proof. intros Hc. cbn [rstrip]. rewrite Hc. by destruct (rstrip s). Qed.

Lemma rstrip_app w s :
  all_chars (λ c, negb (isspace c)) w = true →
  rstrip (w +:+ s) = w +:+ rstrip s.
Proof.
  induction w as [|c w IH]; [done|]. cbn [all_chars].
  intros [Hc Hw]%andb_true_iff. apply negb_true_iff in Hc.
  by rewrite !append_cons, rstrip_cons, IH.
Qed.

Lemma rstrip_shape s :
  rstrip s = EmptyString
  ∨ ∃ c t u, s = String c t ∧ rstrip s = String c u.
Proof.
  destruct s as [|c s]; [by left|]. cbn [rstrip].
  destruct (rstrip s) as [|c' u]; [destruct (isspace c)|]; eauto 10.
Qed.

Lemma strip_shape s :
  strip s = EmptyString ∨ ∃ c t, strip s = String c t ∧ isspace c = false.
Proof.
  unfold strip. destruct (lstrip_shape s) as [->|(c & t & -> & Hc)];
    [by left|].
  right. rewrite rstrip_cons by done. eauto.
Qed.

Lemma strip_cons c s :
  isspace c = false → strip (String c s) = String c (rstrip s).
Proof.
  intros Hc. unfold strip. cbn [lstrip]. rewrite Hc. by apply rstrip_cons.
Qed.

Lemma split_unfold c s :
  split (String c s)
  = if isspace c then split s
    else
      match s with
      | String c' _ =>
          if isspace c' then String c EmptyString :: split s
          else
            match split s with
            | w :: ws => String c w :: ws
            | [] => [String c EmptyString]
            end
      | EmptyString => [String c EmptyString]
      end.
Proof. reflexivity. Qed.

Lemma split_cons c s :
  isspace c = false →
  ∃ w ws, split (String c s) = String c w :: ws
          ∧ all_chars (λ c, negb (isspace c)) w = true.
Proof.
  revert c. induction s as [|c' s IH]; intros c Hc; rewrite split_unfold, Hc.
  - by exists EmptyString, [].
  - destruct (isspace c') eqn:Hc'.
    + by exists EmptyString, (split (String c' s)).
    + destruct (IH c' Hc') as (w & ws & -> & Hw).
      exists (String c' w), ws. split; [done|].
      cbn [all_chars]. by rewrite Hc', Hw.
Qed.

Lemma startswith_hash c s :
  startswith (String c s) "#" = bool_decide (c = "#"%char).
Proof.
  unfold startswith. cbn [String.prefix].
  destruct (ascii_dec "#" c) as [<-|Hne].
  - by destruct s.
  - by rewrite bool_decide_eq_false_2 by congruence.
Qed.

Lemma line_host_name line h : line_host line = Some h → host_name h.
Proof.
  unfold line_host. cbv zeta.
  destruct (strip_shape line) as [->|(c & t & -> & Hc)]; [done|].
  rewrite bool_decide_eq_true_2 by done. rewrite startswith_hash.
  destruct (split_cons c t Hc) as (w & ws & -> & Hw).
  destruct (bool_decide (c = "#"%char)) eqn:Hhash; [done|].
  cbn [negb andb head]. intros [= <-]. split; [done|]. split.
  - cbn [all_chars]. by rewrite Hc, Hw.
  - by rewrite startswith_hash.
Qed.

Lemma line_host_None line :
  line_host line = None
  ↔ strip line = EmptyString ∨ startswith (strip line) "#" = true.
Proof.
  unfold line_host. cbv zeta.
  destruct (strip_shape line) as [->|(c & t & -> & Hc)]; [by split; [left|]|].
  rewrite bool_decide_eq_true_2 by done.
  destruct (split_cons c t Hc) as (w & ws & -> & Hw).
  destruct (startswith (String c t) "#"); cbn [negb andb head].
  - split; [by right|done].
  - split; [done|]. by intros [?|?].
Qed.

Lemma parse_lines lines acc :
  foldl (λ hosts line, hosts ≫= λ hosts, Hostfile.parse_line hosts line)
        (Some acc) lines
  = Some (acc ++ omap line_host lines).
Proof.
  revert acc. induction lines as [|line lines IH]; intros acc.
  { cbn. by rewrite app_nil_r. }
  cbn [foldl omap list_omap]. cbn [mbind option_bind].
  unfold Hostfile.parse_line at 2. cbv zeta.
  destruct (line_host line) as [h|] eqn:Hh.
  - unfold line_host in Hh. cbv zeta in Hh.
    destruct (_ && _); [|done]. rewrite Hh. cbn [mbind option_bind].
    rewrite IH. by rewrite <-app_assoc.
  - apply line_host_None in Hh.
    assert (bool_decide (strip line ≠ EmptyString)
            && negb (startswith (strip line) "#") = false) as ->.
    { destruct Hh as [->| ->]; [done|]. by rewrite andb_false_r. }
    by rewrite IH.
Qed.

Lemma parse_hostfile_lines content :
  Hostfile._parse_hostfile content
  = Some (omap line_host (readlines (universal_newlines content))).
Proof. unfold Hostfile._parse_hostfile. by rewrite parse_lines. Qed.


(** ** Lines *)

Lemma readlines_unfold c s :
  readlines (String c s)
  = if Ascii.eqb c LF then String c EmptyString :: readlines s
    else
      match readlines s with
      | l :: ls => String c l :: ls
      | [] => [String c EmptyString]
      end.
Proof. reflexivity. Qed.

Lemma writelines_cons l ls : writelines (l :: ls) = l +:+ writelines ls.
Proof. reflexivity. Qed.

Lemma writelines_readlines s : writelines (readlines s) = s.
Proof.
  induction s as [|c s IH]; [done|]. rewrite readlines_unfold.
  destruct (Ascii.eqb c LF).
  - by rewrite writelines_cons, append_cons, append_nil_l, IH.
  - destruct (readlines s) as [|l ls].
    + cbn in IH. subst s. done.
    + rewrite writelines_cons, append_cons. by rewrite <-IH.
Qed.

Lemma readlines_full_line body rest :
  newline_free body = true →
  readlines (body +:+ String LF rest)
  = (body +:+ String LF EmptyString) :: readlines rest.
Proof.
  induction body as [|c body IH]; [done|]. unfold newline_free.
  cbn [all_chars]. intros [Hc Hbody]%andb_true_iff.
  apply negb_true_iff in Hc.
  rewrite !append_cons, readlines_unfold, Hc. by rewrite IH.
Qed.

Lemma readlines_open_line l :
  open_line l → readlines l = [l].
Proof.
  intros [Hne Hfree]. induction l as [|c l IH]; [done|].
  unfold newline_free in Hfree. cbn [all_chars] in Hfree.
  apply andb_true_iff in Hfree as [Hc Hl]. apply negb_true_iff in Hc.
  rewrite readlines_unfold, Hc. destruct l as [|c' l]; [done|].
  by rewrite IH.
Qed.

Lemma full_line_cons c l :
  Ascii.eqb c LF = false → full_line l → full_line (String c l).
Proof.
  intros Hc (body & Hbody & ->). exists (String c body). split; [|done].
  unfold newline_free. cbn [all_chars]. by rewrite Hc.
Qed.

Lemma open_line_cons c l :
  Ascii.eqb c LF = false → newline_free l = true → open_line (String c l).
Proof.
  intros Hc Hl. split; [done|]. unfold newline_free. cbn [all_chars].
  by rewrite Hc.
Qed.

Lemma readlines_well_split s : well_split (readlines s).
Proof.
  induction s as [|c s IH]; [done|]. rewrite readlines_unfold.
  destruct (Ascii.eqb c LF) eqn:Hc.
  - apply Ascii.eqb_eq in Hc as ->.
    assert (full_line (String LF EmptyString)) by by exists EmptyString.
    cbn [well_split]. destruct (readlines s); [by left|done].
  - destruct (readlines s) as [|l ls].
    + right. by apply open_line_cons.
    + cbn [well_split] in *. destruct ls as [|l' ls].
      * destruct IH as [?|[_ ?]]; [left|right].
        -- by apply full_line_cons.
        -- by apply open_line_cons.
      * destruct IH as [? ?]. split; [|done]. by apply full_line_cons.
Qed.

Lemma readlines_writelines ls :
  well_split ls → readlines (writelines ls) = ls.
Proof.
  induction ls as [|l ls IH]; [done|]. cbn [well_split].
  rewrite writelines_cons. destruct ls as [|l' ls].
  - cbn [writelines foldr]. rewrite append_nil_r.
    intros [(body & Hbody & ->)|Hopen].
    + by rewrite readlines_full_line.
    + by apply readlines_open_line.
  - intros [(body & Hbody & ->) Hls].
    rewrite append_assoc, append_cons, append_nil_l.
    rewrite readlines_full_line by done. by rewrite IH.
Qed.

Lemma well_split_map (f : string → string) ls :
  (∀ l, full_line l → full_line (f l)) →
  (∀ l, open_line l → open_line (f l)) →
  well_split ls → well_split (map f ls).
Proof.
  intros Hfull Hopen. induction ls as [|l ls IH]; [done|].
  cbn [well_split map]. destruct ls as [|l' ls].
  - intros [?|?]; [left|right]; auto.
  - intros [? ?]. split; auto.
Qed.

Lemma well_split_full ls : Forall full_line ls → well_split ls.
Proof.
  induction 1 as [|l ls Hl Hls IH]; [done|]. cbn [well_split].
  destruct ls; [by left|done].
Qed.

Lemma all_chars_writelines p ls :
  all_chars p (writelines ls) = forallb (all_chars p) ls.
Proof.
  induction ls as [|l ls IH]; [done|].
  by rewrite writelines_cons, all_chars_app, IH.
Qed.

Lemma all_chars_readlines p s :
  all_chars p s = true → forallb (all_chars p) (readlines s) = true.
Proof. by rewrite <-all_chars_writelines, writelines_readlines. Qed.

Lemma universal_newlines_unfold c s :
  universal_newlines (String c s)
  = if Ascii.eqb c CR then
      match s with
      | String c' _ =>
          if Ascii.eqb c' LF then universal_newlines s
          else String LF (universal_newlines s)
      | EmptyString => String LF EmptyString
      end
    else String c (universal_newlines s).
Proof. reflexivity. Qed.

Lemma universal_newlines_cr_free s : cr_free (universal_newlines s) = true.
Proof.
  unfold cr_free. induction s as [|c s IH]; [done|].
  rewrite universal_newlines_unfold. destruct (Ascii.eqb c CR) eqn:Hc.
  - destruct s as [|c' s]; [done|]. by destruct (Ascii.eqb c' LF).
  - cbn [all_chars]. by rewrite Hc, IH.
Qed.

Lemma universal_newlines_id s :
  cr_free s = true → universal_newlines s = s.
Proof.
  unfold cr_free. induction s as [|c s IH]; [done|]. cbn [all_chars].
  intros [Hc Hs]%andb_true_iff. apply negb_true_iff in Hc.
  by rewrite universal_newlines_unfold, Hc, IH.
Qed.

(** ** Numbers in decimal *)

Lemma pretty_N_go_chars x s :
  all_chars (λ c, negb (isspace c)) s = true →
  all_chars (λ c, negb (isspace c)) (pretty_N_go x s) = true.
Proof.
  revert s. induction (N.lt_wf_0 x) as [x _ IH]; intros s Hs.
  assert (x = 0 ∨ 0 < x)%N as [->|?] by lia.
  - by rewrite pretty_N_go_0.
  - rewrite pretty_N_go_step by done. apply IH.
    { by apply N.div_lt. }
    cbn [all_chars]. rewrite Hs, andb_true_r.
    unfold pretty_N_char. by repeat case_match.
Qed.

Lemma pretty_Z_chars (z : Z) :
  all_chars (λ c, negb (isspace c)) (pretty z) = true.
Proof.
  assert (∀ p : positive,
            all_chars (λ c, negb (isspace c)) (pretty p) = true) as Hpos.
  { intros p. unfold pretty, pretty_positive, pretty, pretty_N.
    destruct (decide _); [done|]. by apply pretty_N_go_chars. }
  destruct z as [|p|p]; [done|apply Hpos|].
  unfold pretty, pretty_Z. rewrite all_chars_app. by rewrite Hpos.
Qed.

(** ** Host files *)

Lemma split_word w c r :
  isspace c = false →
  all_chars (λ c, negb (isspace c)) w = true →
  r = EmptyString ∨ (∃ sp u, r = String sp u ∧ isspace sp = true) →
  ∃ ws, split (String c (w +:+ r)) = String c w :: ws.
Proof.
  intros Hc Hw Hr. revert c Hc.
  induction w as [|c' w IH]; intros c Hc; rewrite split_unfold, Hc.
  - rewrite append_nil_l.
    destruct Hr as [->|(sp & u & -> & Hsp)]; [by eexists|].
    rewrite Hsp. by eexists.
  - cbn [all_chars] in Hw. apply andb_true_iff in Hw as [Hc' Hw].
    apply negb_true_iff in Hc'. rewrite append_cons, Hc'.
    destruct (IH Hw c' Hc') as [ws ->]. by eexists.
Qed.

Lemma line_host_entry node rest :
  host_name node →
  line_host (node +:+ String " " rest) = Some node.
Proof.
  intros (Hne & Hchars & Hhash). destruct node as [|c w]; [done|].
  cbn [all_chars] in Hchars. apply andb_true_iff in Hchars as [Hc Hw].
  apply negb_true_iff in Hc.
  unfold line_host. cbv zeta. rewrite append_cons, strip_cons by done.
  rewrite rstrip_app by done.
  rewrite bool_decide_eq_true_2 by done.
  rewrite startswith_hash in Hhash |- *. rewrite Hhash. cbn [negb andb].
  destruct (split_word w c (rstrip (String " " rest)) Hc Hw) as [ws ->];
    [|done].
  destruct (rstrip_shape (String " " rest))
    as [->|(c' & t & u & [= <- <-] & ->)]; [by left|].
  right. by exists " "%char, u.
Qed.

Lemma foldl_append {A} (g : A → string) (l : list A) (acc : string) :
  foldl (λ written x, written +:+ g x) acc l = acc +:+ writelines (map g l).
Proof.
  revert acc. induction l as [|x l IH]; intros acc.
  - cbn. by rewrite append_nil_r.
  - cbn [foldl map]. by rewrite IH, writelines_cons, append_assoc.
Qed.

Lemma nonspace_newline_free s :
  all_chars (λ c, negb (isspace c)) s = true → newline_free s = true.
Proof.
  apply all_chars_impl. intros c Hc.
  destruct (Ascii.eqb c LF) eqn:Heq; [|done].
  apply Ascii.eqb_eq in Heq as ->. done.
Qed.

Lemma nonspace_cr_free s :
  all_chars (λ c, negb (isspace c)) s = true → cr_free s = true.
Proof.
  apply all_chars_impl. intros c Hc.
  destruct (Ascii.eqb c CR) eqn:Heq; [|done].
  apply Ascii.eqb_eq in Heq as ->. done.
Qed.

(** X19. Parsing a host file never fails (the index error of [line.split()[0]]
    cannot happen), yields at most one host per line, and every host is a
    non-empty word without whitespace that does not start with the comment
    sign. *)
Theorem parse_hostfile_never_fails (content : string) :
  ∃ hosts,
    Hostfile._parse_hostfile content = Some hosts
    ∧ Forall host_name hosts
    ∧ (length hosts ≤ length (readlines (universal_newlines content)))%nat.
Proof.
  rewrite parse_hostfile_lines. eexists. split; [done|].
  generalize (readlines (universal_newlines content)). intros lines.
  induction lines as [|line lines [IH1 IH2]]; [by split|].
  cbn [omap list_omap]. destruct (line_host line) as [h|] eqn:Hh.
  - split; [|cbn; lia]. constructor; [|done]. by eapply line_host_name.
  - split; [done|]. cbn [length]. lia.
Qed.

(** X20. The temporary host file reads back as the nodes it was written for,
    whatever the number of GPUs per node, when the nodes are host names as a
    host file gives them. *)
Theorem temp_hostfile_round_trip (nodes : list string) (gpus_per_node : Z) :
  Forall host_name nodes →
  Hostfile._parse_hostfile (Hostfile._create_temp_hostfile nodes gpus_per_node)
  = Some nodes.
Proof.
  intros Hnodes. rewrite parse_hostfile_lines. f_equal.
  unfold Hostfile._create_temp_hostfile. rewrite foldl_append, append_nil_l.
  set (entry := λ node : string,
         node +:+ " slots=" +:+ pretty gpus_per_node +:+ String LF EmptyString).
  rewrite universal_newlines_id.
  - rewrite readlines_writelines.
    + induction Hnodes as [|node nodes Hnode _ IH]; [done|].
      cbn [map omap list_omap]. unfold entry at 1.
      change (" slots=" +:+ ?t) with (String " " ("slots=" +:+ t)).
      by rewrite line_host_entry, IH.
    + apply well_split_full, Forall_map.
      eapply Forall_impl; [exact Hnodes|]. intros node Hnode. cbn.
      exists (node +:+ " slots=" +:+ pretty gpus_per_node). split.
      * destruct Hnode as (_ & Hchars & _).
        pose proof (nonspace_newline_free node Hchars) as H1.
        pose proof (nonspace_newline_free _ (pretty_Z_chars gpus_per_node))
          as H2.
        unfold newline_free in *. by rewrite !all_chars_app, H1, H2.
      * unfold entry. by rewrite !append_assoc.
  - unfold cr_free. rewrite all_chars_writelines.
    apply forallb_forall. intros l [node [<- Hin]]%in_map_iff.
    rewrite Forall_forall in Hnodes.
    apply list_elem_of_In, Hnodes in Hin as (_ & Hchars & _).
    pose proof (nonspace_cr_free node Hchars) as H1.
    pose proof (nonspace_cr_free _ (pretty_Z_chars gpus_per_node)) as H2.
    unfold entry, cr_free in *. by rewrite !all_chars_app, H1, H2.
Qed.


(** ** Isolating hosts *)

Lemma line_host_isolated line : line_host ("# ISOLATED: " +:+ line) = None.
Proof.
  apply line_host_None. right.
  change ("# ISOLATED: " +:+ line) with (String "#" (" ISOLATED: " +:+ line)).
  by rewrite strip_cons, startswith_hash.
Qed.

Lemma update_lines bad lines acc n :
  foldl (λ state line, state ≫= λ state,
           NodeIsolator.update_line bad state line)
        (Some (acc, n)) lines
  = Some (acc ++ map (isolate bad) lines,
          (n + length (filter (λ h, h ∈ bad) (omap line_host lines)))%nat).
Proof.
  revert acc n. induction lines as [|line lines IH]; intros acc n.
  { cbn. by rewrite app_nil_r, Nat.add_0_r. }
  cbn [foldl map omap list_omap]. cbn [mbind option_bind].
  unfold NodeIsolator.update_line at 2. cbv zeta. unfold isolate at 1.
  destruct (line_host line) as [h|] eqn:Hh.
  - unfold line_host in Hh. cbv zeta in Hh.
    destruct (bool_decide (strip line ≠ EmptyString)) eqn:Hne; [|done].
    destruct (startswith (strip line) "#"); [done|].
    cbn [negb andb] in Hh. apply bool_decide_eq_true in Hne.
    rewrite bool_decide_eq_false_2 by done. cbn [orb].
    rewrite Hh. cbn [mbind option_bind]. rewrite filter_cons.
    destruct (decide (h ∈ bad)) as [Hbad|Hgood].
    + rewrite bool_decide_eq_true_2 by done. rewrite IH.
      rewrite <-app_assoc. cbn [length app]. do 2 f_equal. lia.
    + rewrite bool_decide_eq_false_2 by done. rewrite IH.
      by rewrite <-app_assoc.
  - apply line_host_None in Hh.
    assert (bool_decide (strip line = EmptyString)
            || startswith (strip line) "#" = true) as ->.
    { destruct Hh as [->| ->]; [done|]. by rewrite orb_true_r. }
    rewrite IH. by rewrite <-app_assoc.
Qed.

Lemma isolate_lines bad lines :
  omap line_host (map (isolate bad) lines)
  = filter (λ h, h ∉ bad) (omap line_host lines).
Proof.
  induction lines as [|line lines IH]; [done|].
  cbn [map omap list_omap]. unfold isolate at 1.
  destruct (line_host line) as [h|] eqn:Hh.
  - rewrite filter_cons. destruct (decide (h ∈ bad)) as [Hbad|Hgood].
    + rewrite bool_decide_eq_true_2 by done. rewrite line_host_isolated.
      by destruct (decide (h ∉ bad)).
    + rewrite bool_decide_eq_false_2 by done. rewrite Hh.
      destruct (decide (h ∉ bad)); [|done]. by rewrite IH.
  - by rewrite Hh.
Qed.

Lemma isolate_shape bad line :
  isolate bad line = line ∨ isolate bad line = "# ISOLATED: " +:+ line.
Proof.
  unfold isolate. destruct (line_host line); [|by left].
  destruct (bool_decide _); [by right|by left].
Qed.

Lemma isolate_well_split bad lines :
  well_split lines → well_split (map (isolate bad) lines).
Proof.
  apply well_split_map; intros l Hl;
    destruct (isolate_shape bad l) as [->| ->]; try done.
  - destruct Hl as (body & Hbody & ->). exists ("# ISOLATED: " +:+ body).
    split; [|by rewrite append_assoc].
    unfold newline_free in *. by rewrite all_chars_app, Hbody.
  - destruct Hl as [_ Hfree]. split; [done|].
    unfold newline_free in *. by rewrite all_chars_app, Hfree.
Qed.

Lemma isolate_cr_free bad lines :
  forallb cr_free lines = true →
  cr_free (writelines (map (isolate bad) lines)) = true.
Proof.
  intros Hlines. unfold cr_free. rewrite all_chars_writelines.
  apply forallb_forall. intros l [line [<- Hin]]%in_map_iff.
  rewrite forallb_forall in Hlines. specialize (Hlines line Hin).
  destruct (isolate_shape bad line) as [->| ->]; [done|].
  unfold cr_free in Hlines. by rewrite all_chars_app, Hlines.
Qed.

Lemma isolate_twice bad line :
  isolate bad (isolate bad line) = isolate bad line.
Proof.
  unfold isolate at 2. destruct (line_host line) as [h|] eqn:Hh.
  - destruct (bool_decide (h ∈ bad)) eqn:Hbad.
    + unfold isolate. by rewrite line_host_isolated, Hh, Hbad.
    + unfold isolate. by rewrite Hh, Hbad.
  - unfold isolate. by rewrite Hh.
Qed.

Lemma update_hostfile_lines bad content :
  NodeIsolator.update_hostfile bad (Some content)
  = Some (true,
          Some (writelines
                  (map (isolate bad)
                     (readlines (universal_newlines content))),
                length (filter (λ h, h ∈ bad)
                          (omap line_host
                             (readlines (universal_newlines content)))))).
Proof.
  unfold NodeIsolator.update_hostfile. by rewrite update_lines.
Qed.

Lemma readlines_isolated bad content :
  readlines
    (universal_newlines
       (writelines
          (map (isolate bad) (readlines (universal_newlines content)))))
  = map (isolate bad) (readlines (universal_newlines content)).
Proof.
  rewrite universal_newlines_id.
  - apply readlines_writelines, isolate_well_split, readlines_well_split.
  - apply isolate_cr_free, (all_chars_readlines _ _),
      universal_newlines_cr_free.
Qed.

(** X21. Updating a host file never fails, and the updated file lists exactly
    the hosts of the original that are not bad nodes, in the same order; the
    number of excluded lines it prints is the number of entries of the
    original file that name a bad node. *)
Theorem update_hostfile_drops_bad_nodes (bad_nodes : gset string)
    (content : string) :
  ∃ hosts updated,
    Hostfile._parse_hostfile content = Some hosts
    ∧ NodeIsolator.update_hostfile bad_nodes (Some content)
      = Some (true,
              Some (updated, length (filter (λ h, h ∈ bad_nodes) hosts)))
    ∧ Hostfile._parse_hostfile updated
      = Some (filter (λ h, h ∉ bad_nodes) hosts).
Proof.
  eexists _, _. split; [apply parse_hostfile_lines|].
  split; [apply update_hostfile_lines|].
  by rewrite parse_hostfile_lines, readlines_isolated, isolate_lines.
Qed.

(** X22. Updating an updated host file again changes nothing and excludes no
    line; an update keeps the number of lines; and an update that excludes no
    line writes the file back as it was read. *)
Theorem update_hostfile_idempotent (bad_nodes : gset string)
    (content updated : string) (excluded_count : nat) :
  NodeIsolator.update_hostfile bad_nodes (Some content)
  = Some (true, Some (updated, excluded_count)) →
  NodeIsolator.update_hostfile bad_nodes (Some updated)
  = Some (true, Some (updated, 0%nat))
  ∧ length (readlines (universal_newlines updated))
    = length (readlines (universal_newlines content))
  ∧ (excluded_count = 0%nat → updated = universal_newlines content).
Proof.
  rewrite update_hostfile_lines. intros [= <- <-].
  split; [|split].
  - rewrite update_hostfile_lines, readlines_isolated.
    rewrite map_map, (map_ext _ _ (isolate_twice bad_nodes)).
    rewrite isolate_lines. do 4 f_equal.
    generalize (omap line_host (readlines (universal_newlines content))).
    intros hosts. induction hosts as [|h hosts IH]; [done|].
    rewrite (filter_cons (λ h, h ∉ bad_nodes)).
    destruct (decide (h ∉ bad_nodes)) as [Hgood|Hbad]; [|done].
    rewrite filter_cons. by destruct (decide (h ∈ bad_nodes)).
  - by rewrite readlines_isolated, length_map.
  - intros Hnone.
    rewrite <-(writelines_readlines (universal_newlines content)) at 2.
    f_equal. generalize dependent (readlines (universal_newlines content)).
    intros lines. induction lines as [|line lines IH]; [done|].
    cbn [map omap list_omap]. unfold isolate at 1.
    destruct (line_host line) as [h|] eqn:Hh.
    + rewrite filter_cons. destruct (decide (h ∈ bad_nodes)); [done|].
      rewrite bool_decide_eq_false_2 by done. intros ?. by rewrite IH.
    + intros ?. by rewrite IH.
Qed.

Lemma temp_hostfile_round_trip_witness :
  let nodes := ["node-01"; "10.0.0.7"; "gpu_b"] in
  Forall host_name nodes
  ∧ Hostfile._create_temp_hostfile ["node-01"] 8
    = "node-01 slots=8" +:+ String LF EmptyString
  ∧ Hostfile._parse_hostfile (Hostfile._create_temp_hostfile nodes 8)
    = Some nodes.
Proof.
  intros nodes.
  assert (Forall host_name nodes) as Hnodes
    by (repeat constructor; done).
  split; [exact Hnodes|]. split; [reflexivity|].
  exact (temp_hostfile_round_trip nodes 8 Hnodes).
Defined.

Lemma update_hostfile_idempotent_witness :
  let nl := String LF EmptyString in
  let content :=
    "# rack 1" +:+ nl +:+ "n1 slots=8" +:+ nl +:+ nl
    +:+ "  n2 slots=8" +:+ String CR nl +:+ "n3" in
  let updated :=
    "# rack 1" +:+ nl +:+ "n1 slots=8" +:+ nl +:+ nl
    +:+ "# ISOLATED:   n2 slots=8" +:+ nl +:+ "n3" in
  NodeIsolator.update_hostfile {[ "n2" ]} (Some content)
  = Some (true, Some (updated, 1%nat))
  ∧ NodeIsolator.update_hostfile {[ "n2" ]} (Some updated)
    = Some (true, Some (updated, 0%nat))
  ∧ Hostfile._parse_hostfile content = Some ["n1"; "n2"; "n3"]
  ∧ Hostfile._parse_hostfile updated = Some ["n1"; "n3"].
Proof.
  intros nl content updated.
  assert (NodeIsolator.update_hostfile {[ "n2" ]} (Some content)
          = Some (true, Some (updated, 1%nat))) as Hupdate
    by (by vm_compute).
  split; [exact Hupdate|].
  split; [|split; by vm_compute].
  exact (proj1 (update_hostfile_idempotent {[ "n2" ]} content updated 1
                  Hupdate)).
Defined.

End TextFacts.

(** * The reports as the isolation helper reads them *)

Section Reports.

Import json IsolationHelper.

Lemma update_names (names : list string) (acc : node_set) :
  update (List (Str <$> names)) acc
  = Some (acc.1 ∪ list_to_set names, acc.2).
Proof.
  unfold update. cbn [iter mbind option_bind]. revert acc.
  induction names as [|name names IH]; intros [known others].
  - cbn. f_equal. f_equal. set_solver.
  - cbn [fmap list_fmap foldl mbind option_bind add fst snd].
    rewrite IH. cbn [fst snd list_to_set foldr]. do 2 f_equal. set_solver.
Qed.

Lemma add_nodes_problematic
    (items : list PairwiseNodeTester.problematic_node) (acc : node_set) :
  add_nodes (List (problematic_node_json <$> items)) acc
  = Some (acc.1 ∪ list_to_set (PairwiseNodeTester.node <$> items), acc.2).
Proof.
  unfold add_nodes. cbn [iter mbind option_bind]. revert acc.
  induction items as [|item items IH]; intros [known others].
  - cbn. f_equal. f_equal. set_solver.
  - cbn [fmap list_fmap foldl]. cbn [mbind option_bind].
    change (getitem (problematic_node_json item) "node")
      with (Some (Str (PairwiseNodeTester.node item))).
    cbn [mbind option_bind add fst snd].
    etrans; [apply IH|]. cbn [fst snd list_to_set foldr fmap list_fmap].
    do 2 f_equal. set_solver.
Qed.

Lemma load_dict (fields : list (string * value)) :
  load_bad_nodes_from_report (Dict fields)
  = bad_nodes ←
      match dict_get "bad_nodes" fields with
      | Some v => update v (∅, false)
      | None => Some (∅, false)
      end;
    bad_nodes ←
      match dict_get "analysis" fields with
      | Some analysis =>
          has_key ← contains "problematic_nodes" analysis;
          if has_key : bool then
            items ← getitem analysis "problematic_nodes";
            add_nodes items bad_nodes
          else Some bad_nodes
      | None => Some bad_nodes
      end;
    match dict_get "pairwise" fields with
    | Some report =>
        has_key ← contains "analysis" report;
        if has_key : bool then
          analysis ← getitem report "analysis";
          items ← get analysis "problematic_nodes" (List []);
          add_nodes items bad_nodes
        else Some bad_nodes
    | None => Some bad_nodes
    end.
Proof.
  unfold load_bad_nodes_from_report. cbv zeta. cbn [contains getitem].
  destruct (dict_get "bad_nodes" fields) as [v|];
    destruct (dict_get "analysis" fields) as [a|];
    destruct (dict_get "pairwise" fields) as [r|]; simpl; try done.
  all: repeat
         (match goal with
          | |- context [@mbind option _ _ _ _ ?x] =>
              lazymatch x with
              | Some _ => fail
              | None => fail
              | _ => destruct x as [[]|]
              end
          end; simpl; try done).
Qed.

(** X23. From the report file of a bisection the helper loads exactly the bad
    nodes of the report, and from the report file of the pairwise tests
    exactly the names of the problematic nodes of the analysis, without
    raising; the two together are the final set of bad nodes that [main] of
    the detection prints for the same run. *)
Theorem helper_loads_reported_nodes
    (found : BisectionNodeTester.report)
    (pairs : PairwiseNodeTester.report)
    (timestamp timestamp' : string) (duration_seconds : spec_float)
    (test_history pairwise_results : value) :
  ∃ from_bisection from_pairwise : gset string,
    load_bad_nodes_from_report
      (bisection_report_json found timestamp duration_seconds
         test_history)
    = Some (from_bisection, false)
    ∧ load_bad_nodes_from_report
        (pairwise_report_json pairs timestamp' pairwise_results)
      = Some (from_pairwise, false)
    ∧ from_bisection = BisectionNodeTester.report_bad_nodes found
    ∧ from_pairwise
      = list_to_set
          (PairwiseNodeTester.node
             <$> PairwiseNodeTester.problematic_nodes
                   (PairwiseNodeTester.analysis pairs))
    ∧ from_bisection ∪ from_pairwise
      = final_bad_nodes {| bisection_result := Some found;
                           pairwise_result := Some pairs |}.
Proof.
  eexists _, _. split; [|split; [|split; [|split]]].
  - unfold bisection_report_json. rewrite load_dict.
    change (dict_get "bad_nodes" _)
      with (Some (List (Str <$> elements
                          (BisectionNodeTester.report_bad_nodes found)))).
    change (dict_get "analysis" _) with (@None value).
    change (dict_get "pairwise" _) with (@None value).
    cbv beta iota. rewrite update_names.
    cbn [mbind option_bind fst snd]. reflexivity.
  - unfold pairwise_report_json. rewrite load_dict.
    change (dict_get "bad_nodes" _) with (@None value).
    change (dict_get "analysis" _)
      with (Some (analysis_json (PairwiseNodeTester.analysis pairs))).
    change (dict_get "pairwise" _) with (@None value).
    cbv beta iota. cbn [mbind option_bind]. unfold analysis_json.
    change (contains "problematic_nodes" _) with (Some true).
    cbn [mbind option_bind].
    change (getitem (Dict _) "problematic_nodes")
      with (Some (List (problematic_node_json
                          <$> PairwiseNodeTester.problematic_nodes
                                (PairwiseNodeTester.analysis pairs)))).
    cbn [mbind option_bind]. rewrite add_nodes_problematic.
    cbn [mbind option_bind fst snd]. reflexivity.
  - rewrite list_to_set_elements_L. set_solver.
  - set_solver.
  - unfold final_bad_nodes. cbn [bisection_result pairwise_result].
    rewrite list_to_set_elements_L.
    generalize (PairwiseNodeTester.problematic_nodes
                  (PairwiseNodeTester.analysis pairs)).
    generalize (BisectionNodeTester.report_bad_nodes found).
    intros bad items. rewrite !(left_id_L ∅ (∪)).
    revert bad. induction items as [|item items IH]; intros bad.
    + cbn. set_solver.
    + cbn [foldl fmap list_fmap list_to_set foldr]. rewrite <-IH.
      set_solver.
Qed.

End Reports.
